(** * Multi-cloud LLM router: the routing engine, embedded and verified

    A shallow embedding of the Go packages [cost], [health], [forward],
    [providers] and of the router's [main] package, one Rocq module per Go
    source file, followed by the properties the specification states about
    them.

    Conventions of the embedding:
    - Go's [float64] is Rocq's primitive binary64 [float]; every arithmetic
      expression keeps the parenthesisation and evaluation order of the Go
      source, comparisons are the IEEE ones ([NaN] compares false).
    - Go's [int] / [int64] is a [Z] wrapped to 64 bits, two's complement.
    - Go strings are byte strings: Rocq's [string].
    - Go maps keyed by strings are [gmap string _]; where Go iterates over a
      map, the iteration order is an explicit list argument.
    - [time.Now()] and the outcome of every network call are explicit
      arguments; a mutex-protected method body is one atomic step. *)

From Stdlib Require Import ZArith List String Ascii Bool Lia Floats Uint63.
From Stdlib Require Import DecimalString DecimalPos DecimalZ.
From stdpp Require Import gmap strings.
Import ListNotations.

Set Warnings "-inexact-float".
Local Open Scope string_scope.
Local Open Scope list_scope.
Local Open Scope Z_scope.

(* ********************************************************************* *)
(** * Part I: the model                                                    *)
(* ********************************************************************* *)

(* ===================================================================== *)
(** ** Go's [float64]                                                      *)
(* ===================================================================== *)

Module F64.

(** [math.Inf(1)] *)
Definition Inf : float := infinity.

(** [x != x], the usual NaN test. *)
Definition isNaN (x : float) : bool := negb (PrimFloat.eqb x x).

Definition ltb (x y : float) : bool := PrimFloat.ltb x y.
Definition leb (x y : float) : bool := PrimFloat.leb x y.

(** The comparison of the IEEE specification, as a three-way result on the
    specification floats. *)
Definition cmp (x y : float) : option comparison :=
  SFcompare (Prim2SF x) (Prim2SF y).

(** The conversion [float64(i)] of an [int]: round to nearest, ties to
    even. *)
Definition ofInt (i : Z) : float :=
  if i =? - 2 ^ 63 then (-9223372036854775808)%float
  else if i <? 0 then (- PrimFloat.of_uint63 (Uint63.of_Z (- i)))%float
  else PrimFloat.of_uint63 (Uint63.of_Z i).

End F64.

(* ===================================================================== *)
(** ** Go's [int64] (and [int] on a 64-bit platform)                       *)
(* ===================================================================== *)

Module Int64.

Definition minInt : Z := - 2 ^ 63.
Definition maxInt : Z := 2 ^ 63 - 1.

Definition inRange (z : Z) : Prop := minInt <= z <= maxInt.

(** Two's complement wrap-around of an exact result. *)
Definition wrap (z : Z) : Z := (z + 2 ^ 63) mod 2 ^ 64 - 2 ^ 63.

Definition add (x y : Z) : Z := wrap (x + y).
Definition sub (x y : Z) : Z := wrap (x - y).
Definition neg (x : Z) : Z := wrap (- x).
(** [x++] *)
Definition incr (x : Z) : Z := add x 1.

End Int64.

(* ===================================================================== *)
(** ** Go's [time.Time], as seconds since the Unix epoch                   *)
(* ===================================================================== *)

Definition Time := Z.

(** The zero value of [time.Time]: January 1, year 1, 00:00 UTC. *)
Definition zeroTime : Time := -62135596800.

(* ===================================================================== *)
(** ** Package [strconv]: decimal [int64] conversions                      *)
(* ===================================================================== *)

Module strconv.

(** [strconv.FormatInt(i, 10)] *)
Definition FormatInt (i : Z) : string := NilZero.string_of_int (Z.to_int i).

(** [strconv.ParseInt(s, 10, 64)]; [None] stands for a non-nil error
    (syntax or range). An optional sign, then at least one decimal
    digit and nothing else. *)
Definition ParseInt (s : string) : option Z :=
  match s with
  | EmptyString => None
  | String c rest =>
      let '(neg, digits) :=
        if Ascii.eqb c "+" then (false, rest)
        else if Ascii.eqb c "-" then (true, rest)
        else (false, s) in
      match NilZero.uint_of_string digits with
      | None => None
      | Some u =>
          let un := Z.of_uint u in
          if neg then (if un <=? 2 ^ 63 then Some (- un) else None)
          else (if un <? 2 ^ 63 then Some un else None)
      end
  end.

End strconv.

(* ===================================================================== *)
(** ** Packages [crypto/sha256], [crypto/hmac], [encoding/hex]             *)
(* ===================================================================== *)

(** SHA-256 as FIPS 180-4 defines it, on bytes and 32-bit words held in [Z]. *)
Module sha256.

Definition BlockSize : nat := 64.

Definition w32 (x : Z) : Z := x mod 2 ^ 32.
Definition add32 (x y : Z) : Z := w32 (x + y).
Definition rotr (n x : Z) : Z :=
  Z.lor (Z.shiftr x n) (w32 (Z.shiftl x (32 - n))).
Definition shr (n x : Z) : Z := Z.shiftr x n.
Definition not32 (x : Z) : Z := Z.lxor x 0xffffffff.

Definition Ch (x y z : Z) : Z := Z.lxor (Z.land x y) (Z.land (not32 x) z).
Definition Maj (x y z : Z) : Z :=
  Z.lxor (Z.lxor (Z.land x y) (Z.land x z)) (Z.land y z).
Definition Sigma0 (x : Z) : Z := Z.lxor (Z.lxor (rotr 2 x) (rotr 13 x)) (rotr 22 x).
Definition Sigma1 (x : Z) : Z := Z.lxor (Z.lxor (rotr 6 x) (rotr 11 x)) (rotr 25 x).
Definition sigma0 (x : Z) : Z := Z.lxor (Z.lxor (rotr 7 x) (rotr 18 x)) (shr 3 x).
Definition sigma1 (x : Z) : Z := Z.lxor (Z.lxor (rotr 17 x) (rotr 19 x)) (shr 10 x).

(** The constants of the standard, by their definition: the first 32 bits
    of the fractional parts of the cube roots (round constants) and of the
    square roots (initial hash value) of the first primes. *)
Definition primes : list Z :=
  [2; 3; 5; 7; 11; 13; 17; 19; 23; 29; 31; 37; 41; 43; 47; 53; 59; 61; 67; 71; 73;
   79; 83; 89; 97; 101; 103; 107; 109; 113; 127; 131; 137; 139; 149; 151; 157; 163;
   167; 173; 179; 181; 191; 193; 197; 199; 211; 223; 227; 229; 233; 239; 241; 251;
   257; 263; 269; 271; 277; 281; 283; 293; 307; 311].

(** The integer cube root below [2 ^ bits], bit by bit from the top. *)
Fixpoint cubeRoot (bits : nat) (n r : Z) : Z :=
  match bits with
  | O => r
  | S b =>
      let r' := r + 2 ^ Z.of_nat b in
      cubeRoot b n (if r' * r' * r' <=? n then r' else r)
  end.

Definition fracCubeRoot (p : Z) : Z := w32 (cubeRoot 40 (p * 2 ^ 96) 0).
Definition fracSquareRoot (p : Z) : Z := w32 (Z.sqrt (p * 2 ^ 64)).

Definition K : list Z := Eval vm_compute in map fracCubeRoot primes.

(** The eight working variables / the chaining value. *)
Record state := mkState { sa : Z; sb : Z; sc : Z; sd : Z; se : Z; sf : Z; sg : Z; sh : Z }.

Definition init : state :=
  Eval vm_compute in
  match map fracSquareRoot (take 8 primes) with
  | [a; b; c; d; e; f; g; h] => mkState a b c d e f g h
  | _ => mkState 0 0 0 0 0 0 0 0
  end.

(** Padding: the bit 1, zeros up to 56 modulo 64, the bit length on 8 bytes. *)
Definition be_bytes (n : nat) (x : Z) : list Z :=
  map (fun i => Z.land (Z.shiftr x (8 * Z.of_nat i)) 0xff) (rev (seq 0 n)).

Definition pad (msg : list Z) : list Z :=
  let len := length msg in
  let zeros := ((119 - len mod 64) mod 64)%nat in
  msg ++ [0x80] ++ repeat 0 zeros ++ be_bytes 8 (8 * Z.of_nat len).

Definition be_word (bs : list Z) : Z :=
  fold_left (fun acc b => acc * 256 + b) bs 0.

(** Cut a byte sequence into [n]-byte pieces ([fuel] bounds the number). *)
Fixpoint chunks (fuel n : nat) (bs : list Z) : list (list Z) :=
  match fuel with
  | O => []
  | S fuel' =>
      match bs with
      | [] => []
      | _ => take n bs :: chunks fuel' n (drop n bs)
      end
  end.

(** Message schedule, most recent word first: [w] holds W(t-1), W(t-2), ... *)
Fixpoint extend (k : nat) (w : list Z) : list Z :=
  match k with
  | O => w
  | S k' =>
      let wt := add32 (add32 (sigma1 (nth 1 w 0)) (nth 6 w 0))
                      (add32 (sigma0 (nth 14 w 0)) (nth 15 w 0)) in
      extend k' (wt :: w)
  end.

Definition schedule (block : list Z) : list Z :=
  rev (extend 48 (rev (map be_word (chunks 16 4 block)))).

Definition round (s : state) (kw : Z * Z) : state :=
  let t1 := add32 (add32 (add32 (sh s) (Sigma1 (se s)))
                         (add32 (Ch (se s) (sf s) (sg s)) (fst kw))) (snd kw) in
  let t2 := add32 (Sigma0 (sa s)) (Maj (sa s) (sb s) (sc s)) in
  mkState (add32 t1 t2) (sa s) (sb s) (sc s) (add32 (sd s) t1) (se s) (sf s) (sg s).

Definition compress (h : state) (block : list Z) : state :=
  let s := fold_left round (combine K (schedule block)) h in
  mkState (add32 (sa h) (sa s)) (add32 (sb h) (sb s))
          (add32 (sc h) (sc s)) (add32 (sd h) (sd s))
          (add32 (se h) (se s)) (add32 (sf h) (sf s))
          (add32 (sg h) (sg s)) (add32 (sh h) (sh s)).

Definition digest (s : state) : list Z :=
  be_bytes 4 (sa s) ++ be_bytes 4 (sb s) ++ be_bytes 4 (sc s) ++ be_bytes 4 (sd s) ++
  be_bytes 4 (se s) ++ be_bytes 4 (sf s) ++ be_bytes 4 (sg s) ++ be_bytes 4 (sh s).

(** [sha256.Sum256] *)
Definition Sum256 (msg : list Z) : list Z :=
  let p := pad msg in
  digest (fold_left compress (chunks (length p) 64 p) init).

End sha256.

Module hmac.

(** [hmac.New(sha256.New, key)], [Write(msg)], [Sum(nil)]: RFC 2104. *)
Definition blockKey (key : list Z) : list Z :=
  let k := if (sha256.BlockSize <? length key)%nat then sha256.Sum256 key else key in
  k ++ repeat 0 (sha256.BlockSize - length k).

Definition SumSHA256 (key msg : list Z) : list Z :=
  let k := blockKey key in
  let ipad := map (fun b => Z.lxor b 0x36) k in
  let opad := map (fun b => Z.lxor b 0x5c) k in
  sha256.Sum256 (opad ++ sha256.Sum256 (ipad ++ msg)).

(** [hmac.Equal]: a constant-time comparison; as a function, equality of
    the two byte strings. *)
Definition Equal (a b : string) : bool := String.eqb a b.

End hmac.

Module hex.

Definition digit (n : Z) : ascii :=
  nth (Z.to_nat n) (list_ascii_of_string "0123456789abcdef") "0"%char.

(** [hex.EncodeToString] *)
Fixpoint EncodeToString (bs : list Z) : string :=
  match bs with
  | [] => EmptyString
  | b :: rest =>
      String (digit (Z.shiftr b 4)) (String (digit (Z.land b 0xf)) (EncodeToString rest))
  end.

End hex.

(** [[]byte(s)] *)
Definition bytesOf (s : string) : list Z :=
  map (fun c => Z.of_N (N_of_ascii c)) (list_ascii_of_string s).

(* ===================================================================== *)
(** ** Package [net/http]: what the router uses of it                      *)
(* ===================================================================== *)

Module http.

Definition StatusOK : Z := 200.
Definition StatusTooManyRequests : Z := 429.
Definition StatusServiceUnavailable : Z := 503.

(** [http.Header]: from canonical header names to their values (every
    name the router passes is already in canonical form). *)
Definition Get (h : gmap string (list string)) (key : string) : string :=
  match h !! key with
  | Some (v :: _) => v
  | _ => ""
  end.

Definition Set_ (h : gmap string (list string)) (key value : string)
    : gmap string (list string) :=
  <[key := [value]]> h.

(** The fields of [http.Request] the forwarder reads and writes. *)
Record Request := mkRequest {
  Method : string;
  Path : string;                         (* req.URL.Path *)
  Header : gmap string (list string)
}.

(** What [client.Do] / [client.Get] comes back with. *)
Inductive roundTrip :=
| TransportError (err : string)
| Response (StatusCode : Z).

End http.

(* ===================================================================== *)
(** ** Package [cost] (router/internal/cost/engine.go)                     *)
(* ===================================================================== *)

Module cost.

(** [ClusterCost] holds cost tracking data for a cluster. *)
Record ClusterCost := mkClusterCost {
  CostPerHour : float;
  LastTokensPerSec : float;
  LastUpdate : Time;
  HistoricalCosts : list float
}.

(** [Engine] calculates and tracks cluster costs. *)
Record Engine := mkEngine {
  clusters : gmap string ClusterCost;
  overheadFactor : float
}.

Definition NewEngine (overheadFactor : float) : Engine :=
  {| clusters := ∅; overheadFactor := overheadFactor |}.

Definition AddCluster (e : Engine) (name : string) (costPerHour : float) : Engine :=
  {| clusters :=
       <[name := {| CostPerHour := costPerHour;
                    LastTokensPerSec := 0%float;
                    LastUpdate := zeroTime;
                    HistoricalCosts := [] |}]> (clusters e);
     overheadFactor := overheadFactor e |}.

(** [append], then the [len > 100] test and the re-slice [[1:]]. *)
Definition storeHistorical (hist : list float) (c : float) : list float :=
  let hist' := hist ++ [c] in
  if (100 <? length hist')%nat then drop 1 hist' else hist'.

(** The formula of the source, with its parenthesisation. *)
Definition costFormula (costPerHour tokensPerSecond overhead : float) : float :=
  let tokensPerHour := (tokensPerSecond * 3600)%float in
  ((costPerHour / tokensPerHour) * overhead * 1000)%float.

Definition CalculateCostPer1KTokens (e : Engine) (now : Time)
    (clusterName : string) (tokensPerSecond : float) : Engine * float :=
  match clusters e !! clusterName with
  | None => (e, F64.Inf)
  | Some cluster =>
      if F64.leb tokensPerSecond 0%float then (e, F64.Inf)
      else
        let costPer1KTokens :=
          costFormula (CostPerHour cluster) tokensPerSecond (overheadFactor e) in
        let cluster' :=
          {| CostPerHour := CostPerHour cluster;
             LastTokensPerSec := tokensPerSecond;
             LastUpdate := now;
             HistoricalCosts :=
               storeHistorical (HistoricalCosts cluster) costPer1KTokens |} in
        ({| clusters := <[clusterName := cluster']> (clusters e);
            overheadFactor := overheadFactor e |},
         costPer1KTokens)
  end.

Definition GetClusterCost (e : Engine) (clusterName : string) : float * bool :=
  match clusters e !! clusterName with
  | None => (0%float, false)
  | Some cluster =>
      match last (HistoricalCosts cluster) with
      | None => (0%float, false)
      | Some c => (c, true)
      end
  end.

Definition UpdateClusterCost (e : Engine) (clusterName : string)
    (newCostPerHour : float) : Engine :=
  match clusters e !! clusterName with
  | None => e
  | Some cluster =>
      {| clusters :=
           <[clusterName := {| CostPerHour := newCostPerHour;
                               LastTokensPerSec := LastTokensPerSec cluster;
                               LastUpdate := LastUpdate cluster;
                               HistoricalCosts := HistoricalCosts cluster |}]>
             (clusters e);
         overheadFactor := overheadFactor e |}
  end.

(** The mutating calls of the engine's API, and a run of them. *)
Inductive call :=
| CallAddCluster (name : string) (costPerHour : float)
| CallCalculate (now : Time) (name : string) (tokensPerSecond : float)
| CallUpdateClusterCost (name : string) (newCostPerHour : float).

Definition exec (e : Engine) (c : call) : Engine :=
  match c with
  | CallAddCluster name cph => AddCluster e name cph
  | CallCalculate now name tps => fst (CalculateCostPer1KTokens e now name tps)
  | CallUpdateClusterCost name cph => UpdateClusterCost e name cph
  end.

Definition run (e : Engine) (cs : list call) : Engine := fold_left exec cs e.

(** Successive cost computations for one cluster: the engine afterwards
    and the values returned, in call order. *)
Fixpoint calculateAll (e : Engine) (name : string) (samples : list (Time * float))
    : Engine * list float :=
  match samples with
  | [] => (e, [])
  | (now, tps) :: rest =>
      let '(e1, c) := CalculateCostPer1KTokens e now name tps in
      let '(e2, cs) := calculateAll e1 name rest in
      (e2, c :: cs)
  end.

Definition history (e : Engine) (name : string) : list float :=
  match clusters e !! name with
  | Some c => HistoricalCosts c
  | None => []
  end.

(** The last [n] elements of a list. *)
Definition lastN {A} (n : nat) (l : list A) : list A := drop (length l - n) l.

(** The loop [for i := start; i < len(costs); i++ { sum += costs[i] }]
    from [sum := 0.0]; [None] is the run-time panic of indexing below 0. *)
Definition sumFrom (costs : list float) (start : Z) : option float :=
  if start <? 0 then None
  else Some (fold_left (fun sum c => (sum + c)%float) (drop (Z.to_nat start) costs) 0%float).

(** [GetAverageCost] returns the average cost over the last N calculations. *)
Definition GetAverageCost (e : Engine) (clusterName : string) (lastN : Z)
    : option (float * bool) :=
  match clusters e !! clusterName with
  | None => Some (0%float, false)
  | Some cluster =>
      let costs := HistoricalCosts cluster in
      if (length costs =? 0)%nat then Some (0%float, false)
      else
        let lastN := if Z.of_nat (length costs) <? lastN
                     then Z.of_nat (length costs) else lastN in
        let start := Int64.sub (Z.of_nat (length costs)) lastN in
        match sumFrom costs start with
        | None => None
        | Some sum => Some ((sum / F64.ofInt lastN)%float, true)
        end
  end.

(** Helper function for internal use (assumes lock is held). *)
Definition getAverageCostUnsafe (cluster : ClusterCost) (lastN : Z)
    : option (float * bool) :=
  let costs := HistoricalCosts cluster in
  let lastN := if Z.of_nat (length costs) <? lastN
               then Z.of_nat (length costs) else lastN in
  if lastN =? 0 then Some (0%float, false)
  else
    let start := Int64.sub (Z.of_nat (length costs)) lastN in
    match sumFrom costs start with
    | None => None
    | Some sum => Some ((sum / F64.ofInt lastN)%float, true)
    end.

Module Info.
(** [ClusterCostInfo] provides cost information for a cluster. *)
Record ClusterCostInfo := mkClusterCostInfo {
  CostPerHour : float;
  LastTokensPerSec : float;
  LastCostPer1K : float;
  AvgCostPer1K : float;
  LastUpdate : Time
}.
End Info.

(** What [GetAllClusterCosts] reports for one cluster. *)
Definition infoOf (cluster : ClusterCost) : Info.ClusterCostInfo :=
  {| Info.CostPerHour := CostPerHour cluster;
     Info.LastTokensPerSec := LastTokensPerSec cluster;
     Info.LastCostPer1K :=
       match last (HistoricalCosts cluster) with
       | Some c => c
       | None => 0%float
       end;
     Info.AvgCostPer1K :=
       if (10 <=? length (HistoricalCosts cluster))%nat then
         match getAverageCostUnsafe cluster 10 with
         | Some (avg, _) => avg
         | None => 0%float
         end
       else 0%float;
     Info.LastUpdate := LastUpdate cluster |}.

(** [GetAllClusterCosts] returns current cost information for all clusters. *)
Definition GetAllClusterCosts (e : Engine) : gmap string Info.ClusterCostInfo :=
  infoOf <$> clusters e.

End cost.

(* ===================================================================== *)
(** ** Package [health] (router/internal/health/checker.go)                *)
(* ===================================================================== *)

Module health.

(** [ClusterMetrics] holds health and performance metrics for a cluster. *)
Record ClusterMetrics := mkClusterMetrics {
  Healthy : bool;
  LastCheck : Time;
  ResponseTime : float;
  LatencyP95 : float;
  QueueDepth : Z;
  TokensPerSecond : float;
  ErrorCount : Z;
  ConsecutiveError : Z;
  Endpoint : string
}.

(** [Checker] monitors cluster health and collects metrics. *)
Record Checker := mkChecker {
  clusters : gmap string ClusterMetrics;
  checkInterval : Z;
  maxConsecutiveErrors : Z
}.

Definition NewChecker (checkInterval : Z) : Checker :=
  {| clusters := ∅; checkInterval := checkInterval; maxConsecutiveErrors := 3 |}.

Definition withClusters (c : Checker) (m : gmap string ClusterMetrics) : Checker :=
  {| clusters := m;
     checkInterval := checkInterval c;
     maxConsecutiveErrors := maxConsecutiveErrors c |}.

Definition AddCluster (c : Checker) (name endpoint : string) (now : Time) : Checker :=
  withClusters c
    (<[name := {| Healthy := false;
                  LastCheck := now;
                  ResponseTime := 0%float;
                  LatencyP95 := 0%float;
                  QueueDepth := 0;
                  TokensPerSecond := 0%float;
                  ErrorCount := 0;
                  ConsecutiveError := 0;
                  Endpoint := endpoint |}]> (clusters c)).

(** [GetHealthyMetrics] returns metrics for only healthy clusters. *)
Definition GetHealthyMetrics (c : Checker) : gmap string ClusterMetrics :=
  filter (fun kv => Healthy (snd kv) = true) (clusters c).


Definition GetClusterMetrics (c : Checker) (name : string) : option ClusterMetrics :=
  clusters c !! name.

(** The decoded body of the [/stats] endpoint. *)
Record stats := mkStats {
  statsQueueDepth : Z;
  statsTokensPerSecond : float;
  statsLatencyP95 : float
}.

(** What the network answers during one check of one endpoint: the three
    GETs and, for [/stats], the decoded JSON ([None]: a decoding error). *)
Record probe := mkProbe {
  healthResp : http.roundTrip;
  metricsResp : http.roundTrip;
  statsResp : http.roundTrip;
  statsBody : option stats
}.

Definition getMetrics (p : probe) : Z * float * float :=
  let queueDepth := 0 in
  let tokensPerSec := 10%float in
  let latencyP95 := 1000%float in
  match metricsResp p with
  | http.TransportError _ => (queueDepth, tokensPerSec, latencyP95)
  | http.Response code =>
      if negb (code =? http.StatusOK) then (queueDepth, tokensPerSec, latencyP95)
      else
        match statsResp p with
        | http.TransportError _ => (queueDepth, tokensPerSec, latencyP95)
        | http.Response scode =>
            if scode =? http.StatusOK then
              match statsBody p with
              | Some st =>
                  (if 0 <=? statsQueueDepth st then statsQueueDepth st else queueDepth,
                   if F64.ltb 0%float (statsTokensPerSecond st)
                   then statsTokensPerSecond st else tokensPerSec,
                   if F64.ltb 0%float (statsLatencyP95 st)
                   then statsLatencyP95 st else latencyP95)
              | None => (queueDepth, tokensPerSec, latencyP95)
              end
            else (queueDepth, tokensPerSec, latencyP95)
        end
  end.

Definition performHealthCheck (p : probe) : bool * Z * float * float :=
  match healthResp p with
  | http.TransportError _ => (false, 0, 0%float, 0%float)
  | http.Response code =>
      if negb (code =? http.StatusOK) then (false, 0, 0%float, 0%float)
      else
        let '(queueDepth, tokensPerSec, latencyP95) := getMetrics p in
        (true, queueDepth, tokensPerSec, latencyP95)
  end.

(** The update [checkCluster] makes under the write lock. *)
Definition recordCheck (maxErrors : Z) (cluster : ClusterMetrics)
    (res : bool * Z * float * float) (responseTime : float) (now : Time)
    : ClusterMetrics :=
  let '(healthy, queueDepth, tokensPerSec, latencyP95) := res in
  if healthy then
    {| Healthy := true;
       LastCheck := now;
       ResponseTime := responseTime;
       LatencyP95 := latencyP95;
       QueueDepth := queueDepth;
       TokensPerSecond := tokensPerSec;
       ErrorCount := ErrorCount cluster;
       ConsecutiveError := 0;
       Endpoint := Endpoint cluster |}
  else
    let errorCount := Int64.incr (ErrorCount cluster) in
    let consecutive := Int64.incr (ConsecutiveError cluster) in
    {| Healthy := if maxErrors <=? consecutive then false else Healthy cluster;
       LastCheck := now;
       ResponseTime := responseTime;
       LatencyP95 := latencyP95;
       QueueDepth := queueDepth;
       TokensPerSecond := tokensPerSec;
       ErrorCount := errorCount;
       ConsecutiveError := consecutive;
       Endpoint := Endpoint cluster |}.

Definition checkCluster (c : Checker) (name : string) (p : probe)
    (responseTime : float) (now : Time) : Checker :=
  match clusters c !! name with
  | None => c
  | Some cluster =>
      withClusters c
        (<[name := recordCheck (maxConsecutiveErrors c) cluster
                     (performHealthCheck p) responseTime now]> (clusters c))
  end.

(** [MarkUnhealthy] manually marks a cluster as unhealthy. *)
Definition MarkUnhealthy (c : Checker) (name reason : string) : Checker :=
  match clusters c !! name with
  | None => c
  | Some cluster =>
      withClusters c
        (<[name := {| Healthy := false;
                      LastCheck := LastCheck cluster;
                      ResponseTime := ResponseTime cluster;
                      LatencyP95 := LatencyP95 cluster;
                      QueueDepth := QueueDepth cluster;
                      TokensPerSecond := TokensPerSecond cluster;
                      ErrorCount := Int64.incr (ErrorCount cluster);
                      ConsecutiveError := Int64.incr (ConsecutiveError cluster);
                      Endpoint := Endpoint cluster |}]> (clusters c))
  end.

(** [ForceHealthy] manually marks a cluster as healthy (for testing/admin
    override). *)
Definition ForceHealthy (c : Checker) (name : string) : Checker :=
  match clusters c !! name with
  | None => c
  | Some cluster =>
      withClusters c
        (<[name := {| Healthy := true;
                      LastCheck := LastCheck cluster;
                      ResponseTime := ResponseTime cluster;
                      LatencyP95 := LatencyP95 cluster;
                      QueueDepth := QueueDepth cluster;
                      TokensPerSecond := TokensPerSecond cluster;
                      ErrorCount := ErrorCount cluster;
                      ConsecutiveError := 0;
                      Endpoint := Endpoint cluster |}]> (clusters c))
  end.

(** The mutating calls on a checker: registration, one health check of
    one cluster (as [checkAllClusters] issues them, one per cluster and
    tick), and the two manual overrides. *)
Inductive call :=
| CallAddCluster (name endpoint : string) (now : Time)
| CallCheck (name : string) (p : probe) (responseTime : float) (now : Time)
| CallMarkUnhealthy (name reason : string)
| CallForceHealthy (name : string).

Definition exec (c : Checker) (k : call) : Checker :=
  match k with
  | CallAddCluster name endpoint now => AddCluster c name endpoint now
  | CallCheck name p rt now => checkCluster c name p rt now
  | CallMarkUnhealthy name reason => MarkUnhealthy c name reason
  | CallForceHealthy name => ForceHealthy c name
  end.

Definition run (c : Checker) (ks : list call) : Checker := fold_left exec ks c.

(** Whether a probe is a successful check: the liveness GET answered 200. *)
Definition succeeds (p : probe) : bool :=
  match healthResp p with
  | http.Response code => code =? http.StatusOK
  | http.TransportError _ => false
  end.

Definition isCheck (k : call) : bool :=
  match k with CallCheck _ _ _ _ => true | _ => false end.

(** The outcome of the checks of cluster [name] among [ks], in order. *)
Definition outcomes (name : string) (ks : list call) : list bool :=
  omap (fun k => match k with
                 | CallCheck n p _ _ => if String.eqb n name then Some (succeeds p) else None
                 | _ => None
                 end) ks.



End health.

(* ===================================================================== *)
(** ** Package [forward] (router/internal/forward/forwarder.go)            *)
(* ===================================================================== *)

Module forward.

(** The [tls.Config] built for a cluster: the loaded key pair and the
    server name. *)
Record tlsConfig := mkTlsConfig {
  CertFile : string;
  KeyFile : string;
  ServerName : string
}.

(** [Forwarder] handles request forwarding to clusters with authentication. *)
Record Forwarder := mkForwarder {
  hmacSecrets : gmap string string;
  tlsConfigs : gmap string tlsConfig
}.

Definition NewForwarder : Forwarder :=
  {| hmacSecrets := ∅; tlsConfigs := ∅ |}.

Definition SetHMACAuth (f : Forwarder) (clusterName sharedSecret : string) : Forwarder :=
  {| hmacSecrets := <[clusterName := sharedSecret]> (hmacSecrets f);
     tlsConfigs := tlsConfigs f |}.

(** [loaded] is whether [tls.LoadX509KeyPair] succeeded. *)
Definition SetMTLSAuth (f : Forwarder) (clusterName certFile keyFile : string)
    (loaded : bool) : Forwarder * option string :=
  if loaded then
    ({| hmacSecrets := hmacSecrets f;
        tlsConfigs :=
          <[clusterName := {| CertFile := certFile; KeyFile := keyFile;
                              ServerName := clusterName |}]> (tlsConfigs f) |},
     None)
  else (f, Some "failed to load client certificate").

(** Signature data: timestamp + method + path + body. *)
Definition signatureData (timestamp method path body : string) : string :=
  ((timestamp +:+ method) +:+ path) +:+ body.

(** [hex.EncodeToString] of the HMAC-SHA256 of the data under the secret. *)
Definition sign (secret data : string) : string :=
  hex.EncodeToString (hmac.SumSHA256 (bytesOf secret) (bytesOf data)).

(** [now] is [time.Now().Unix()]. *)
Definition addHMACAuth (req : http.Request) (secret body : string) (now : Z)
    : http.Request :=
  let timestamp := strconv.FormatInt now in
  let data := signatureData timestamp (http.Method req) (http.Path req) body in
  let signature := sign secret data in
  {| http.Method := http.Method req;
     http.Path := http.Path req;
     http.Header :=
       http.Set_ (http.Set_ (http.Set_ (http.Header req)
         "X-Timestamp" timestamp) "X-Signature" signature) "X-Auth-Type" "hmac-sha256" |}.

Definition addAuthentication (f : Forwarder) (req : http.Request)
    (clusterName body : string) (now : Z) : http.Request :=
  match hmacSecrets f !! clusterName with
  | Some secret => addHMACAuth req secret body now
  | None => req
  end.

Definition abs (x : Z) : Z := if x <? 0 then Int64.neg x else x.

(** [ValidateHMACSignature] validates an incoming HMAC signature (for
    server-side validation). *)
Definition ValidateHMACSignature (req : http.Request) (secret body : string)
    (now : Z) : bool :=
  let timestamp := http.Get (http.Header req) "X-Timestamp" in
  let signature := http.Get (http.Header req) "X-Signature" in
  let authType := http.Get (http.Header req) "X-Auth-Type" in
  if String.eqb timestamp "" || String.eqb signature ""
     || negb (String.eqb authType "hmac-sha256") then false
  else
    match strconv.ParseInt timestamp with
    | None => false
    | Some ts =>
        if 300 <? abs (Int64.sub now ts) then false
        else
          let data := signatureData timestamp (http.Method req) (http.Path req) body in
          let expectedSignature := sign secret data in
          hmac.Equal signature expectedSignature
    end.

(** [getClientForCluster]: the TLS configuration of the client the request
    is sent with; [None] stands for the shared default client. *)
Definition getClientForCluster (f : Forwarder) (clusterName : string) : option tlsConfig :=
  tlsConfigs f !! clusterName.

End forward.

(* ===================================================================== *)
(** ** JSON values ([encoding/json] through [interface{}])                 *)
(* ===================================================================== *)

Module json.

(** A value as [json.Unmarshal] stores it in an [interface{}] ([nil],
    [bool], [float64], [string], [[]interface{}], [map[string]interface{}])
    and as [json.Marshal] renders it; [JInt] is a Go [int] or [int64] put
    into a value to be rendered, which decoding never produces. A nil
    slice is rendered as [null]: it is [JNull]. *)
#[warnings="-register-all"]
Inductive value :=
| JNull
| JBool (b : bool)
| JNumber (f : float)
| JInt (i : Z)
| JString (s : string)
| JArray (l : list value)
| JObject (m : gmap string value).

(** The type assertions [v.(string)], [v.(float64)], [v.([]interface{})],
    [v.(map[string]interface{})] and [v.(bool)] on the result of a map
    lookup ([None]: the key is missing, the lookup gives [nil]). *)
Definition asString (v : option value) : option string :=
  match v with Some (JString s) => Some s | _ => None end.

Definition asFloat64 (v : option value) : option float :=
  match v with Some (JNumber f) => Some f | _ => None end.

Definition asSlice (v : option value) : option (list value) :=
  match v with Some (JArray l) => Some l | _ => None end.

Definition asMap (v : option value) : option (gmap string value) :=
  match v with Some (JObject m) => Some m | _ => None end.

Definition asBool (v : option value) : option bool :=
  match v with Some (JBool b) => Some b | _ => None end.

(** A map element read without the presence test: [nil] when missing. *)
Definition element (m : gmap string value) (key : string) : value :=
  match m !! key with Some v => v | None => JNull end.

(** [if v, ok := src[from]; ok { dst[to] = v }] *)
Definition copyKey (src : gmap string value) (from to : string)
    (dst : gmap string value) : gmap string value :=
  match src !! from with
  | Some v => <[to := v]> dst
  | None => dst
  end.

End json.

(* ===================================================================== *)
(** ** Package [providers] (interface.go, openai.go, claude.go, gemini.go) *)
(* ===================================================================== *)

Module providers.

(** [ModelPricing] represents pricing information for a model. *)
Record ModelPricing := mkModelPricing {
  InputPricePer1K : float;
  OutputPricePer1K : float;
  MaxTokens : Z;
  ContextWindow : Z
}.

(** The zero value, what a Go map yields for a missing key. *)
Definition zeroPricing : ModelPricing := mkModelPricing 0 0 0 0.

(** [ProviderConfig] represents configuration for an external provider. *)
Record ProviderConfig := mkProviderConfig {
  Name : string;
  Type_ : string;                        (* [Type]: "openai", "claude", "gemini" *)
  APIKey : string;
  BaseURL : string;
  DefaultModel : string;
  Enabled : bool
}.

Definition withBaseURL (config : ProviderConfig) (baseURL : string) : ProviderConfig :=
  {| Name := Name config; Type_ := Type_ config; APIKey := APIKey config;
     BaseURL := baseURL; DefaultModel := DefaultModel config;
     Enabled := Enabled config |}.

(** [providerConfig.APIKey = apiKey], on the loop's copy of the record. *)
Definition withAPIKey (config : ProviderConfig) (apiKey : string) : ProviderConfig :=
  {| Name := Name config; Type_ := Type_ config; APIKey := apiKey;
     BaseURL := BaseURL config; DefaultModel := DefaultModel config;
     Enabled := Enabled config |}.

(** How the HTTP call of a health check ends: the request could not be
    built, or the client came back. *)
Inductive callOutcome :=
| RequestError (err : string)
| Done (r : http.roundTrip).

(** The cost arithmetic the three adapters share, as each writes it. *)
Definition costOf (pricing : ModelPricing) (inputTokens outputTokens : Z) : float :=
  let inputCost := (F64.ofInt inputTokens * InputPricePer1K pricing / 1000)%float in
  let outputCost := (F64.ofInt outputTokens * OutputPricePer1K pricing / 1000)%float in
  (inputCost + outputCost)%float.

(** The [Provider] interface (without [Forward], whose request rewriting
    no property below depends on). [Health] returns [None] for [nil]. *)
Class Provider (P : Type) := {
  GetName : P -> string;
  Health : P -> callOutcome -> option string;
  CalculateCost : P -> Z -> Z -> float;
  GetModelPricing : P -> gmap string ModelPricing
}.

(** *** openai.go *)
Module OpenAI.

Record OpenAIProvider := mkOpenAIProvider {
  config : ProviderConfig;
  pricing : gmap string ModelPricing
}.

Definition NewOpenAIProvider (config : ProviderConfig) : OpenAIProvider :=
  let baseURL := if String.eqb (BaseURL config) "" then "https://api.openai.com"
                 else BaseURL config in
  {| config := withBaseURL config baseURL;
     pricing :=
       <["gpt-4" := mkModelPricing 0.03 0.06 8192 8192]>
       (<["gpt-4-turbo" := mkModelPricing 0.01 0.03 4096 128000]>
       (<["gpt-3.5-turbo" := mkModelPricing 0.0005 0.0015 4096 16385]>
       (<["gpt-3.5-turbo-16k" := mkModelPricing 0.003 0.004 16384 16385]> ∅))) |}.

Definition Name (p : OpenAIProvider) : string := Name (config p).

Definition Health (p : OpenAIProvider) (out : callOutcome) : option string :=
  match out with
  | RequestError err => Some err
  | Done (http.TransportError err) => Some err
  | Done (http.Response code) =>
      if negb (code =? http.StatusOK) then
        Some ("OpenAI health check failed with status " +:+ strconv.FormatInt code)
      else None
  end.

Definition CalculateCost (p : OpenAIProvider) (inputTokens outputTokens : Z) : float :=
  let model := if String.eqb (DefaultModel (config p)) "" then "gpt-3.5-turbo"
               else DefaultModel (config p) in
  let pricing :=
    match pricing p !! model with
    | Some pr => pr
    | None => default zeroPricing (pricing p !! "gpt-3.5-turbo")
    end in
  costOf pricing inputTokens outputTokens.

Definition GetModelPricing (p : OpenAIProvider) : gmap string ModelPricing := pricing p.

End OpenAI.

(** *** claude.go *)
Module Claude.

Record ClaudeProvider := mkClaudeProvider {
  config : ProviderConfig;
  pricing : gmap string ModelPricing
}.

Definition NewClaudeProvider (config : ProviderConfig) : ClaudeProvider :=
  let baseURL := if String.eqb (BaseURL config) "" then "https://api.anthropic.com"
                 else BaseURL config in
  {| config := withBaseURL config baseURL;
     pricing :=
       <["claude-3-5-sonnet-20241022" := mkModelPricing 0.003 0.015 8192 200000]>
       (<["claude-3-opus-20240229" := mkModelPricing 0.015 0.075 4096 200000]>
       (<["claude-3-sonnet-20240229" := mkModelPricing 0.003 0.015 4096 200000]>
       (<["claude-3-haiku-20240307" := mkModelPricing 0.00025 0.00125 4096 200000]> ∅))) |}.

Definition Name (p : ClaudeProvider) : string := Name (config p).

(** Accepts both 200 and 429 (rate limit) as healthy responses. *)
Definition Health (p : ClaudeProvider) (out : callOutcome) : option string :=
  match out with
  | RequestError err => Some err
  | Done (http.TransportError err) => Some err
  | Done (http.Response code) =>
      if negb (code =? http.StatusOK) && negb (code =? http.StatusTooManyRequests) then
        Some ("Claude health check failed with status " +:+ strconv.FormatInt code)
      else None
  end.

Definition CalculateCost (p : ClaudeProvider) (inputTokens outputTokens : Z) : float :=
  let model := if String.eqb (DefaultModel (config p)) "" then "claude-3-haiku-20240307"
               else DefaultModel (config p) in
  let pricing :=
    match pricing p !! model with
    | Some pr => pr
    | None => default zeroPricing (pricing p !! "claude-3-haiku-20240307")
    end in
  costOf pricing inputTokens outputTokens.

Definition GetModelPricing (p : ClaudeProvider) : gmap string ModelPricing := pricing p.

(** The conversion [int(f)] of a [float64]: the fraction is discarded;
    when the result does not fit the behaviour is implementation-specific,
    [unrepresentable] stands for it. *)
Definition truncate (f : float) : option Z :=
  match Prim2SF f with
  | S754_zero _ => Some 0
  | S754_finite s m e =>
      let magnitude := if 0 <=? e then Z.pos m * 2 ^ e else Z.pos m / 2 ^ (- e) in
      Some (if s then - magnitude else magnitude)
  | _ => None
  end.

Definition intOf (unrepresentable : float -> Z) (f : float) : Z :=
  match truncate f with
  | Some i => if (Int64.minInt <=? i) && (i <=? Int64.maxInt) then i else unrepresentable f
  | None => unrepresentable f
  end.

(** [convertToClaudeFormat]: the map handed to [json.Marshal]. *)
Definition convertToClaudeFormat (p : ClaudeProvider) (unrepresentable : float -> Z)
    (requestData : gmap string json.value) : gmap string json.value :=
  let claudeRequest : gmap string json.value := ∅ in
  let claudeRequest :=
    match json.asString (requestData !! "model") with
    | Some model => <["model" := json.JString model]> claudeRequest
    | None =>
        if negb (String.eqb (DefaultModel (config p)) "") then
          <["model" := json.JString (DefaultModel (config p))]> claudeRequest
        else <["model" := json.JString "claude-3-haiku-20240307"]> claudeRequest
    end in
  let claudeRequest :=
    match json.asFloat64 (requestData !! "max_tokens") with
    | Some maxTokens =>
        <["max_tokens" := json.JInt (intOf unrepresentable maxTokens)]> claudeRequest
    | None => <["max_tokens" := json.JInt 4096]> claudeRequest
    end in
  let claudeRequest :=
    match json.asSlice (requestData !! "messages") with
    | Some messages => <["messages" := json.JArray messages]> claudeRequest
    | None => claudeRequest
    end in
  let claudeRequest := json.copyKey requestData "temperature" "temperature" claudeRequest in
  let claudeRequest := json.copyKey requestData "top_p" "top_p" claudeRequest in
  let claudeRequest := json.copyKey requestData "stream" "stream" claudeRequest in
  claudeRequest.

Definition extractClaudeContent (claudeData : gmap string json.value) : string :=
  match json.asSlice (claudeData !! "content") with
  | Some (first :: _) =>
      match json.asMap (Some first) with
      | Some item =>
          match json.asString (item !! "text") with
          | Some text => text
          | None => ""
          end
      | None => ""
      end
  | _ => ""
  end.

(** What a response conversion writes: the bytes it was given, or the
    rendering of a map. *)
Inductive body :=
| Raw (bytes : string)
| Marshal (v : gmap string json.value).

(** [convertFromClaudeFormat]; [parsed] is what [json.Unmarshal] makes of
    the response ([None]: an error), [idTime] and [created] are the two
    readings of [time.Now().Unix()], for the id and for the [created]
    field. *)
Definition convertFromClaudeFormat (p : ClaudeProvider) (claudeResponse : string)
    (parsed : option (gmap string json.value)) (idTime created : Z) : body :=
  match parsed with
  | None => Raw claudeResponse
  | Some claudeData =>
      let openaiResponse : gmap string json.value :=
        <["id" := json.JString ("chatcmpl-" +:+ strconv.FormatInt idTime)]>
        (<["object" := json.JString "chat.completion"]>
        (<["created" := json.JInt created]>
        (<["model" := json.element claudeData "model"]>
        (<["choices" :=
             json.JArray
               [json.JObject
                  (<["index" := json.JInt 0]>
                  (<["message" :=
                       json.JObject
                         (<["role" := json.JString "assistant"]>
                         (<["content" := json.JString (extractClaudeContent claudeData)]> ∅))]>
                  (<["finish_reason" := json.JString "stop"]> ∅)))]]> ∅)))) in
      let openaiResponse :=
        match json.asMap (claudeData !! "usage") with
        | Some usage => <["usage" := json.JObject usage]> openaiResponse
        | None => openaiResponse
        end in
      Marshal openaiResponse
  end.

End Claude.

(** *** gemini.go *)
Module Gemini.

Record GeminiProvider := mkGeminiProvider {
  config : ProviderConfig;
  pricing : gmap string ModelPricing
}.

Definition NewGeminiProvider (config : ProviderConfig) : GeminiProvider :=
  let baseURL := if String.eqb (BaseURL config) ""
                 then "https://generativelanguage.googleapis.com"
                 else BaseURL config in
  {| config := withBaseURL config baseURL;
     pricing :=
       <["gemini-1.5-pro" := mkModelPricing 0.0035 0.0105 8192 2000000]>
       (<["gemini-1.5-flash" := mkModelPricing 0.000075 0.0003 8192 1000000]>
       (<["gemini-pro" := mkModelPricing 0.0005 0.0015 2048 30720]> ∅)) |}.

Definition Name (p : GeminiProvider) : string := Name (config p).

Definition Health (p : GeminiProvider) (out : callOutcome) : option string :=
  match out with
  | RequestError err => Some err
  | Done (http.TransportError err) => Some err
  | Done (http.Response code) =>
      if negb (code =? http.StatusOK) then
        Some ("Gemini health check failed with status " +:+ strconv.FormatInt code)
      else None
  end.

Definition CalculateCost (p : GeminiProvider) (inputTokens outputTokens : Z) : float :=
  let model := if String.eqb (DefaultModel (config p)) "" then "gemini-pro"
               else DefaultModel (config p) in
  let pricing :=
    match pricing p !! model with
    | Some pr => pr
    | None => default zeroPricing (pricing p !! "gemini-pro")
    end in
  costOf pricing inputTokens outputTokens.

Definition GetModelPricing (p : GeminiProvider) : gmap string ModelPricing := pricing p.

(** The body of the loop over the messages in [convertToGeminiFormat]. *)
Definition convertMessage (parts : list json.value) (msg : json.value) : list json.value :=
  match json.asMap (Some msg) with
  | Some msgMap =>
      let role :=
        match json.asString (msgMap !! "role") with
        | Some r =>
            if String.eqb r "assistant" then Some "model"
            else if String.eqb r "system" then None      (* [continue] *)
            else Some "user"
        | None => Some "user"
        end in
      match role with
      | None => parts
      | Some role =>
          match json.asString (msgMap !! "content") with
          | Some content =>
              parts ++ [json.JObject
                          (<["role" := json.JString role]>
                          (<["parts" :=
                               json.JArray
                                 [json.JObject (<["text" := json.JString content]> ∅)]]> ∅))]
          | None => parts
          end
      end
  | None => parts
  end.

(** [convertToGeminiFormat]: the map handed to [json.Marshal] and the
    model. The slice the loop appends to starts as nil and is rendered as
    [null] when nothing was appended. *)
Definition convertToGeminiFormat (p : GeminiProvider)
    (requestData : gmap string json.value) : gmap string json.value * string :=
  let geminiRequest : gmap string json.value := <["contents" := json.JArray []]> ∅ in
  let model := DefaultModel (config p) in
  let model :=
    match json.asString (requestData !! "model") with
    | Some m => m
    | None => model
    end in
  let model := if String.eqb model "" then "gemini-pro" else model in
  let geminiRequest :=
    match json.asSlice (requestData !! "messages") with
    | Some messages =>
        let parts := fold_left convertMessage messages [] in
        <["contents" := match parts with
                        | [] => json.JNull
                        | _ => json.JArray parts
                        end]> geminiRequest
    | None => geminiRequest
    end in
  let generationConfig : gmap string json.value := ∅ in
  let generationConfig :=
    json.copyKey requestData "temperature" "temperature" generationConfig in
  let generationConfig := json.copyKey requestData "top_p" "topP" generationConfig in
  let generationConfig :=
    json.copyKey requestData "max_tokens" "maxOutputTokens" generationConfig in
  let geminiRequest :=
    if (0 <? size generationConfig)%nat then
      <["generationConfig" := json.JObject generationConfig]> geminiRequest
    else geminiRequest in
  (geminiRequest, model).

Definition extractGeminiContent (geminiData : gmap string json.value) : string :=
  match json.asSlice (geminiData !! "candidates") with
  | Some (first :: _) =>
      match json.asMap (Some first) with
      | Some candidate =>
          match json.asMap (candidate !! "content") with
          | Some content =>
              match json.asSlice (content !! "parts") with
              | Some (firstPart :: _) =>
                  match json.asMap (Some firstPart) with
                  | Some part =>
                      match json.asString (part !! "text") with
                      | Some text => text
                      | None => ""
                      end
                  | None => ""
                  end
              | _ => ""
              end
          | None => ""
          end
      | None => ""
      end
  | _ => ""
  end.

(** [convertFromGeminiFormat]: the map handed to [json.Marshal]; [parsed]
    is what [json.Unmarshal] makes of the response ([None]: an error),
    [idTime] and [created] are the two readings of [time.Now().Unix()],
    for the id and for the [created] field. *)
Definition convertFromGeminiFormat (p : GeminiProvider)
    (parsed : option (gmap string json.value)) (model : string) (idTime created : Z)
    : gmap string json.value :=
  match parsed with
  | None =>
      <["error" :=
          json.JObject
            (<["message" := json.JString "Failed to parse Gemini response"]>
            (<["type" := json.JString "api_error"]> ∅))]> ∅
  | Some geminiData =>
      let openaiResponse : gmap string json.value :=
        <["id" := json.JString ("chatcmpl-" +:+ strconv.FormatInt idTime)]>
        (<["object" := json.JString "chat.completion"]>
        (<["created" := json.JInt created]>
        (<["model" := json.JString model]>
        (<["choices" :=
             json.JArray
               [json.JObject
                  (<["index" := json.JInt 0]>
                  (<["message" :=
                       json.JObject
                         (<["role" := json.JString "assistant"]>
                         (<["content" :=
                              json.JString (extractGeminiContent geminiData)]> ∅))]>
                  (<["finish_reason" := json.JString "stop"]> ∅)))]]> ∅)))) in
      match json.asMap (geminiData !! "usageMetadata") with
      | Some usageMetadata =>
          let usage : gmap string json.value := ∅ in
          let usage := json.copyKey usageMetadata "promptTokenCount" "prompt_tokens" usage in
          let usage :=
            json.copyKey usageMetadata "candidatesTokenCount" "completion_tokens" usage in
          let usage := json.copyKey usageMetadata "totalTokenCount" "total_tokens" usage in
          if (0 <? size usage)%nat then <["usage" := json.JObject usage]> openaiResponse
          else openaiResponse
      | None => openaiResponse
      end
  end.

End Gemini.

#[global] Instance OpenAI_Provider : Provider OpenAI.OpenAIProvider :=
  {| GetName := OpenAI.Name; Health := OpenAI.Health;
     CalculateCost := OpenAI.CalculateCost;
     GetModelPricing := OpenAI.GetModelPricing |}.

#[global] Instance Claude_Provider : Provider Claude.ClaudeProvider :=
  {| GetName := Claude.Name; Health := Claude.Health;
     CalculateCost := Claude.CalculateCost;
     GetModelPricing := Claude.GetModelPricing |}.

#[global] Instance Gemini_Provider : Provider Gemini.GeminiProvider :=
  {| GetName := Gemini.Name; Health := Gemini.Health;
     CalculateCost := Gemini.CalculateCost;
     GetModelPricing := Gemini.GetModelPricing |}.

(** A value of interface type [Provider]: one of the three adapters. *)
Inductive adapter :=
| OpenAIAdapter (p : OpenAI.OpenAIProvider)
| ClaudeAdapter (p : Claude.ClaudeProvider)
| GeminiAdapter (p : Gemini.GeminiProvider).

#[global] Instance adapter_Provider : Provider adapter :=
  {| GetName a := match a with
                  | OpenAIAdapter p => GetName p
                  | ClaudeAdapter p => GetName p
                  | GeminiAdapter p => GetName p
                  end;
     Health a out := match a with
                     | OpenAIAdapter p => Health p out
                     | ClaudeAdapter p => Health p out
                     | GeminiAdapter p => Health p out
                     end;
     CalculateCost a i o := match a with
                            | OpenAIAdapter p => CalculateCost p i o
                            | ClaudeAdapter p => CalculateCost p i o
                            | GeminiAdapter p => CalculateCost p i o
                            end;
     GetModelPricing a := match a with
                          | OpenAIAdapter p => GetModelPricing p
                          | ClaudeAdapter p => GetModelPricing p
                          | GeminiAdapter p => GetModelPricing p
                          end |}.

(** The default model an adapter was configured with, the model its
    [CalculateCost] falls back to, and its pricing table. *)
Definition defaultModel (a : adapter) : string :=
  match a with
  | OpenAIAdapter p => DefaultModel (OpenAI.config p)
  | ClaudeAdapter p => DefaultModel (Claude.config p)
  | GeminiAdapter p => DefaultModel (Gemini.config p)
  end.

Definition fallbackModel (a : adapter) : string :=
  match a with
  | OpenAIAdapter _ => "gpt-3.5-turbo"
  | ClaudeAdapter _ => "claude-3-haiku-20240307"
  | GeminiAdapter _ => "gemini-pro"
  end.

(** [ProviderManager] manages multiple external providers. *)
Record ProviderManager := mkProviderManager {
  providers : gmap string adapter
}.

Definition NewProviderManager : ProviderManager := {| providers := ∅ |}.

Definition RegisterProvider (pm : ProviderManager) (provider : adapter) : ProviderManager :=
  {| providers := <[GetName provider := provider]> (providers pm) |}.

Definition GetAllProviders (pm : ProviderManager) : gmap string adapter := providers pm.

(** [GetProvider] returns a provider by name ([None]: not registered). *)
Definition GetProvider (pm : ProviderManager) (name : string) : option adapter :=
  providers pm !! name.

(** [GetHealthyProviders] returns only healthy providers; [call] is how
    the health request of the provider under each key ends. *)
Definition GetHealthyProviders (pm : ProviderManager) (call : string -> callOutcome)
    : gmap string adapter :=
  filter (fun kv => Health (snd kv) (call (fst kv)) = None) (providers pm).

End providers.

(* ===================================================================== *)
(** ** Package [main]: the router (router/main.go)                         *)
(* ===================================================================== *)

Module router.

Module Cluster.
(** [ClusterConfig] *)
Record ClusterConfig := mkClusterConfig {
  Name : string;
  Endpoint : string;
  Region : string;
  Provider : string;
  CostPerHour : float;
  AuthType : string;                   (* "hmac" or "mtls" *)
  SharedSecret : string;
  CertFile : string;
  KeyFile : string
}.
End Cluster.

Record RouterConfig := mkRouterConfig {
  HealthCheckInterval : Z;
  MaxLatencyMs : Z;
  MaxQueueDepth : Z;
  OverheadFactor : float;
  RoutingStrategy : string;
  EnableExternalFallback : bool;
  ClusterCostThreshold : float
}.

Record Config := mkConfig {
  Clusters : list Cluster.ClusterConfig;
  ExternalProviders : list providers.ProviderConfig;
  RouterCfg : RouterConfig               (* the field [Router] *)
}.

(** [Router] holds the main application state (the Prometheus registry
    is write-only for the router: its updates are the [effect]s below). *)
Record Router := mkRouter {
  config : Config;
  healthChecker : health.Checker;
  costEngine : cost.Engine;
  forwarder : forward.Forwarder;
  providerManager : providers.ProviderManager
}.

(** What a request handler does to the outside: metric updates, the
    response it writes itself, the call it hands the request to. *)
Inductive effect :=
| CounterInc (metric : string) (labels : list string)
| HistogramObserve (metric : string) (labels : list string)
| HttpError (code : Z) (body : string)
| ForwardCluster (clusterName targetURL : string)
| ForwardProvider (providerName endpoint : string)
| Panic (reason : string).

(** [RouteTarget] represents a routing target (cluster or external
    provider). *)
Record RouteTarget := mkRouteTarget {
  Name : string;
  Type_ : string;                        (* [Type]: "cluster" or "provider" *)
  Endpoint : string;
  Cost : float;
  IsHealthy : bool;
  LatencyP95 : float;
  QueueDepth : Z;
  Provider : option providers.adapter    (* only for external providers *)
}.

(** What the environment decides during one call: the clock, the order
    in which the two [range] loops over maps visit their keys, how each
    provider's health call ends, and how the forwarded call ends. *)
Record world := mkWorld {
  now : Time;
  clusterOrder : list string;
  providerOrder : list string;
  providerCall : string -> providers.callOutcome;
  forwardError : option string
}.

(** A [range] over a map, visiting the keys in the given order. *)
Definition ranged {V} (m : gmap string V) (order : list string) : list (string * V) :=
  omap (fun k => (fun v => (k, v)) <$> m !! k) order.

(** [NewRouter]. What the environment decides: [clock i] is what
    [time.Now()] returns in the [AddCluster] of the cluster at position [i]
    of the configuration, [loadCert] tells whether a key pair loads from
    two files, and [expandEnv] is [os.ExpandEnv] under the environment of
    the process. *)
Definition NewRouter (config : Config) (clock : nat -> Time)
    (loadCert : string -> string -> bool) (expandEnv : string -> string) : Router :=
  let reg :=
    fold_left
      (fun (acc : nat * health.Checker * cost.Engine * forward.Forwarder) cluster =>
         let '(i, hc, ce, fw) := acc in
         let hc :=
           health.AddCluster hc (Cluster.Name cluster) (Cluster.Endpoint cluster)
             (clock i) in
         let ce := cost.AddCluster ce (Cluster.Name cluster) (Cluster.CostPerHour cluster) in
         let fw :=
           if String.eqb (Cluster.AuthType cluster) "hmac" then
             forward.SetHMACAuth fw (Cluster.Name cluster) (Cluster.SharedSecret cluster)
           else if String.eqb (Cluster.AuthType cluster) "mtls" then
             if negb (String.eqb (Cluster.CertFile cluster) "")
                && negb (String.eqb (Cluster.KeyFile cluster) "") then
               fst (forward.SetMTLSAuth fw (Cluster.Name cluster)
                      (Cluster.CertFile cluster) (Cluster.KeyFile cluster)
                      (loadCert (Cluster.CertFile cluster) (Cluster.KeyFile cluster)))
             else fw
           else fw in
         (S i, hc, ce, fw))
      (Clusters config)
      (0%nat,
       health.NewChecker (HealthCheckInterval (RouterCfg config)),
       cost.NewEngine (OverheadFactor (RouterCfg config)),
       forward.NewForwarder) in
  let pm :=
    fold_left
      (fun pm providerConfig =>
         if negb (providers.Enabled providerConfig) then pm
         else
           let apiKey := expandEnv (providers.APIKey providerConfig) in
           let providerConfig := providers.withAPIKey providerConfig apiKey in
           if String.eqb (providers.Type_ providerConfig) "openai" then
             providers.RegisterProvider pm
               (providers.OpenAIAdapter (providers.OpenAI.NewOpenAIProvider providerConfig))
           else if String.eqb (providers.Type_ providerConfig) "claude" then
             providers.RegisterProvider pm
               (providers.ClaudeAdapter (providers.Claude.NewClaudeProvider providerConfig))
           else if String.eqb (providers.Type_ providerConfig) "gemini" then
             providers.RegisterProvider pm
               (providers.GeminiAdapter (providers.Gemini.NewGeminiProvider providerConfig))
           else pm)
      (ExternalProviders config)
      providers.NewProviderManager in
  let '(_, hc, ce, fw) := reg in
  {| config := config; healthChecker := hc; costEngine := ce;
     forwarder := fw; providerManager := pm |}.

Definition endpointOf (clusters : list Cluster.ClusterConfig) (name : string) : string :=
  match List.find (fun c => String.eqb (Cluster.Name c) name) clusters with
  | Some c => Cluster.Endpoint c
  | None => ""
  end.

(** The body of the first loop of [getAllTargets]. *)
Definition addClusterTarget (cfg : Config) (now : Time)
    (acc : cost.Engine * list RouteTarget) (entry : string * health.ClusterMetrics)
    : cost.Engine * list RouteTarget :=
  let '(engine, targets) := acc in
  let '(name, metrics) := entry in
  if F64.leb (health.LatencyP95 metrics) (F64.ofInt (MaxLatencyMs (RouterCfg cfg)))
     && (health.QueueDepth metrics <=? MaxQueueDepth (RouterCfg cfg)) then
    let '(engine', cost) :=
      cost.CalculateCostPer1KTokens engine now name (health.TokensPerSecond metrics) in
    (engine',
     targets ++ [ {| Name := name;
                     Type_ := "cluster";
                     Endpoint := endpointOf (Clusters cfg) name;
                     Cost := cost;
                     IsHealthy := true;
                     LatencyP95 := health.LatencyP95 metrics;
                     QueueDepth := health.QueueDepth metrics;
                     Provider := None |} ])
  else acc.

(** The estimate of a provider's cost: the least average of input and
    output price over its models, starting from the high fallback. *)
Definition cheapestAverage (pricing : gmap string providers.ModelPricing) : float :=
  fold_left
    (fun cost (kv : string * providers.ModelPricing) =>
       let avgCost := ((providers.InputPricePer1K (snd kv)
                        + providers.OutputPricePer1K (snd kv)) / 2)%float in
       if F64.ltb avgCost cost then avgCost else cost)
    (map_to_list pricing)
    (F64.ofInt 999999).

(** The body of the second loop of [getAllTargets]. *)
Definition addProviderTarget (w : world) (targets : list RouteTarget)
    (entry : string * providers.adapter) : list RouteTarget :=
  let '(key, provider) := entry in
  match providers.Health provider (providerCall w key) with
  | None =>
      targets ++ [ {| Name := providers.GetName provider;
                      Type_ := "provider";
                      Endpoint := "";
                      Cost := cheapestAverage (providers.GetModelPricing provider);
                      IsHealthy := true;
                      LatencyP95 := 0%float;
                      QueueDepth := 0;
                      Provider := Some provider |} ]
  | Some _ => targets
  end.

Definition withCostEngine (r : Router) (e : cost.Engine) : Router :=
  {| config := config r; healthChecker := healthChecker r; costEngine := e;
     forwarder := forwarder r; providerManager := providerManager r |}.

Definition getAllTargets (r : Router) (w : world) : Router * list RouteTarget :=
  let healthyMetrics := health.GetHealthyMetrics (healthChecker r) in
  let '(engine, targets) :=
    fold_left (addClusterTarget (config r) (now w))
              (ranged healthyMetrics (clusterOrder w))
              (costEngine r, []) in
  let targets :=
    fold_left (addProviderTarget w)
              (ranged (providers.GetAllProviders (providerManager r)) (providerOrder w))
              targets in
  (withCostEngine r engine, targets).

(** A selection: the target returned and the routing-decision counter
    incremented with the reason tag. *)
Definition decision (t : RouteTarget) (reason : string)
    : option RouteTarget * list effect :=
  (Some t,
   [CounterInc "llm_router_routing_decisions_total" [Name t; Type_ t; reason]]).

Definition cheaper (cheapest target : RouteTarget) : RouteTarget :=
  if F64.ltb (Cost target) (Cost cheapest) then target else cheapest.

Definition selectByCost (targets : list RouteTarget) : option RouteTarget * list effect :=
  match targets with
  | [] => (None, [])
  | first :: rest => decision (fold_left cheaper rest first) "lowest_cost"
  end.

Definition faster (fastest target : RouteTarget) : RouteTarget :=
  if String.eqb (Type_ target) "cluster"
     && F64.ltb (LatencyP95 target) (LatencyP95 fastest)
  then target else fastest.

Definition selectByLatency (targets : list RouteTarget) : option RouteTarget * list effect :=
  match targets with
  | [] => (None, [])
  | first :: rest => decision (fold_left faster rest first) "lowest_latency"
  end.

Definition selectExternalFirst (targets : list RouteTarget)
    : option RouteTarget * list effect :=
  match List.find (fun t => String.eqb (Type_ t) "provider") targets with
  | Some target => decision target "external_first"
  | None =>
      match targets with
      | target :: _ => decision target "cluster_fallback"
      | [] => (None, [])
      end
  end.

Definition selectClusterFirst (targets : list RouteTarget)
    : option RouteTarget * list effect :=
  match List.find (fun t => String.eqb (Type_ t) "cluster") targets with
  | Some target => decision target "cluster_first"
  | None =>
      match targets with
      | target :: _ => decision target "external_fallback"
      | [] => (None, [])
      end
  end.

(** The body of the first loop of [selectHybrid]. *)
Definition cheaperCluster (threshold : float) (cheapestCluster : option RouteTarget)
    (target : RouteTarget) : option RouteTarget :=
  if String.eqb (Type_ target) "cluster" && F64.leb (Cost target) threshold then
    match cheapestCluster with
    | None => Some target
    | Some c => if F64.ltb (Cost target) (Cost c) then Some target else cheapestCluster
    end
  else cheapestCluster.

Definition selectHybrid (threshold : float) (targets : list RouteTarget)
    : option RouteTarget * list effect :=
  match targets with
  | [] => (None, [])
  | first :: rest =>
      match fold_left (cheaperCluster threshold) targets None with
      | Some cheapestCluster => decision cheapestCluster "hybrid_cluster"
      | None => decision (fold_left cheaper rest first) "hybrid_cheapest"
      end
  end.

(** [selectTarget]: the router afterwards (its cost engine has recorded
    the computations), the pair [(target, err)] and the effects. *)
Definition selectTarget (r : Router) (w : world)
    : Router * (option RouteTarget * option string) * list effect :=
  let '(r', targets) := getAllTargets r w in
  if (length targets =? 0)%nat then
    (r', (None, Some "no healthy targets available"), [])
  else
    let strategy := RoutingStrategy (RouterCfg (config r)) in
    let '(target, effects) :=
      if String.eqb strategy "cost" then selectByCost targets
      else if String.eqb strategy "latency" then selectByLatency targets
      else if String.eqb strategy "external_first" then selectExternalFirst targets
      else if String.eqb strategy "cluster_first" then selectClusterFirst targets
      else selectHybrid (ClusterCostThreshold (RouterCfg (config r))) targets in
    (r', (target, None), effects).

Definition requestsTotal (cluster status : string) : effect :=
  CounterInc "llm_router_requests_total" [cluster; status].

(** [handleLLMRequest]: the router afterwards and everything the handler
    did, in order. *)
Definition handleLLMRequest (r : Router) (w : world) (endpoint : string)
    : Router * list effect :=
  let '(r', (target, err), selected) := selectTarget r w in
  match err with
  | Some e =>
      (r', selected ++
           [HttpError http.StatusServiceUnavailable ("No available targets: " +:+ e);
            requestsTotal "none" "503"])
  | None =>
      match target with
      | None => (r', selected ++ [Panic "nil pointer dereference"])
      | Some target =>
          let '(forwarded, err) :=
            if String.eqb (Type_ target) "cluster" then
              ([ForwardCluster (Name target) (Endpoint target +:+ endpoint)],
               forwardError w)
            else if String.eqb (Type_ target) "provider" then
              match Provider target with
              | None => ([Panic "nil pointer dereference"], None)
              | Some _ =>
                  ([ForwardProvider (Name target) endpoint;
                    CounterInc "llm_router_external_requests_total"
                      [Name target; "unknown";
                       match forwardError w with Some _ => "error" | None => "success" end]],
                   forwardError w)
              end
            else ([], None) in
          (r', selected ++ forwarded ++
               [HistogramObserve "llm_router_request_duration_seconds" [Name target];
                requestsTotal (Name target)
                  match err with Some _ => "error" | None => "success" end])
      end
  end.






(** The body [healthHandler] encodes; the time stamp is left out. *)
Record healthStatus := mkHealthStatus {
  status : string;
  healthy_clusters : Z;
  total_clusters : Z;
  healthy_providers : Z;
  total_providers : Z
}.

Definition healthHandler (r : Router) (w : world) : healthStatus :=
  let healthyCount := Z.of_nat (size (health.GetHealthyMetrics (healthChecker r))) in
  let healthyProviders :=
    fold_left
      (fun healthyProviders (entry : string * providers.adapter) =>
         match providers.Health (snd entry) (providerCall w (fst entry)) with
         | None => Int64.incr healthyProviders
         | Some _ => healthyProviders
         end)
      (ranged (providers.GetAllProviders (providerManager r)) (providerOrder w))
      0 in
  {| status := "healthy";
     healthy_clusters := healthyCount;
     total_clusters := Z.of_nat (length (Clusters (config r)));
     healthy_providers := healthyProviders;
     total_providers := Z.of_nat (length (ExternalProviders (config r))) |}.

End router.

(* ********************************************************************* *)
(** * Part II: properties                                                  *)
(* ********************************************************************* *)

(* ===================================================================== *)
(** ** Order facts about IEEE binary64 comparisons                         *)
(* ===================================================================== *)

Module F64Facts.

Lemma ltb_cmp x y : F64.ltb x y = true <-> F64.cmp x y = Some Lt.
Proof.
  unfold F64.ltb, F64.cmp. rewrite FloatAxioms.ltb_spec. unfold SFltb.
  destruct (SFcompare _ _) as [[]|]; split; congruence.
Qed.

Lemma leb_cmp x y : F64.leb x y = true <-> (F64.cmp x y = Some Lt \/ F64.cmp x y = Some Eq).
Proof.
  unfold F64.leb, F64.cmp. rewrite FloatAxioms.leb_spec. unfold SFleb.
  destruct (SFcompare _ _) as [[]|]; split; intros; try tauto; try congruence;
    destruct H; congruence.
Qed.

Lemma isNaN_cmp x : F64.isNaN x = false <-> F64.cmp x x = Some Eq.
Proof.
  unfold F64.isNaN, F64.cmp. rewrite FloatAxioms.eqb_spec. unfold SFeqb.
  destruct (Prim2SF x) as [s|s| |s m e]; simpl.
  - split; auto.
  - destruct s; split; auto.
  - split; discriminate.
  - destruct s; rewrite Z.compare_refl, Pos.compare_cont_refl; simpl; split; auto.
Qed.

(** Specification-level comparison: total on numbers, transitive. *)
Lemma SFcompare_nan_r x : SFcompare x S754_nan = None.
Proof. destruct x; reflexivity. Qed.

Lemma SFcompare_total x y :
  x <> S754_nan -> y <> S754_nan -> exists c, SFcompare x y = Some c.
Proof.
  intros Hx Hy. destruct x, y; try congruence; simpl; eauto.
Qed.

Lemma SFcompare_antisym x y c :
  SFcompare x y = Some c -> SFcompare y x = Some (CompOpp c).
Proof.
  destruct x as [s1|s1| |s1 m1 e1], y as [s2|s2| |s2 m2 e2]; simpl;
    try discriminate; intros H; inversion H; subst; clear H;
    try (destruct s1; reflexivity); try (destruct s2; reflexivity);
    try (destruct s1, s2; reflexivity).
  f_equal.
  destruct s1, s2; try reflexivity;
    rewrite (Z.compare_antisym e1 e2);
    destruct (e1 ?= e2)%Z eqn:E; simpl; try reflexivity;
    change (Pos.compare_cont Eq m2 m1) with (m2 ?= m1)%positive;
    change (Pos.compare_cont Eq m1 m2) with (m1 ?= m2)%positive;
    rewrite (Pos.compare_antisym m1 m2);
    destruct (m1 ?= m2)%positive; reflexivity.
Qed.

Lemma SFcompare_lt_trans x y z :
  SFcompare x y = Some Lt -> SFcompare y z = Some Lt -> SFcompare x z = Some Lt.
Proof.
  destruct x as [s1|s1| |s1 m1 e1], y as [s2|s2| |s2 m2 e2],
           z as [s3|s3| |s3 m3 e3]; simpl; try discriminate;
    try (destruct s1; try discriminate); try (destruct s2; try discriminate);
    try (destruct s3; try discriminate); try reflexivity;
    change (Pos.compare_cont Eq) with Pos.compare;
    intros H1 H2; f_equal;
    destruct (Z.compare_spec e1 e2), (Z.compare_spec e2 e3);
    try discriminate; subst;
    try rewrite Z.compare_refl;
    repeat match goal with
           | H : (?a < ?b)%Z |- context [(?a ?= ?b)%Z] =>
               rewrite (proj2 (Z.compare_lt_iff a b) H)
           | H : (?b < ?a)%Z |- context [(?a ?= ?b)%Z] =>
               rewrite (proj2 (Z.compare_gt_iff a b) H)
           end; try reflexivity;
    try (assert (Hlt : (e1 < e3)%Z) by lia;
         rewrite (proj2 (Z.compare_lt_iff e1 e3) Hlt); reflexivity);
    try (assert (Hgt : (e3 < e1)%Z) by lia;
         rewrite (proj2 (Z.compare_gt_iff e1 e3) Hgt); reflexivity);
    destruct (Pos.compare_spec m1 m2), (Pos.compare_spec m2 m3);
    try discriminate; inversion H1; inversion H2; subst;
    try (assert (Hm : (m1 < m3)%positive) by lia;
         rewrite (proj2 (Pos.compare_lt_iff m1 m3) Hm); reflexivity);
    try (assert (Hm : (m3 < m1)%positive) by lia;
         rewrite (proj2 (Pos.compare_gt_iff m1 m3) Hm); reflexivity).
Qed.

(** The same facts on Go's comparisons. *)
Lemma isNaN_spec x : F64.isNaN x = false <-> Prim2SF x <> S754_nan.
Proof.
  rewrite isNaN_cmp. unfold F64.cmp. split.
  - intros H E. rewrite E in H. discriminate.
  - intros H. destruct (Prim2SF x) as [s|s| |s m e]; simpl; try congruence.
    + destruct s; reflexivity.
    + destruct s; rewrite Z.compare_refl, Pos.compare_cont_refl; reflexivity.
Qed.

Lemma cmp_Some_notNaN x y c :
  F64.cmp x y = Some c -> F64.isNaN x = false /\ F64.isNaN y = false.
Proof.
  unfold F64.cmp. intros H. rewrite !isNaN_spec. split; intros E; rewrite E in H.
  - discriminate.
  - rewrite SFcompare_nan_r in H. discriminate.
Qed.

Lemma ltb_trans x y z : F64.ltb x y = true -> F64.ltb y z = true -> F64.ltb x z = true.
Proof. rewrite !ltb_cmp. apply SFcompare_lt_trans. Qed.

Lemma ltb_leb x y : F64.ltb x y = true -> F64.leb x y = true.
Proof. rewrite ltb_cmp, leb_cmp. auto. Qed.

Lemma leb_notNaN x y : F64.leb x y = true -> F64.isNaN x = false /\ F64.isNaN y = false.
Proof. rewrite leb_cmp. intros [H|H]; eapply cmp_Some_notNaN; eauto. Qed.

(** On numbers the order is total: "not strictly below" is "at least". *)
Lemma not_ltb_leb x y :
  F64.isNaN x = false -> F64.isNaN y = false -> F64.ltb x y = false -> F64.leb y x = true.
Proof.
  rewrite !isNaN_spec. intros Hx Hy Hlt.
  destruct (SFcompare_total _ _ Hx Hy) as [c Hc].
  apply leb_cmp. unfold F64.cmp. rewrite (SFcompare_antisym _ _ _ Hc).
  destruct c; simpl; auto.
  exfalso. apply (proj2 (ltb_cmp x y)) in Hc. congruence.
Qed.

Lemma ltb_not_leb x y : F64.ltb x y = true -> F64.leb y x = false.
Proof.
  rewrite ltb_cmp. intros H. destruct (F64.leb y x) eqn:E; auto.
  apply leb_cmp in E. unfold F64.cmp in *.
  rewrite (SFcompare_antisym _ _ _ H) in E. simpl in E.
  destruct E; discriminate.
Qed.

Lemma leb_not_ltb x y : F64.leb x y = true -> F64.ltb y x = false.
Proof.
  intros H. destruct (F64.ltb y x) eqn:E; auto.
  apply ltb_not_leb in E. congruence.
Qed.


Lemma ltb_irrefl x : F64.ltb x x = false.
Proof.
  destruct (F64.ltb x x) eqn:E; auto.
  pose proof (ltb_not_leb _ _ E) as H. apply ltb_leb in E. congruence.
Qed.

End F64Facts.

(* ===================================================================== *)
(** ** The cost engine                                                     *)
(* ===================================================================== *)

Module CostSpec.
Import cost.

(** *** The bounded history *)

Lemma storeHistorical_length h c :
  (length h <= 100)%nat -> (length (storeHistorical h c) <= 100)%nat.
Proof.
  intros H. unfold storeHistorical.
  destruct (Nat.ltb_spec 100 (length (h ++ [c]))) as [Hlt|Hge].
  - rewrite length_drop, length_app. simpl. lia.
  - exact Hge.
Qed.

Lemma lastN_short {A} n (l : list A) : (length l <= n)%nat -> lastN n l = l.
Proof.
  intros H. unfold lastN. replace (length l - n)%nat with 0%nat by lia. reflexivity.
Qed.

Lemma lastN_drop_app {A} n k (l l' : list A) :
  (k + n <= length l)%nat -> lastN n (drop k l ++ l') = lastN n (l ++ l').
Proof.
  intros H. unfold lastN.
  rewrite !length_app, length_drop.
  rewrite <- (drop_app_le l l' k) by lia.
  rewrite drop_drop. f_equal. lia.
Qed.

Lemma lastN_store_app h c l :
  (length h <= 100)%nat ->
  lastN 100 (storeHistorical h c ++ l) = lastN 100 (h ++ c :: l).
Proof.
  intros H. unfold storeHistorical.
  replace (h ++ c :: l) with ((h ++ [c]) ++ l) by (rewrite <- app_assoc; reflexivity).
  destruct (Nat.ltb_spec 100 (length (h ++ [c]))) as [Hlt|Hge]; [|reflexivity].
  apply lastN_drop_app. lia.
Qed.

(** Every history of the engine holds at most 100 entries. *)
Definition bounded (e : Engine) : Prop :=
  forall name c, clusters e !! name = Some c -> (length (HistoricalCosts c) <= 100)%nat.

Lemma bounded_NewEngine o : bounded (NewEngine o).
Proof. intros name c H. simpl in H. rewrite lookup_empty in H. discriminate. Qed.

Lemma bounded_exec e k : bounded e -> bounded (exec e k).
Proof.
  intros Hb name c. destruct k as [n cph|now n tps|n cph]; simpl.
  - destruct (decide (n = name)) as [->|Hne].
    + rewrite lookup_insert_eq. intros [= <-]. simpl. lia.
    + rewrite lookup_insert_ne by exact Hne. apply Hb.
  - unfold CalculateCostPer1KTokens.
    destruct (clusters e !! n) as [cl|] eqn:Hn; [|apply Hb].
    destruct (F64.leb tps 0); [apply Hb|]. simpl.
    destruct (decide (n = name)) as [->|Hne].
    + rewrite lookup_insert_eq. intros [= <-]. simpl.
      apply storeHistorical_length. eapply Hb; eauto.
    + rewrite lookup_insert_ne by exact Hne. apply Hb.
  - unfold UpdateClusterCost.
    destruct (clusters e !! n) as [cl|] eqn:Hn; [|apply Hb]. simpl.
    destruct (decide (n = name)) as [->|Hne].
    + rewrite lookup_insert_eq. intros [= <-]. simpl. eapply Hb; eauto.
    + rewrite lookup_insert_ne by exact Hne. apply Hb.
Qed.

Lemma bounded_run cs : forall e, bounded e -> bounded (run e cs).
Proof.
  induction cs as [|k cs IH]; intros e Hb; simpl; [exact Hb|].
  apply IH, bounded_exec, Hb.
Qed.

(** One successful computation: what is returned and what is recorded. *)
Lemma calculate_valid e now name tps c :
  clusters e !! name = Some c -> F64.leb tps 0 = false ->
  let v := costFormula (CostPerHour c) tps (overheadFactor e) in
  let e' := fst (CalculateCostPer1KTokens e now name tps) in
  snd (CalculateCostPer1KTokens e now name tps) = v /\
  overheadFactor e' = overheadFactor e /\
  clusters e' !! name =
    Some {| CostPerHour := CostPerHour c; LastTokensPerSec := tps; LastUpdate := now;
            HistoricalCosts := storeHistorical (HistoricalCosts c) v |}.
Proof.
  intros Hc Htps. unfold CalculateCostPer1KTokens. rewrite Hc, Htps. simpl.
  rewrite lookup_insert_eq. auto.
Qed.

Lemma calculateAll_valid samples : forall e name c,
  clusters e !! name = Some c ->
  (length (HistoricalCosts c) <= 100)%nat ->
  Forall (fun s => F64.leb (snd s) 0 = false) samples ->
  snd (calculateAll e name samples)
    = map (fun s => costFormula (CostPerHour c) (snd s) (overheadFactor e)) samples /\
  history (fst (calculateAll e name samples)) name
    = lastN 100 (HistoricalCosts c ++ snd (calculateAll e name samples)).
Proof.
  induction samples as [|[now tps] rest IH]; intros e name c Hc Hlen Hall.
  - simpl. split; [reflexivity|]. unfold history. rewrite Hc, app_nil_r.
    symmetry. apply lastN_short, Hlen.
  - apply Forall_cons in Hall as [Htps Hrest]. simpl in Htps.
    destruct (calculate_valid e now name tps c Hc Htps) as (Hv & Ho & Hc').
    simpl. destruct (CalculateCostPer1KTokens e now name tps) as [e1 v] eqn:E1.
    simpl in Hv, Ho, Hc'.
    specialize (IH e1 name _ Hc' (storeHistorical_length _ _ Hlen) Hrest).
    destruct (calculateAll e1 name rest) as [e2 vs] eqn:E2. simpl in *.
    destruct IH as [IHv IHh]. rewrite Ho in IHv. split.
    + rewrite Hv, IHv. reflexivity.
    + rewrite IHh, Hv. apply lastN_store_app, Hlen.
Qed.

(** C2. For a registered cluster and [tokensPerSecond > 0] the result is
    exactly [(costPerHour / (tokensPerSecond * 3600)) * overheadFactor * 1000],
    evaluated in that order in binary64; for [tokensPerSecond <= 0] or an
    unregistered cluster the result is +Inf and the engine is returned
    unchanged (no tracking state is updated). *)
Theorem CalculateCostPer1KTokens_spec (e : Engine) (now : Time) (name : string)
    (tps : float) :
  (forall c, clusters e !! name = Some c -> F64.ltb 0 tps = true ->
     snd (CalculateCostPer1KTokens e now name tps)
     = ((CostPerHour c / (tps * 3600)) * overheadFactor e * 1000)%float) /\
  (F64.leb tps 0 = true \/ clusters e !! name = None ->
     CalculateCostPer1KTokens e now name tps = (e, infinity)).
Proof.
  split.
  - intros c Hc Hpos. apply F64Facts.ltb_not_leb in Hpos.
    exact (proj1 (calculate_valid e now name tps c Hc Hpos)).
  - intros H. unfold CalculateCostPer1KTokens.
    destruct (clusters e !! name) as [c|]; [|reflexivity].
    destruct H as [H|H]; [|discriminate]. rewrite H. reflexivity.
Qed.

(** A registered cluster at 1.5 $/h serving 25 tokens/s, and an unknown one. *)
Lemma CalculateCostPer1KTokens_spec_witness :
  snd (CalculateCostPer1KTokens (AddCluster (NewEngine 1.1) "gpu-a" 1.5) 0 "gpu-a" 25)
    = ((1.5 / (25 * 3600)) * 1.1 * 1000)%float /\
  CalculateCostPer1KTokens (AddCluster (NewEngine 1.1) "gpu-a" 1.5) 0 "gpu-b" 25
    = (AddCluster (NewEngine 1.1) "gpu-a" 1.5, infinity) /\
  CalculateCostPer1KTokens (AddCluster (NewEngine 1.1) "gpu-a" 1.5) 0 "gpu-a" 0
    = (AddCluster (NewEngine 1.1) "gpu-a" 1.5, infinity).
Proof.
  split; [|split].
  - apply (proj1 (CalculateCostPer1KTokens_spec
                    (AddCluster (NewEngine 1.1) "gpu-a" 1.5) 0 "gpu-a" 25)
             (mkClusterCost 1.5 0 zeroTime [])).
    + vm_compute. reflexivity.
    + vm_compute. reflexivity.
  - apply (proj2 (CalculateCostPer1KTokens_spec
                    (AddCluster (NewEngine 1.1) "gpu-a" 1.5) 0 "gpu-b" 25)).
    right. vm_compute. reflexivity.
  - apply (proj2 (CalculateCostPer1KTokens_spec
                    (AddCluster (NewEngine 1.1) "gpu-a" 1.5) 0 "gpu-a" 0)).
    left. vm_compute. reflexivity.
Defined.

(** C5. In every engine state reachable through the API no history holds
    more than 100 entries; a run of cost computations for a cluster
    leaves in its history exactly the last 100 of the values it held and
    the values computed, in insertion order; so 101 computations on a
    fresh cluster leave the last 100 of them, the first one evicted. *)
Theorem HistoricalCosts_bounded_fifo :
  (forall o cs name c,
     clusters (run (NewEngine o) cs) !! name = Some c ->
     (length (HistoricalCosts c) <= 100)%nat) /\
  (forall e name c samples,
     clusters e !! name = Some c ->
     (length (HistoricalCosts c) <= 100)%nat ->
     Forall (fun s => F64.leb (snd s) 0 = false) samples ->
     snd (calculateAll e name samples)
       = map (fun s => costFormula (CostPerHour c) (snd s) (overheadFactor e)) samples /\
     history (fst (calculateAll e name samples)) name
       = lastN 100 (HistoricalCosts c ++ snd (calculateAll e name samples))) /\
  (forall e name c samples,
     clusters e !! name = Some c ->
     HistoricalCosts c = [] ->
     Forall (fun s => F64.leb (snd s) 0 = false) samples ->
     length samples = 101%nat ->
     history (fst (calculateAll e name samples)) name
       = drop 1 (snd (calculateAll e name samples)) /\
     length (history (fst (calculateAll e name samples)) name) = 100%nat).
Proof.
  split; [|split].
  - intros o cs name c. apply (bounded_run cs), bounded_NewEngine.
  - intros e name c samples. apply calculateAll_valid.
  - intros e name c samples Hc Hnil Hall Hlen.
    assert (Hb : (length (HistoricalCosts c) <= 100)%nat) by (rewrite Hnil; simpl; lia).
    destruct (calculateAll_valid samples e name c Hc Hb Hall) as [Hv Hh].
    rewrite Hnil in Hh. simpl in Hh.
    assert (Hl : length (snd (calculateAll e name samples)) = 101%nat)
      by (rewrite Hv, length_map; exact Hlen).
    rewrite Hh. unfold lastN. rewrite Hl. split; [reflexivity|].
    rewrite length_drop, Hl. reflexivity.
Qed.

(** 101 samples, 1 to 101 tokens per second, on a freshly registered
    cluster. *)
Definition samples101 : list (Time * float) :=
  map (fun n => (Z.of_nat n, F64.ofInt (Z.of_nat n + 1))) (seq 0 101).

Lemma HistoricalCosts_bounded_fifo_witness :
  history (fst (calculateAll (AddCluster (NewEngine 1.1) "gpu-a" 1.5) "gpu-a" samples101))
          "gpu-a"
    = drop 1 (snd (calculateAll (AddCluster (NewEngine 1.1) "gpu-a" 1.5) "gpu-a" samples101))
  /\
  length (history (fst (calculateAll (AddCluster (NewEngine 1.1) "gpu-a" 1.5) "gpu-a"
                          samples101)) "gpu-a") = 100%nat.
Proof.
  apply (proj2 (proj2 HistoricalCosts_bounded_fifo)
           (AddCluster (NewEngine 1.1) "gpu-a" 1.5) "gpu-a"
           (mkClusterCost 1.5 0 zeroTime []) samples101).
  - vm_compute. reflexivity.
  - reflexivity.
  - vm_compute. repeat constructor.
  - reflexivity.
Defined.

End CostSpec.

(* ===================================================================== *)
(** ** 64-bit integers                                                     *)
(* ===================================================================== *)

Module Int64Facts.

Lemma wrap_small z : Int64.inRange z -> Int64.wrap z = z.
Proof.
  unfold Int64.inRange, Int64.minInt, Int64.maxInt, Int64.wrap. intros H.
  rewrite Z.mod_small; lia.
Qed.

Lemma incr_wrap z : Int64.incr (Int64.wrap z) = Int64.wrap (z + 1).
Proof.
  unfold Int64.incr, Int64.add, Int64.wrap. f_equal.
  replace ((z + 2 ^ 63) mod 2 ^ 64 - 2 ^ 63 + 1 + 2 ^ 63)
    with ((z + 2 ^ 63) mod 2 ^ 64 + 1) by lia.
  rewrite Zplus_mod_idemp_l. f_equal. lia.
Qed.

End Int64Facts.

(* ===================================================================== *)
(** ** The health checker                                                  *)
(* ===================================================================== *)

Module HealthSpec.
Import health.

(** The number of failed checks since the last successful one, [None]
    while no check has succeeded yet. *)
Definition sinceSuccess (acc : option nat) (ok : bool) : option nat :=
  if ok then Some 0%nat else S <$> acc.

Definition failuresSinceSuccess (os : list bool) : option nat :=
  fold_left sinceSuccess os None.

Lemma performHealthCheck_succeeds p :
  fst (fst (fst (performHealthCheck p))) = succeeds p.
Proof.
  unfold performHealthCheck, succeeds.
  destruct (healthResp p) as [err|code]; [reflexivity|].
  destruct (code =? http.StatusOK); simpl; [|reflexivity].
  destruct (getMetrics p) as [[q t] l]. reflexivity.
Qed.

(** One check of a registered cluster, by outcome. *)
Lemma recordCheck_success maxErrors m p rt now :
  succeeds p = true ->
  Healthy (recordCheck maxErrors m (performHealthCheck p) rt now) = true /\
  ConsecutiveError (recordCheck maxErrors m (performHealthCheck p) rt now) = 0 /\
  ErrorCount (recordCheck maxErrors m (performHealthCheck p) rt now) = ErrorCount m.
Proof.
  intros H. rewrite <- performHealthCheck_succeeds in H.
  destruct (performHealthCheck p) as [[[h q] t] l]. simpl in H. subst h.
  simpl. auto.
Qed.

Lemma recordCheck_failure maxErrors m p rt now :
  succeeds p = false ->
  let m' := recordCheck maxErrors m (performHealthCheck p) rt now in
  ErrorCount m' = Int64.incr (ErrorCount m) /\
  ConsecutiveError m' = Int64.incr (ConsecutiveError m) /\
  Healthy m' = (if maxErrors <=? ConsecutiveError m' then false else Healthy m).
Proof.
  intros H. rewrite <- performHealthCheck_succeeds in H.
  destruct (performHealthCheck p) as [[[h q] t] l]. simpl in H. subst h.
  simpl. auto.
Qed.

Lemma maxConsecutiveErrors_exec c k :
  maxConsecutiveErrors (exec c k) = maxConsecutiveErrors c.
Proof.
  destruct k; simpl; try reflexivity.
  - unfold checkCluster. destruct (clusters c !! name); reflexivity.
  - unfold MarkUnhealthy. destruct (clusters c !! name); reflexivity.
  - unfold ForceHealthy. destruct (clusters c !! name); reflexivity.
Qed.

Lemma maxConsecutiveErrors_run ks : forall c,
  maxConsecutiveErrors (run c ks) = maxConsecutiveErrors c.
Proof.
  induction ks as [|k ks IH]; intros c; [reflexivity|].
  change (run c (k :: ks)) with (run (exec c k) ks).
  rewrite IH. apply maxConsecutiveErrors_exec.
Qed.

(** A check of a cluster leaves every other cluster's entry alone. *)
Lemma checkCluster_other c n p rt now name :
  n <> name -> clusters (checkCluster c n p rt now) !! name = clusters c !! name.
Proof.
  intros Hne. unfold checkCluster.
  destruct (clusters c !! n); [|reflexivity]. simpl.
  apply lookup_insert_ne, Hne.
Qed.

Lemma checkCluster_same c name p rt now m :
  clusters c !! name = Some m ->
  clusters (checkCluster c name p rt now) !! name
    = Some (recordCheck (maxConsecutiveErrors c) m (performHealthCheck p) rt now).
Proof.
  intros H. unfold checkCluster. rewrite H. simpl. apply lookup_insert_eq.
Qed.

Lemma checkCluster_unregistered c n p rt now name :
  clusters c !! name = None -> clusters (checkCluster c n p rt now) !! name = None.
Proof.
  intros H. destruct (decide (n = name)) as [->|Hne].
  - unfold checkCluster. rewrite H. exact H.
  - rewrite checkCluster_other by exact Hne. exact H.
Qed.

(** The state of a cluster after a run of checks, in terms of what the
    checks of that cluster found since they last succeeded. *)
Definition tracks (c : Checker) (name : string) (acc : option nat) : Prop :=
  forall m k, clusters c !! name = Some m -> acc = Some k ->
    Healthy m = (k <? 3)%nat /\ ConsecutiveError m = Int64.wrap (Z.of_nat k).

Lemma tracks_check c name acc n p rt now :
  maxConsecutiveErrors c = 3 ->
  tracks c name acc ->
  tracks (checkCluster c n p rt now) name
    (if String.eqb n name then sinceSuccess acc (succeeds p) else acc).
Proof.
  intros Hmax Ht m' k' Hm' Hacc.
  destruct (String.eqb_spec n name) as [->|Hne].
  - destruct (clusters c !! name) as [m|] eqn:Hm.
    + rewrite (checkCluster_same _ _ _ _ _ _ Hm) in Hm'. injection Hm' as <-.
      rewrite Hmax. destruct (succeeds p) eqn:Hp; simpl in Hacc.
      * injection Hacc as <-.
        destruct (recordCheck_success 3 m p rt now Hp) as (Hh & Hc & _).
        rewrite Hh, Hc. split; reflexivity.
      * destruct acc as [k|]; [|discriminate]. simpl in Hacc. injection Hacc as <-.
        destruct (Ht m k Hm eq_refl) as [Hh Hc].
        destruct (recordCheck_failure 3 m p rt now Hp) as (_ & Hc' & Hh').
        rewrite Hc, Int64Facts.incr_wrap in Hc'.
        replace (Z.of_nat k + 1) with (Z.of_nat (S k)) in Hc' by lia.
        rewrite Hh', Hc', Hh. split; [|reflexivity].
        destruct (Nat.ltb_spec (S k) 3) as [Hlt|Hge].
        -- rewrite Int64Facts.wrap_small
             by (unfold Int64.inRange, Int64.minInt, Int64.maxInt; lia).
           destruct (Z.leb_spec 3 (Z.of_nat (S k))); [lia|].
           destruct (Nat.ltb_spec k 3); [reflexivity|lia].
        -- destruct (3 <=? Int64.wrap (Z.of_nat (S k))) eqn:Hw; [reflexivity|].
           destruct (Nat.ltb_spec k 3) as [Hk|Hk]; [|reflexivity].
           assert (k = 2%nat) as -> by lia.
           vm_compute in Hw. discriminate.
    + rewrite (checkCluster_unregistered _ _ _ _ _ _ Hm) in Hm'. discriminate.
  - rewrite checkCluster_other in Hm' by exact Hne. eauto.
Qed.

Lemma tracks_run ks : forall c name acc,
  maxConsecutiveErrors c = 3 ->
  Forall (fun k => isCheck k = true) ks ->
  tracks c name acc ->
  tracks (run c ks) name (fold_left sinceSuccess (outcomes name ks) acc).
Proof.
  induction ks as [|k ks IH]; intros c name acc Hmax Hall Ht; [exact Ht|].
  apply Forall_cons in Hall as [Hk Hall].
  destruct k as [| n p rt now | |]; try discriminate.
  change (run c (CallCheck n p rt now :: ks))
    with (run (checkCluster c n p rt now) ks).
  pose proof (tracks_check c name acc n p rt now Hmax Ht) as Ht'.
  assert (Hmax' : maxConsecutiveErrors (checkCluster c n p rt now) = 3)
    by (rewrite <- Hmax; apply (maxConsecutiveErrors_exec c (CallCheck n p rt now))).
  specialize (IH _ name _ Hmax' Hall Ht').
  unfold outcomes. simpl. fold (outcomes name ks).
  destruct (String.eqb n name); exact IH.
Qed.

Lemma failuresSinceSuccess_app pre k :
  failuresSinceSuccess (pre ++ true :: replicate k false) = Some k.
Proof.
  unfold failuresSinceSuccess. rewrite fold_left_app. simpl.
  generalize (fold_left sinceSuccess pre None). intros _.
  assert (H : forall j, fold_left sinceSuccess (replicate k false) (Some j)
                        = Some (j + k)%nat).
  { induction k as [|k IH]; intros j; simpl.
    - f_equal. lia.
    - rewrite IH. f_equal. lia. }
  apply (H 0%nat).
Qed.

(** C3, as the code has it. Under health checks a failed check increments
    [ErrorCount] and [ConsecutiveError] and turns [Healthy] false exactly
    when the incremented [ConsecutiveError] has reached the threshold 3; a
    successful check sets [Healthy] and resets [ConsecutiveError] to 0
    unconditionally; and in every state reached by health checks in which
    the cluster's checks have succeeded at least once, [Healthy] is false
    exactly when 3 or more failed checks have occurred since the last
    success. (Before its first successful check a registered cluster is
    unhealthy, with no error needed.) *)
Theorem checkCluster_hysteresis (interval : Z) (history : list call) :
  let c := run (NewChecker interval) history in
  (forall name m p rt now,
     clusters c !! name = Some m ->
     exists m', clusters (checkCluster c name p rt now) !! name = Some m' /\
       (succeeds p = false ->
          ErrorCount m' = Int64.incr (ErrorCount m) /\
          ConsecutiveError m' = Int64.incr (ConsecutiveError m) /\
          Healthy m' = (if 3 <=? ConsecutiveError m' then false else Healthy m)) /\
       (succeeds p = true -> Healthy m' = true /\ ConsecutiveError m' = 0)) /\
  (forall checks name m pre k,
     Forall (fun call => isCheck call = true) checks ->
     outcomes name checks = pre ++ true :: replicate k false ->
     clusters (run c checks) !! name = Some m ->
     Healthy m = (k <? 3)%nat /\ ConsecutiveError m = Int64.wrap (Z.of_nat k)).
Proof.
  intros c.
  assert (Hmax : maxConsecutiveErrors c = 3)
    by (unfold c; rewrite maxConsecutiveErrors_run; reflexivity).
  split.
  - intros name m p rt now Hm. eexists. split; [apply checkCluster_same, Hm|].
    rewrite Hmax. split.
    + intros Hp. apply (recordCheck_failure 3 m p rt now Hp).
    + intros Hp. destruct (recordCheck_success 3 m p rt now Hp) as (H1 & H2 & _). auto.
  - intros checks name m pre k Hall Hout Hm.
    assert (Ht : tracks c name None) by (intros ? ? _ [=]).
    pose proof (tracks_run checks c name None Hmax Hall Ht) as H.
    apply (H m k Hm). rewrite Hout. apply failuresSinceSuccess_app.
Qed.

(** Example probes: a cluster that answers, with statistics, and one that
    does not answer. *)
Definition probeUp : probe :=
  mkProbe (http.Response 200) (http.Response 200) (http.Response 200)
          (Some (mkStats 2 40 350)).
Definition probeDown : probe :=
  mkProbe (http.TransportError "connection refused") (http.TransportError "")
          (http.TransportError "") None.

(** After a success and two failures the cluster is still healthy; the
    third failure in a row turns it unhealthy. *)
Lemma checkCluster_hysteresis_witness :
  (exists m,
     clusters (run (run (NewChecker 30) [CallAddCluster "gpu-a" "http://gpu-a:8080" 0])
                 [CallCheck "gpu-a" probeUp 12 30; CallCheck "gpu-a" probeDown 9 60;
                  CallCheck "gpu-a" probeDown 9 90]) !! "gpu-a" = Some m /\
     Healthy m = true /\ ConsecutiveError m = 2) /\
  (exists m,
     clusters (run (run (NewChecker 30) [CallAddCluster "gpu-a" "http://gpu-a:8080" 0])
                 [CallCheck "gpu-a" probeUp 12 30; CallCheck "gpu-a" probeDown 9 60;
                  CallCheck "gpu-a" probeDown 9 90; CallCheck "gpu-a" probeDown 9 120])
       !! "gpu-a" = Some m /\
     Healthy m = false /\ ConsecutiveError m = 3).
Proof.
  split.
  - eexists. split; [vm_compute; reflexivity|].
    apply (proj2 (checkCluster_hysteresis 30 [CallAddCluster "gpu-a" "http://gpu-a:8080" 0])
             [CallCheck "gpu-a" probeUp 12 30; CallCheck "gpu-a" probeDown 9 60;
              CallCheck "gpu-a" probeDown 9 90] "gpu-a" _ [] 2%nat).
    + repeat constructor.
    + vm_compute. reflexivity.
    + vm_compute. reflexivity.
  - eexists. split; [vm_compute; reflexivity|].
    apply (proj2 (checkCluster_hysteresis 30 [CallAddCluster "gpu-a" "http://gpu-a:8080" 0])
             [CallCheck "gpu-a" probeUp 12 30; CallCheck "gpu-a" probeDown 9 60;
              CallCheck "gpu-a" probeDown 9 90; CallCheck "gpu-a" probeDown 9 120]
             "gpu-a" _ [] 3%nat).
    + repeat constructor.
    + vm_compute. reflexivity.
    + vm_compute. reflexivity.
Defined.

(** C3 as stated fails on a cluster that has just been registered: it is
    unhealthy although no check has failed (and it stays so, with one
    consecutive error, after a first failed check). *)
Lemma unhealthy_before_first_success :
  (exists m,
     clusters (run (NewChecker 30) [CallAddCluster "gpu-a" "http://gpu-a:8080" 0])
       !! "gpu-a" = Some m /\
     Healthy m = false /\ ConsecutiveError m = 0 /\ ErrorCount m = 0) /\
  (exists m,
     clusters (run (NewChecker 30) [CallAddCluster "gpu-a" "http://gpu-a:8080" 0;
                                    CallCheck "gpu-a" probeDown 9 30])
       !! "gpu-a" = Some m /\
     Healthy m = false /\ ConsecutiveError m = 1).
Proof.
  split; eexists; (split; [vm_compute; reflexivity|]); repeat split.
Qed.

(** *** Clusters that have not been revived *)

(** The calls that make a cluster healthy: a successful check of it, and
    the manual override. *)
Definition revives (name : string) (k : call) : bool :=
  match k with
  | CallCheck n p _ _ => String.eqb n name && succeeds p
  | CallForceHealthy n => String.eqb n name
  | _ => false
  end.

Definition unhealthy (c : Checker) (name : string) : Prop :=
  forall m, clusters c !! name = Some m -> Healthy m = false.

Lemma unhealthy_exec c name k :
  revives name k = false -> unhealthy c name -> unhealthy (exec c k) name.
Proof.
  intros Hk Hu m'. destruct k as [n e t|n p rt t|n reason|n]; simpl in *.
  - destruct (decide (n = name)) as [->|Hne].
    + rewrite lookup_insert_eq. intros [= <-]. reflexivity.
    + rewrite lookup_insert_ne by exact Hne. apply Hu.
  - destruct (String.eqb_spec n name) as [->|Hne].
    + simpl in Hk. destruct (clusters c !! name) as [m|] eqn:Hm.
      * rewrite (checkCluster_same _ _ _ _ _ _ Hm). intros [= <-].
        destruct (recordCheck_failure (maxConsecutiveErrors c) m p rt t Hk) as (_ & _ & Hh).
        rewrite Hh, (Hu m Hm). destruct (_ <=? _); reflexivity.
      * rewrite (checkCluster_unregistered _ _ _ _ _ _ Hm). discriminate.
    + rewrite checkCluster_other by exact Hne. apply Hu.
  - unfold MarkUnhealthy. destruct (clusters c !! n) as [m|] eqn:Hm; [|apply Hu]. simpl.
    destruct (decide (n = name)) as [->|Hne].
    + rewrite lookup_insert_eq. intros [= <-]. reflexivity.
    + rewrite lookup_insert_ne by exact Hne. apply Hu.
  - unfold ForceHealthy. destruct (clusters c !! n) as [m|] eqn:Hm; [|apply Hu]. simpl.
    destruct (String.eqb_spec n name) as [Heq|Hne]; [discriminate|].
    rewrite lookup_insert_ne by exact Hne. apply Hu.
Qed.

Lemma unhealthy_run name ks : forall c,
  Forall (fun k => revives name k = false) ks ->
  unhealthy c name -> unhealthy (run c ks) name.
Proof.
  induction ks as [|k ks IH]; intros c Hall Hu; [exact Hu|].
  apply Forall_cons in Hall as [Hk Hall].
  change (run c (k :: ks)) with (run (exec c k) ks).
  apply IH; [exact Hall|]. apply unhealthy_exec; assumption.
Qed.

Lemma unhealthy_AddCluster c name endpoint t0 :
  unhealthy (AddCluster c name endpoint t0) name.
Proof. intros m. simpl. rewrite lookup_insert_eq. intros [= <-]. reflexivity. Qed.

Lemma unhealthy_not_listed c name :
  unhealthy c name -> GetHealthyMetrics c !! name = None.
Proof.
  intros Hu. unfold GetHealthyMetrics. apply map_lookup_filter_None_2.
  right. intros m Hm. simpl. rewrite (Hu m Hm). discriminate.
Qed.

End HealthSpec.

(* ===================================================================== *)
(** ** Target selection                                                    *)
(* ===================================================================== *)

Module SelectSpec.
Import router.

Definition isCluster (t : RouteTarget) : bool := String.eqb (Type_ t) "cluster".
Definition anyTarget (t : RouteTarget) : bool := true.

(** The loop body the minimum searches share: keep the best so far unless
    the next target is eligible and strictly below it. *)
Definition pick (sel : RouteTarget -> bool) (key : RouteTarget -> float)
    (best t : RouteTarget) : RouteTarget :=
  if sel t && F64.ltb (key t) (key best) then t else best.

Lemma cheaper_pick : cheaper = pick anyTarget Cost.
Proof. reflexivity. Qed.

Lemma faster_pick : faster = pick isCluster LatencyP95.
Proof. reflexivity. Qed.

Section MinimumSearch.
Variable sel : RouteTarget -> bool.
Variable key : RouteTarget -> float.

(** The search returns its start or an eligible element strictly below
    it, and nothing eligible is strictly below what it returns. *)
Lemma pick_fold l : forall t0,
  let r := fold_left (pick sel key) l t0 in
  (r = t0 \/ (In r l /\ sel r = true /\ F64.ltb (key r) (key t0) = true)) /\
  (forall c, c = t0 \/ (In c l /\ sel c = true) -> F64.ltb (key c) (key r) = false).
Proof.
  induction l as [|a l IH]; intros t0; simpl.
  - split; [left; reflexivity|]. intros c [->|[[] _]]. apply F64Facts.ltb_irrefl.
  - destruct (IH (pick sel key t0 a)) as [Hr Hmin].
    set (r := fold_left (pick sel key) l (pick sel key t0 a)) in *.
    unfold pick in Hr, Hmin at 1.
    destruct (sel a && F64.ltb (key a) (key t0)) eqn:Hstep.
    + apply andb_true_iff in Hstep as [Hsel Hlt].
      assert (Hr0 : F64.ltb (key r) (key t0) = true).
      { destruct Hr as [->|(_ & _ & Hra)]; [exact Hlt|].
        eapply F64Facts.ltb_trans; eauto. }
      split.
      * right. destruct Hr as [->|(Hin & Hs & _)]; auto.
      * intros c [->|[[->|Hin] Hs]].
        -- apply F64Facts.ltb_leb in Hr0. apply F64Facts.leb_not_ltb, Hr0.
        -- apply Hmin. left. reflexivity.
        -- apply Hmin. right. auto.
    + split.
      * destruct Hr as [->|(Hin & Hs & Hlt)]; [left; reflexivity|right; auto].
      * intros c [->|[[->|Hin] Hs]].
        -- apply Hmin. left. reflexivity.
        -- rewrite Hs in Hstep. simpl in Hstep.
           destruct Hr as [Hr|(_ & _ & Hlt)].
           ++ rewrite Hr. exact Hstep.
           ++ destruct (F64.ltb (key c) (key r)) eqn:E; [|reflexivity].
              rewrite (F64Facts.ltb_trans _ _ _ E Hlt) in Hstep. discriminate.
        -- apply Hmin. right. auto.
Qed.

Lemma pick_fold_In l t0 : In (fold_left (pick sel key) l t0) (t0 :: l).
Proof.
  destruct (pick_fold l t0) as [[->|(Hin & _)] _]; [left; reflexivity|right; exact Hin].
Qed.

(** Nothing eligible: the start is returned. *)
Lemma pick_fold_none l t0 :
  (forall c, In c l -> sel c = false) -> fold_left (pick sel key) l t0 = t0.
Proof.
  intros H. destruct (pick_fold l t0) as [[Hr|(Hin & Hs & _)] _]; [exact Hr|].
  rewrite (H _ Hin) in Hs. discriminate.
Qed.

End MinimumSearch.

(** *** The first loop of [selectHybrid] *)

Definition qualifies (threshold : float) (t : RouteTarget) : bool :=
  isCluster t && F64.leb (Cost t) threshold.

Lemma cheaperCluster_Some thr l : forall a,
  fold_left (cheaperCluster thr) l (Some a)
  = Some (fold_left (pick (qualifies thr) Cost) l a).
Proof.
  induction l as [|x l IH]; intros a; simpl; [reflexivity|].
  rewrite <- IH. f_equal. unfold cheaperCluster, pick, qualifies, isCluster.
  destruct (String.eqb (Type_ x) "cluster" && F64.leb (Cost x) thr); simpl; [|reflexivity].
  destruct (F64.ltb (Cost x) (Cost a)); reflexivity.
Qed.

Lemma cheaperCluster_None thr l :
  (forall c, In c l -> qualifies thr c = false) ->
  fold_left (cheaperCluster thr) l None = None.
Proof.
  induction l as [|x l IH]; intros H; simpl; [reflexivity|].
  unfold cheaperCluster at 2. fold (isCluster x). fold (qualifies thr x).
  rewrite (H x (or_introl eq_refl)). apply IH. intros c Hc. apply H. right. exact Hc.
Qed.

Lemma cheaperCluster_found thr l :
  (exists c, In c l /\ qualifies thr c = true) ->
  exists r, fold_left (cheaperCluster thr) l None = Some r /\
    In r l /\ qualifies thr r = true /\
    forall c, In c l -> qualifies thr c = true -> F64.leb (Cost r) (Cost c) = true.
Proof.
  induction l as [|x l IH]; intros (c0 & Hin0 & Hq0); [destruct Hin0|].
  simpl. unfold cheaperCluster at 2. fold (isCluster x). fold (qualifies thr x).
  destruct (qualifies thr x) eqn:Hx.
  - rewrite cheaperCluster_Some.
    destruct (pick_fold (qualifies thr) Cost l x) as [Hr Hmin].
    set (r := fold_left (pick (qualifies thr) Cost) l x) in *.
    assert (Hqr : qualifies thr r = true)
      by (destruct Hr as [->|(_ & Hs & _)]; auto).
    exists r. split; [reflexivity|]. split; [|split; [exact Hqr|]].
    + destruct Hr as [->|(Hin & _)]; [left; reflexivity|right; exact Hin].
    + intros c Hc Hqc.
      apply F64Facts.not_ltb_leb.
      * apply andb_true_iff in Hqc as [_ Hle]. apply (F64Facts.leb_notNaN _ _ Hle).
      * apply andb_true_iff in Hqr as [_ Hle]. apply (F64Facts.leb_notNaN _ _ Hle).
      * apply Hmin. destruct Hc as [->|Hc]; [left; reflexivity|right; auto].
  - destruct IH as (r & Hf & Hin & Hq & Hmin).
    + destruct Hin0 as [->|Hin0]; [congruence|]. exists c0. auto.
    + exists r. split; [exact Hf|]. split; [right; exact Hin|]. split; [exact Hq|].
      intros c [->|Hc] Hqc; [congruence|]. apply Hmin; auto.
Qed.

(** *** The candidate list [getAllTargets] builds *)

(** A cluster candidate: built from a healthy cluster's metrics that are
    within the latency and queue bounds. *)
Definition clusterCandidate (r : Router) (t : RouteTarget) : Prop :=
  Type_ t = "cluster" /\
  exists m, health.GetHealthyMetrics (healthChecker r) !! Name t = Some m /\
    LatencyP95 t = health.LatencyP95 m /\
    F64.leb (LatencyP95 t) (F64.ofInt (MaxLatencyMs (RouterCfg (config r)))) = true /\
    (health.QueueDepth m <=? MaxQueueDepth (RouterCfg (config r))) = true.

Definition providerCandidate (t : RouteTarget) : Prop :=
  Type_ t = "provider" /\ exists p, Provider t = Some p.

Lemma ranged_lookup {V} (m : gmap string V) order k v :
  In (k, v) (ranged m order) -> m !! k = Some v.
Proof.
  unfold ranged. induction order as [|x order IH]; simpl; [intros []|].
  destruct (m !! x) as [vx|] eqn:Hx; simpl; [|exact IH].
  intros [[= <- <-]|H]; [exact Hx|apply IH, H].
Qed.

Lemma clusterLoop r nw entries : forall engine acc,
  (forall k v, In (k, v) entries ->
     health.GetHealthyMetrics (healthChecker r) !! k = Some v) ->
  exists cs,
    snd (fold_left (addClusterTarget (config r) nw) entries (engine, acc)) = acc ++ cs /\
    Forall (clusterCandidate r) cs.
Proof.
  induction entries as [|[name metrics] entries IH]; intros engine acc Hent; simpl.
  - exists []. rewrite app_nil_r. split; [reflexivity|constructor].
  - assert (Hent' : forall k v, In (k, v) entries ->
              health.GetHealthyMetrics (healthChecker r) !! k = Some v)
      by (intros k v H; apply Hent; right; exact H).
    destruct (F64.leb (health.LatencyP95 metrics)
                (F64.ofInt (MaxLatencyMs (RouterCfg (config r))))) eqn:Hlat; simpl;
      [destruct (health.QueueDepth metrics <=? MaxQueueDepth (RouterCfg (config r)))
         eqn:Hq; simpl|]; try (apply IH; exact Hent').
    destruct (cost.CalculateCostPer1KTokens engine nw name (health.TokensPerSecond metrics))
      as [engine' c].
    destruct (IH engine' (acc ++ [ {| Name := name; Type_ := "cluster";
                 Endpoint := endpointOf (Clusters (config r)) name; Cost := c;
                 IsHealthy := true; LatencyP95 := health.LatencyP95 metrics;
                 QueueDepth := health.QueueDepth metrics; Provider := None |} ]) Hent')
      as (cs & Hcs & Hall).
    eexists (_ :: cs). rewrite Hcs, <- app_assoc. split; [reflexivity|].
    constructor; [|exact Hall].
    split; [reflexivity|]. exists metrics. simpl.
    split; [apply Hent; left; reflexivity|]. auto.
Qed.

Definition providerTargetOf (provider : providers.adapter) : RouteTarget :=
  {| Name := providers.GetName provider; Type_ := "provider"; Endpoint := "";
     Cost := cheapestAverage (providers.GetModelPricing provider);
     IsHealthy := true; LatencyP95 := 0%float; QueueDepth := 0;
     Provider := Some provider |}.

Lemma addProviderTarget_eq w acc key provider :
  addProviderTarget w acc (key, provider)
  = match providers.Health provider (providerCall w key) with
    | None => acc ++ [providerTargetOf provider]
    | Some _ => acc
    end.
Proof. reflexivity. Qed.

Lemma providerLoop w entries : forall acc,
  exists ps,
    fold_left (addProviderTarget w) entries acc = acc ++ ps /\
    Forall providerCandidate ps.
Proof.
  induction entries as [|[key provider] entries IH]; intros acc.
  - exists []. rewrite app_nil_r. split; [reflexivity|constructor].
  - cbn [fold_left]. rewrite addProviderTarget_eq.
    destruct (providers.Health provider (providerCall w key)).
    + apply IH.
    + destruct (IH (acc ++ [providerTargetOf provider])) as (ps & Hps & Hall).
      exists (providerTargetOf provider :: ps).
      rewrite Hps, <- app_assoc. split; [reflexivity|].
      constructor; [|exact Hall]. split; [reflexivity|]. eexists. reflexivity.
Qed.

(** The candidate list: the cluster candidates first, then the providers. *)
Lemma getAllTargets_shape r w :
  exists cs ps,
    snd (getAllTargets r w) = cs ++ ps /\
    Forall (clusterCandidate r) cs /\ Forall providerCandidate ps.
Proof.
  unfold getAllTargets.
  destruct (clusterLoop r (now w)
              (ranged (health.GetHealthyMetrics (healthChecker r)) (clusterOrder w))
              (costEngine r) []) as (cs & Hcs & Hall).
  { intros k v. apply ranged_lookup. }
  destruct (fold_left _ _ (costEngine r, [])) as [engine targets]. simpl in Hcs. subst.
  destruct (providerLoop w
              (ranged (providers.GetAllProviders (providerManager r)) (providerOrder w))
              cs) as (ps & Hps & Hallp).
  exists cs, ps. simpl. rewrite Hps. auto.
Qed.

(** [selectTarget] on a non-empty candidate list: the strategy's choice. *)
Definition strategyChoice (cfg : RouterConfig) (targets : list RouteTarget)
    : option RouteTarget * list effect :=
  if String.eqb (RoutingStrategy cfg) "cost" then selectByCost targets
  else if String.eqb (RoutingStrategy cfg) "latency" then selectByLatency targets
  else if String.eqb (RoutingStrategy cfg) "external_first" then selectExternalFirst targets
  else if String.eqb (RoutingStrategy cfg) "cluster_first" then selectClusterFirst targets
  else selectHybrid (ClusterCostThreshold cfg) targets.

Lemma selectTarget_nonempty r w :
  snd (getAllTargets r w) <> [] ->
  selectTarget r w
  = (fst (getAllTargets r w),
     (fst (strategyChoice (RouterCfg (config r)) (snd (getAllTargets r w))), None),
     snd (strategyChoice (RouterCfg (config r)) (snd (getAllTargets r w)))).
Proof.
  intros Hne. unfold selectTarget, strategyChoice.
  destruct (getAllTargets r w) as [r' targets]. cbn [fst snd] in *.
  destruct targets as [|t targets]; [congruence|].
  change (length (t :: targets) =? 0)%nat with false. cbv iota.
  destruct (String.eqb _ "cost"); [destruct (selectByCost _); reflexivity|].
  destruct (String.eqb _ "latency"); [destruct (selectByLatency _); reflexivity|].
  destruct (String.eqb _ "external_first"); [destruct (selectExternalFirst _); reflexivity|].
  destruct (String.eqb _ "cluster_first"); [destruct (selectClusterFirst _); reflexivity|].
  destruct (selectHybrid _ _); reflexivity.
Qed.

Lemma selectTarget_empty r w :
  snd (getAllTargets r w) = [] ->
  selectTarget r w
  = (fst (getAllTargets r w), (None, Some "no healthy targets available"), []).
Proof.
  intros He. unfold selectTarget.
  destruct (getAllTargets r w) as [r' targets]. simpl in *. subst. reflexivity.
Qed.

End SelectSpec.

(* ===================================================================== *)
(** ** The routing strategies and the request handler                      *)
(* ===================================================================== *)

Module RouterSpec.
Import router SelectSpec.

Lemma isCluster_true t : isCluster t = true <-> Type_ t = "cluster".
Proof. unfold isCluster. apply String.eqb_eq. Qed.

Lemma provider_not_cluster t : providerCandidate t -> isCluster t = false.
Proof. intros [H _]. unfold isCluster. rewrite H. reflexivity. Qed.

Lemma cluster_latency_number r t :
  clusterCandidate r t -> F64.isNaN (LatencyP95 t) = false.
Proof.
  intros (_ & m & _ & _ & Hle & _). apply (F64Facts.leb_notNaN _ _ Hle).
Qed.

Lemma cluster_in_candidates (cs ps : list RouteTarget) c :
  Forall providerCandidate ps -> In c (cs ++ ps) -> Type_ c = "cluster" -> In c cs.
Proof.
  intros Hps Hin Hc. apply in_app_or in Hin as [H|H]; [exact H|].
  rewrite Forall_forall in Hps.
  assert (Hp : providerCandidate c) by (apply Hps, list_elem_of_In, H).
  apply provider_not_cluster in Hp. apply isCluster_true in Hc. congruence.
Qed.

(** The scenario of the specification: clusters A (0.005) and B (0.02),
    provider C (0.001), threshold 0.01. *)
Definition clusterA : RouteTarget :=
  mkRouteTarget "A" "cluster" "http://a.internal:8080" 0.005 true 120 1 None.
Definition clusterB : RouteTarget :=
  mkRouteTarget "B" "cluster" "http://b.internal:8080" 0.02 true 80 0 None.
Definition providerC : RouteTarget :=
  mkRouteTarget "C" "provider" "" 0.001 true 0 0
    (Some (providers.OpenAIAdapter
             (providers.OpenAI.NewOpenAIProvider
                (providers.mkProviderConfig "C" "openai" "sk-test" "" "gpt-4" true)))).

(** A [NaN] at the front of a minimum search stays: nothing compares
    strictly below it. *)
Lemma pick_fold_NaN sel key rest first :
  F64.isNaN (key first) = true -> fold_left (pick sel key) rest first = first.
Proof.
  intros Hnan. destruct (pick_fold sel key rest first) as [[Hr|(_ & _ & Hlt)] _]; [exact Hr|].
  apply F64Facts.ltb_cmp, F64Facts.cmp_Some_notNaN in Hlt. destruct Hlt as [_ Hlt].
  congruence.
Qed.

(** C1, as the code has it. [selectHybrid] on a non-empty list returns a
    target of the list and counts one routing decision for it. If some
    cluster-type candidate costs at most the threshold, the target is a
    cheapest such candidate and the reason is [hybrid_cluster], whatever
    the providers cost. Otherwise the reason is [hybrid_cheapest] and the
    target is a candidate no other candidate is strictly cheaper than:
    a candidate of least cost when no cost is [NaN], but the first
    candidate of the list when its cost is [NaN], whatever the others
    cost. This is what [selectTarget] returns under the [hybrid]
    strategy, and on the specification's scenario the choice is A with
    [hybrid_cluster]. *)
Theorem selectHybrid_spec :
  (forall threshold targets, targets <> [] ->
     ((exists c, In c targets /\ Type_ c = "cluster" /\
                 F64.leb (Cost c) threshold = true) ->
      exists t,
        selectHybrid threshold targets
        = (Some t, [CounterInc "llm_router_routing_decisions_total"
                      [Name t; Type_ t; "hybrid_cluster"]]) /\
        In t targets /\ Type_ t = "cluster" /\ F64.leb (Cost t) threshold = true /\
        forall c, In c targets -> Type_ c = "cluster" ->
          F64.leb (Cost c) threshold = true -> F64.leb (Cost t) (Cost c) = true) /\
     ((forall c, In c targets -> Type_ c = "cluster" ->
                 F64.leb (Cost c) threshold = false) ->
      exists t,
        selectHybrid threshold targets
        = (Some t, [CounterInc "llm_router_routing_decisions_total"
                      [Name t; Type_ t; "hybrid_cheapest"]]) /\
        In t targets /\
        (forall c, In c targets -> F64.ltb (Cost c) (Cost t) = false) /\
        ((forall c, In c targets -> F64.isNaN (Cost c) = false) ->
         forall c, In c targets -> F64.leb (Cost t) (Cost c) = true) /\
        (forall first rest, targets = first :: rest ->
           F64.isNaN (Cost first) = true -> t = first))) /\
  (forall r w,
     RoutingStrategy (RouterCfg (config r)) = "hybrid" ->
     snd (getAllTargets r w) <> [] ->
     selectTarget r w
     = (fst (getAllTargets r w),
        (fst (selectHybrid (ClusterCostThreshold (RouterCfg (config r)))
                (snd (getAllTargets r w))), None),
        snd (selectHybrid (ClusterCostThreshold (RouterCfg (config r)))
               (snd (getAllTargets r w))))) /\
  selectHybrid 0.01 [clusterA; clusterB; providerC]
  = (Some clusterA, [CounterInc "llm_router_routing_decisions_total"
                       ["A"; "cluster"; "hybrid_cluster"]]).
Proof.
  split; [|split].
  - intros thr targets Hne. destruct targets as [|first rest]; [congruence|]. split.
    + intros (c & Hin & Hty & Hle).
      destruct (cheaperCluster_found thr (first :: rest)) as (t & Hf & Hint & Hq & Hmin).
      { exists c. split; [exact Hin|]. unfold qualifies.
        rewrite (proj2 (isCluster_true c) Hty), Hle. reflexivity. }
      exists t. unfold selectHybrid. rewrite Hf.
      apply andb_true_iff in Hq as [Hc Hl]. apply isCluster_true in Hc.
      split; [reflexivity|]. repeat split; auto.
      intros c' Hin' Hty' Hle'. apply Hmin; [exact Hin'|].
      unfold qualifies. rewrite (proj2 (isCluster_true c') Hty'), Hle'. reflexivity.
    + intros Hnone. unfold selectHybrid.
      rewrite cheaperCluster_None.
      * rewrite cheaper_pick.
        destruct (pick_fold anyTarget Cost rest first) as [Hr Hmin].
        exists (fold_left (pick anyTarget Cost) rest first).
        split; [reflexivity|]. split; [apply pick_fold_In|].
        assert (Hall : forall c, In c (first :: rest) ->
                  F64.ltb (Cost c) (Cost (fold_left (pick anyTarget Cost) rest first)) = false).
        { intros c [<-|Hc]; apply Hmin; [left; reflexivity|right; auto]. }
        split; [exact Hall|]. split.
        -- intros Hnum c Hc. apply F64Facts.not_ltb_leb; auto.
           apply Hnum, pick_fold_In.
        -- intros first' rest' [= <- <-] Hnan. apply pick_fold_NaN, Hnan.
      * intros c Hc. unfold qualifies.
        destruct (isCluster c) eqn:Hty; [|reflexivity].
        apply isCluster_true in Hty. rewrite (Hnone c Hc Hty). reflexivity.
  - intros r w Hs Hne. rewrite (selectTarget_nonempty r w Hne).
    unfold strategyChoice. rewrite Hs. reflexivity.
  - vm_compute. reflexivity.
Qed.

(** The two branches on concrete lists: A is chosen although C is cheaper;
    with the threshold at 0.001 no cluster qualifies and C is chosen. *)
Lemma selectHybrid_spec_witness :
  (exists t, selectHybrid 0.01 [clusterA; clusterB; providerC]
             = (Some t, [CounterInc "llm_router_routing_decisions_total"
                           [Name t; Type_ t; "hybrid_cluster"]]) /\
     In t [clusterA; clusterB; providerC] /\ Type_ t = "cluster" /\
     F64.leb (Cost t) 0.01 = true /\
     forall c, In c [clusterA; clusterB; providerC] -> Type_ c = "cluster" ->
       F64.leb (Cost c) 0.01 = true -> F64.leb (Cost t) (Cost c) = true) /\
  (exists t, selectHybrid 0.001 [clusterA; clusterB; providerC]
             = (Some t, [CounterInc "llm_router_routing_decisions_total"
                           [Name t; Type_ t; "hybrid_cheapest"]]) /\
     In t [clusterA; clusterB; providerC] /\
     (forall c, In c [clusterA; clusterB; providerC] -> F64.ltb (Cost c) (Cost t) = false) /\
     ((forall c, In c [clusterA; clusterB; providerC] -> F64.isNaN (Cost c) = false) ->
      forall c, In c [clusterA; clusterB; providerC] -> F64.leb (Cost t) (Cost c) = true) /\
     (forall first rest, [clusterA; clusterB; providerC] = first :: rest ->
        F64.isNaN (Cost first) = true -> t = first)).
Proof.
  split.
  - apply (proj1 (proj1 selectHybrid_spec 0.01%float [clusterA; clusterB; providerC]
                    ltac:(discriminate))).
    exists clusterA. split; [left; reflexivity|].
    split; [reflexivity|vm_compute; reflexivity].
  - apply (proj2 (proj1 selectHybrid_spec 0.001%float [clusterA; clusterB; providerC]
                    ltac:(discriminate))).
    intros c [<-|[<-|[<-|[]]]] Hty; try discriminate; vm_compute; reflexivity.
Defined.

(** C6. Under the [latency] strategy, on the non-empty candidate list the
    router has built (cluster candidates, then providers): the selection
    is tagged [lowest_latency]; if the list holds a cluster-type candidate
    the result is a cluster-type candidate of minimal [LatencyP95] among
    the cluster-type candidates, whatever the providers' fields; if it
    holds none, the result is the first candidate of the list. *)
Theorem selectByLatency_spec (r : Router) (w : world) :
  snd (getAllTargets r w) <> [] ->
  exists t,
    selectByLatency (snd (getAllTargets r w)) = decision t "lowest_latency" /\
    In t (snd (getAllTargets r w)) /\
    (RoutingStrategy (RouterCfg (config r)) = "latency" ->
       selectTarget r w
       = (fst (getAllTargets r w), (Some t, None),
          [CounterInc "llm_router_routing_decisions_total"
             [Name t; Type_ t; "lowest_latency"]])) /\
    ((exists c, In c (snd (getAllTargets r w)) /\ Type_ c = "cluster") ->
       Type_ t = "cluster" /\
       forall c, In c (snd (getAllTargets r w)) -> Type_ c = "cluster" ->
         F64.leb (LatencyP95 t) (LatencyP95 c) = true) /\
    ((forall c, In c (snd (getAllTargets r w)) -> Type_ c <> "cluster") ->
       head (snd (getAllTargets r w)) = Some t).
Proof.
  intros Hne.
  destruct (getAllTargets_shape r w) as (cs & ps & Hshape & Hcs & Hps).
  pose proof (selectTarget_nonempty r w Hne) as Hsel.
  unfold strategyChoice in Hsel.
  destruct (snd (getAllTargets r w)) as [|first rest] eqn:Htargets; [congruence|].
  exists (fold_left faster rest first).
  split; [reflexivity|]. rewrite faster_pick.
  split; [apply pick_fold_In|]. split; [|split].
  - intros Hs. rewrite Hsel, Hs. reflexivity.
  - intros (c0 & Hin0 & Hty0).
    assert (Hfirst : clusterCandidate r first).
    { destruct cs as [|c cs'].
      - simpl in Hshape. subst ps. rewrite Forall_forall in Hps.
        assert (Hp : providerCandidate c0) by (apply Hps, list_elem_of_In, Hin0).
        apply provider_not_cluster in Hp. apply isCluster_true in Hty0. congruence.
      - injection Hshape as -> _. apply Forall_cons in Hcs as [H _]. exact H. }
    assert (Hcand : forall c, In c (first :: rest) -> Type_ c = "cluster" ->
              clusterCandidate r c).
    { intros c Hin Hty. rewrite Hshape in Hin.
      pose proof (cluster_in_candidates cs ps c Hps Hin Hty) as Hc.
      rewrite Forall_forall in Hcs. apply Hcs, list_elem_of_In, Hc. }
    destruct (pick_fold isCluster LatencyP95 rest first) as [Hr Hmin].
    set (t := fold_left (pick isCluster LatencyP95) rest first) in *.
    assert (Ht : Type_ t = "cluster").
    { destruct Hr as [->|(_ & Hs & _)]; [apply Hfirst|apply isCluster_true, Hs]. }
    assert (Htin : In t (first :: rest)).
    { destruct Hr as [->|(Hin & _)]; [left; reflexivity|right; exact Hin]. }
    split; [exact Ht|]. intros c Hin Hty.
    apply F64Facts.not_ltb_leb.
    + apply (cluster_latency_number r), Hcand; assumption.
    + apply (cluster_latency_number r), Hcand; assumption.
    + apply Hmin. destruct Hin as [<-|Hin]; [left; reflexivity|right].
      split; [exact Hin|apply isCluster_true, Hty].
  - intros Hnone. simpl. f_equal. symmetry. apply pick_fold_none.
    intros c Hc. destruct (isCluster c) eqn:E; [|reflexivity].
    apply isCluster_true in E. exfalso. apply (Hnone c); [right; exact Hc|exact E].
Qed.

(** The loop of [selectByLatency] starts from the first element whatever
    its type: on a list with a provider in front (one [getAllTargets]
    never builds) the provider's unset latency 0 is what the clusters are
    compared with. *)
Remark selectByLatency_provider_in_front :
  selectByLatency [providerC; clusterA; clusterB] = decision providerC "lowest_latency".
Proof. vm_compute. reflexivity. Qed.


(** *** A concrete deployment *)

Definition demoConfig (strategy : string) : Config :=
  {| Clusters :=
       [Cluster.mkClusterConfig "gpu-a" "http://gpu-a:8080" "us-east-1" "aws" 1.5
          "hmac" "s3cr3t" "" "";
        Cluster.mkClusterConfig "gpu-b" "http://gpu-b:8080" "europe-west1" "gcp" 0.9
          "hmac" "t0ps3cr3t" "" ""];
     ExternalProviders :=
       [providers.mkProviderConfig "openai" "openai" "sk-test" "" "gpt-3.5-turbo" true];
     RouterCfg := mkRouterConfig 30 5000 10 1.1 strategy true 0.01 |}.

Definition withHealthChecker (r : Router) (hc : health.Checker) : Router :=
  {| config := config r; healthChecker := hc; costEngine := costEngine r;
     forwarder := forwarder r; providerManager := providerManager r |}.

(** The router at start-up: both clusters registered, none checked yet. *)
Definition startedRouter (strategy : string) : Router :=
  NewRouter (demoConfig strategy) (fun _ => 0) (fun _ _ => false) (fun key => key).

(** The router after one round of checks that found both clusters up,
    [gpu-b] with the lower latency. *)
Definition checkedRouter (strategy : string) : Router :=
  withHealthChecker (startedRouter strategy)
    (health.run (healthChecker (startedRouter strategy))
       [health.CallCheck "gpu-a" HealthSpec.probeUp 12 30;
        health.CallCheck "gpu-b"
          (health.mkProbe (http.Response 200) (http.Response 200) (http.Response 200)
             (Some (health.mkStats 0 55 120))) 8 30]).

(** A request while the provider answers 200, and one while it is
    rate-limited. *)
Definition providerUp : world :=
  mkWorld 31 ["gpu-a"; "gpu-b"] ["openai"]
          (fun _ => providers.Done (http.Response 200)) None.
Definition providerLimited : world :=
  mkWorld 31 ["gpu-a"; "gpu-b"] ["openai"]
          (fun _ => providers.Done (http.Response 429)) None.

(** With both clusters and the provider in the list, the cluster of least
    latency is selected. *)
Lemma selectByLatency_spec_witness :
  exists t,
    selectByLatency (snd (getAllTargets (checkedRouter "latency") providerUp))
      = decision t "lowest_latency" /\
    In t (snd (getAllTargets (checkedRouter "latency") providerUp)) /\
    (RoutingStrategy (RouterCfg (config (checkedRouter "latency"))) = "latency" ->
       selectTarget (checkedRouter "latency") providerUp
       = (fst (getAllTargets (checkedRouter "latency") providerUp), (Some t, None),
          [CounterInc "llm_router_routing_decisions_total"
             [Name t; Type_ t; "lowest_latency"]])) /\
    ((exists c, In c (snd (getAllTargets (checkedRouter "latency") providerUp)) /\
                Type_ c = "cluster") ->
       Type_ t = "cluster" /\
       forall c, In c (snd (getAllTargets (checkedRouter "latency") providerUp)) ->
         Type_ c = "cluster" -> F64.leb (LatencyP95 t) (LatencyP95 c) = true) /\
    ((forall c, In c (snd (getAllTargets (checkedRouter "latency") providerUp)) ->
                Type_ c <> "cluster") ->
       head (snd (getAllTargets (checkedRouter "latency") providerUp)) = Some t).
Proof.
  apply (selectByLatency_spec (checkedRouter "latency") providerUp).
  vm_compute. discriminate.
Defined.

Example latency_selects_gpu_b :
  fst (snd (fst (selectTarget (checkedRouter "latency") providerUp)))
  = Some (mkRouteTarget "gpu-b" "cluster" "http://gpu-b:8080"
            (cost.costFormula 0.9 55 1.1) true 120 0 None).
Proof. vm_compute. reflexivity. Qed.


(** *** A cost that is not a number *)

(** One cluster whose configured hourly cost is [NaN] (the YAML [.nan]),
    checked once and found up, and the provider. *)
Definition nanConfig : Config :=
  {| Clusters :=
       [Cluster.mkClusterConfig "gpu-a" "http://gpu-a:8080" "us-east-1" "aws" nan
          "hmac" "s3cr3t" "" ""];
     ExternalProviders :=
       [providers.mkProviderConfig "openai" "openai" "sk-test" "" "gpt-3.5-turbo" true];
     RouterCfg := mkRouterConfig 30 5000 10 1.1 "hybrid" true 0.01 |}.

Definition nanRouter : Router :=
  withHealthChecker
    (NewRouter nanConfig (fun _ => 0) (fun _ _ => false) (fun key => key))
    (health.run
       (healthChecker (NewRouter nanConfig (fun _ => 0) (fun _ _ => false) (fun key => key)))
       [health.CallCheck "gpu-a" HealthSpec.probeUp 12 30]).

(** C1 as stated fails: no cluster qualifies, and the candidate returned
    with [hybrid_cheapest] is the cluster, whose cost is [NaN], although
    the provider in the list has a cost that is a number; the target is
    not the one of globally minimal cost. *)
Lemma hybrid_cheapest_not_minimal :
  exists t c,
    selectTarget nanRouter providerUp
    = (fst (getAllTargets nanRouter providerUp),
       (Some t, None),
       [CounterInc "llm_router_routing_decisions_total"
          [Name t; Type_ t; "hybrid_cheapest"]]) /\
    In c (snd (getAllTargets nanRouter providerUp)) /\
    Name t = "gpu-a" /\ Name c = "openai" /\
    F64.isNaN (Cost t) = true /\ F64.isNaN (Cost c) = false /\
    F64.leb (Cost t) (Cost c) = false.
Proof.
  exists (nth 0 (snd (getAllTargets nanRouter providerUp)) providerC),
         (nth 1 (snd (getAllTargets nanRouter providerUp)) providerC).
  split; [vm_compute; reflexivity|].
  split; [vm_compute; right; left; reflexivity|].
  split; [vm_compute; reflexivity|]. split; [vm_compute; reflexivity|].
  split; [vm_compute; reflexivity|]. split; vm_compute; reflexivity.
Qed.

(** *** Registered, not yet checked *)

Lemma cluster_target_candidate r w t :
  In t (snd (getAllTargets r w)) -> Type_ t = "cluster" -> clusterCandidate r t.
Proof.
  intros Hin Hty.
  destruct (getAllTargets_shape r w) as (cs & ps & Hshape & Hcs & Hps).
  rewrite Hshape in Hin.
  pose proof (cluster_in_candidates cs ps t Hps Hin Hty) as Hc.
  rewrite Forall_forall in Hcs. apply Hcs, list_elem_of_In, Hc.
Qed.

(** C10, as the code has it. A cluster registered by [AddCluster] starts
    with [Healthy = false]; in every state reached from there by calls
    none of which is a successful health check of that cluster or a
    [ForceHealthy] of it, the cluster is absent from [GetHealthyMetrics],
    and no cluster-type candidate of the router bears its name. *)
Theorem unchecked_cluster_not_routed (c : health.Checker) (name endpoint : string)
    (t0 : Time) (ks : list health.call) :
  Forall (fun k => HealthSpec.revives name k = false) ks ->
  (exists m, health.clusters (health.AddCluster c name endpoint t0) !! name = Some m /\
             health.Healthy m = false) /\
  health.GetHealthyMetrics (health.run (health.AddCluster c name endpoint t0) ks) !! name
    = None /\
  (forall r w t,
     healthChecker r = health.run (health.AddCluster c name endpoint t0) ks ->
     In t (snd (getAllTargets r w)) -> Type_ t = "cluster" -> Name t <> name).
Proof.
  intros Hall.
  assert (Hnone : health.GetHealthyMetrics
                    (health.run (health.AddCluster c name endpoint t0) ks) !! name = None).
  { apply HealthSpec.unhealthy_not_listed, HealthSpec.unhealthy_run; [exact Hall|].
    apply HealthSpec.unhealthy_AddCluster. }
  split; [|split; [exact Hnone|]].
  - eexists. split; [simpl; apply lookup_insert_eq|reflexivity].
  - intros r w t Hr Hin Hty Hname.
    destruct (cluster_target_candidate r w t Hin Hty) as (_ & m & Hm & _).
    rewrite Hr, Hname, Hnone in Hm. discriminate.
Qed.

(** [gpu-a] through failed checks and a manual [MarkUnhealthy], while
    [gpu-b] is checked successfully: [gpu-a] is not a candidate. *)
Lemma unchecked_cluster_not_routed_witness :
  (exists m,
     health.clusters (health.AddCluster (health.NewChecker 30) "gpu-a" "http://gpu-a:8080" 0)
       !! "gpu-a" = Some m /\ health.Healthy m = false) /\
  health.GetHealthyMetrics
    (health.run (health.AddCluster (health.NewChecker 30) "gpu-a" "http://gpu-a:8080" 0)
       [health.CallAddCluster "gpu-b" "http://gpu-b:8080" 0;
        health.CallCheck "gpu-a" HealthSpec.probeDown 9 30;
        health.CallCheck "gpu-b" HealthSpec.probeUp 12 30;
        health.CallMarkUnhealthy "gpu-a" "maintenance"]) !! "gpu-a" = None.
Proof.
  pose proof (unchecked_cluster_not_routed (health.NewChecker 30) "gpu-a"
                "http://gpu-a:8080" 0
                [health.CallAddCluster "gpu-b" "http://gpu-b:8080" 0;
                 health.CallCheck "gpu-a" HealthSpec.probeDown 9 30;
                 health.CallCheck "gpu-b" HealthSpec.probeUp 12 30;
                 health.CallMarkUnhealthy "gpu-a" "maintenance"]) as H.
  destruct H as (H1 & H2 & _).
  - repeat constructor.
  - split; [exact H1|exact H2].
Defined.

(** C10 as stated fails: [ForceHealthy] makes a registered cluster a
    candidate although none of its health checks has run. *)
Lemma ForceHealthy_routes_unchecked_cluster :
  health.outcomes "gpu-a" [health.CallForceHealthy "gpu-a"] = [] /\
  (exists m,
     health.GetHealthyMetrics
       (health.run (healthChecker (startedRouter "hybrid"))
          [health.CallForceHealthy "gpu-a"]) !! "gpu-a" = Some m) /\
  (exists t,
     In t (snd (getAllTargets
                  (withHealthChecker (startedRouter "hybrid")
                     (health.run (healthChecker (startedRouter "hybrid"))
                        [health.CallForceHealthy "gpu-a"]))
                  providerLimited)) /\
     Type_ t = "cluster" /\ Name t = "gpu-a").
Proof.
  split; [reflexivity|]. split.
  - eexists. vm_compute. reflexivity.
  - eexists. split; [vm_compute; left; reflexivity|]. split; reflexivity.
Qed.

End RouterSpec.

(* ===================================================================== *)
(** ** The provider adapters                                               *)
(* ===================================================================== *)

Module ProvidersSpec.
Import providers.

(** The cost of a request at given prices, as the claim writes it. *)
Definition priced (pr : ModelPricing) (inputTokens outputTokens : Z) : float :=
  (F64.ofInt inputTokens * InputPricePer1K pr / 1000
   + F64.ofInt outputTokens * OutputPricePer1K pr / 1000)%float.

(** [CalculateCost] prices with the default model when the table has it,
    and with the adapter's fallback model otherwise. *)
Definition pricesByDefaultOrFallback (a : adapter) : Prop :=
  forall inputTokens outputTokens,
    (forall pr, GetModelPricing a !! defaultModel a = Some pr ->
       CalculateCost a inputTokens outputTokens = priced pr inputTokens outputTokens) /\
    (GetModelPricing a !! defaultModel a = None ->
       exists pr, GetModelPricing a !! fallbackModel a = Some pr /\
         CalculateCost a inputTokens outputTokens = priced pr inputTokens outputTokens).

(** A model of the table no model undercuts, on input or on output. *)
Definition cheapestModel (a : adapter) (model : string) : Prop :=
  exists pr, GetModelPricing a !! model = Some pr /\
    forall m' pr', GetModelPricing a !! m' = Some pr' ->
      F64.leb (InputPricePer1K pr) (InputPricePer1K pr') = true /\
      F64.leb (OutputPricePer1K pr) (OutputPricePer1K pr') = true.

Ltac table_entry H :=
  repeat (apply lookup_insert_Some in H as [[<- <-]|[_ H]];
          [split; vm_compute; reflexivity|]);
  rewrite lookup_empty in H; discriminate.

Lemma OpenAI_prices cfg : pricesByDefaultOrFallback (OpenAIAdapter (OpenAI.NewOpenAIProvider cfg)).
Proof.
  intros i o. cbn [GetModelPricing CalculateCost adapter_Provider OpenAI_Provider defaultModel
                   fallbackModel].
  unfold OpenAI.GetModelPricing, OpenAI.CalculateCost.
  cbn [OpenAI.pricing OpenAI.config OpenAI.NewOpenAIProvider withBaseURL DefaultModel].
  destruct (String.eqb_spec (DefaultModel cfg) "") as [->|Hne].
  - split; [intros pr H; vm_compute in H; discriminate|].
    intros _. eexists. split; [vm_compute; reflexivity|reflexivity].
  - split.
    + intros pr H. rewrite H. reflexivity.
    + intros H. rewrite H. eexists. split; [vm_compute; reflexivity|reflexivity].
Qed.

Lemma Claude_prices cfg : pricesByDefaultOrFallback (ClaudeAdapter (Claude.NewClaudeProvider cfg)).
Proof.
  intros i o. cbn [GetModelPricing CalculateCost adapter_Provider Claude_Provider defaultModel
                   fallbackModel].
  unfold Claude.GetModelPricing, Claude.CalculateCost.
  cbn [Claude.pricing Claude.config Claude.NewClaudeProvider withBaseURL DefaultModel].
  destruct (String.eqb_spec (DefaultModel cfg) "") as [->|Hne].
  - split; [intros pr H; vm_compute in H; discriminate|].
    intros _. eexists. split; [vm_compute; reflexivity|reflexivity].
  - split.
    + intros pr H. rewrite H. reflexivity.
    + intros H. rewrite H. eexists. split; [vm_compute; reflexivity|reflexivity].
Qed.

Lemma Gemini_prices cfg : pricesByDefaultOrFallback (GeminiAdapter (Gemini.NewGeminiProvider cfg)).
Proof.
  intros i o. cbn [GetModelPricing CalculateCost adapter_Provider Gemini_Provider defaultModel
                   fallbackModel].
  unfold Gemini.GetModelPricing, Gemini.CalculateCost.
  cbn [Gemini.pricing Gemini.config Gemini.NewGeminiProvider withBaseURL DefaultModel].
  destruct (String.eqb_spec (DefaultModel cfg) "") as [->|Hne].
  - split; [intros pr H; vm_compute in H; discriminate|].
    intros _. eexists. split; [vm_compute; reflexivity|reflexivity].
  - split.
    + intros pr H. rewrite H. reflexivity.
    + intros H. rewrite H. eexists. split; [vm_compute; reflexivity|reflexivity].
Qed.

(** C8, as the code has it. For every adapter and all token counts,
    [CalculateCost] is [inputTokens * inputPricePer1K / 1000 +
    outputTokens * outputPricePer1K / 1000] at the prices of the configured
    default model when the pricing table has it, and otherwise at the
    prices of the adapter's fixed fallback model: gpt-3.5-turbo,
    claude-3-haiku-20240307, gemini-pro. For OpenAI and Claude the
    fallback is the cheapest model of the table. *)
Theorem CalculateCost_spec (cfg : ProviderConfig) :
  pricesByDefaultOrFallback (OpenAIAdapter (OpenAI.NewOpenAIProvider cfg)) /\
  pricesByDefaultOrFallback (ClaudeAdapter (Claude.NewClaudeProvider cfg)) /\
  pricesByDefaultOrFallback (GeminiAdapter (Gemini.NewGeminiProvider cfg)) /\
  cheapestModel (OpenAIAdapter (OpenAI.NewOpenAIProvider cfg)) "gpt-3.5-turbo" /\
  cheapestModel (ClaudeAdapter (Claude.NewClaudeProvider cfg)) "claude-3-haiku-20240307".
Proof.
  split; [apply OpenAI_prices|]. split; [apply Claude_prices|].
  split; [apply Gemini_prices|]. split.
  - eexists. split; [vm_compute; reflexivity|].
    intros m' pr' H.
    cbn [GetModelPricing adapter_Provider OpenAI_Provider] in H.
    unfold OpenAI.GetModelPricing in H.
    cbn [OpenAI.pricing OpenAI.NewOpenAIProvider] in H.
    table_entry H.
  - eexists. split; [vm_compute; reflexivity|].
    intros m' pr' H.
    cbn [GetModelPricing adapter_Provider Claude_Provider] in H.
    unfold Claude.GetModelPricing in H.
    cbn [Claude.pricing Claude.NewClaudeProvider] in H.
    table_entry H.
Qed.

(** An adapter configured with "gpt-4", and one with a model the table
    does not have. *)
Lemma CalculateCost_spec_witness :
  CalculateCost (OpenAIAdapter (OpenAI.NewOpenAIProvider
                   (mkProviderConfig "openai" "openai" "sk-test" "" "gpt-4" true))) 1200 300
    = priced (mkModelPricing 0.03 0.06 8192 8192) 1200 300 /\
  exists pr,
    GetModelPricing (GeminiAdapter (Gemini.NewGeminiProvider
       (mkProviderConfig "gemini" "gemini" "key" "" "gemini-ultra" true))) !! "gemini-pro"
      = Some pr /\
    CalculateCost (GeminiAdapter (Gemini.NewGeminiProvider
       (mkProviderConfig "gemini" "gemini" "key" "" "gemini-ultra" true))) 1200 300
      = priced pr 1200 300.
Proof.
  split.
  - apply (proj1 (proj1 (CalculateCost_spec
               (mkProviderConfig "openai" "openai" "sk-test" "" "gpt-4" true)) 1200 300)).
    vm_compute. reflexivity.
  - apply (proj2 (proj1 (proj2 (proj2 (CalculateCost_spec
               (mkProviderConfig "gemini" "gemini" "key" "" "gemini-ultra" true))))
             1200 300)).
    vm_compute. reflexivity.
Defined.

(** C8 as stated fails for Gemini: with a default model the table does not
    have, [CalculateCost] prices with gemini-pro, while gemini-1.5-flash is
    cheaper on input and on output, and the estimate is strictly above
    the one at the cheapest model's prices. *)
Lemma Gemini_fallback_not_cheapest :
  GetModelPricing (GeminiAdapter (Gemini.NewGeminiProvider
     (mkProviderConfig "gemini" "gemini" "key" "" "gemini-ultra" true))) !! "gemini-ultra"
    = None /\
  GetModelPricing (GeminiAdapter (Gemini.NewGeminiProvider
     (mkProviderConfig "gemini" "gemini" "key" "" "gemini-ultra" true))) !! "gemini-1.5-flash"
    = Some (mkModelPricing 0.000075 0.0003 8192 1000000) /\
  CalculateCost (GeminiAdapter (Gemini.NewGeminiProvider
     (mkProviderConfig "gemini" "gemini" "key" "" "gemini-ultra" true))) 1000 1000
    = priced (mkModelPricing 0.0005 0.0015 2048 30720) 1000 1000 /\
  F64.ltb 0.000075 0.0005 = true /\ F64.ltb 0.0003 0.0015 = true /\
  F64.ltb (priced (mkModelPricing 0.000075 0.0003 8192 1000000) 1000 1000)
          (CalculateCost (GeminiAdapter (Gemini.NewGeminiProvider
             (mkProviderConfig "gemini" "gemini" "key" "" "gemini-ultra" true))) 1000 1000)
    = true.
Proof.
  split; [vm_compute; reflexivity|]. split; [vm_compute; reflexivity|].
  split; [vm_compute; reflexivity|]. split; [vm_compute; reflexivity|].
  split; vm_compute; reflexivity.
Qed.

(** C7, on the code: answered 429, only the Claude adapter's health check
    succeeds; the OpenAI and the Gemini adapters' health checks return an
    error, as for any status other than 200. *)
Theorem Health_rate_limited (cfg : ProviderConfig) :
  Health (ClaudeAdapter (Claude.NewClaudeProvider cfg))
         (Done (http.Response http.StatusTooManyRequests)) = None /\
  Health (OpenAIAdapter (OpenAI.NewOpenAIProvider cfg))
         (Done (http.Response http.StatusTooManyRequests))
    = Some "OpenAI health check failed with status 429" /\
  Health (GeminiAdapter (Gemini.NewGeminiProvider cfg))
         (Done (http.Response http.StatusTooManyRequests))
    = Some "Gemini health check failed with status 429".
Proof. repeat split. Qed.

End ProvidersSpec.

(* ===================================================================== *)
(** ** Decimal conversions                                                 *)
(* ===================================================================== *)

Module StrconvSpec.
Import strconv.

Lemma digits_head d :
  d <> Decimal.Nil ->
  exists c rest, NilEmpty.string_of_uint d = String c rest /\
    Ascii.eqb c "+" = false /\ Ascii.eqb c "-" = false.
Proof.
  intros Hd. destruct d; [congruence|..]; simpl; eexists _, _; repeat split.
Qed.

Lemma digits_parse p :
  NilZero.uint_of_string (NilEmpty.string_of_uint (Pos.to_uint p)) = Some (Pos.to_uint p) /\
  Z.of_uint (Pos.to_uint p) = Z.pos p.
Proof.
  pose proof (DecimalPos.Unsigned.to_uint_nonnil p) as Hn. split.
  - pose proof (NilZero.usu (Pos.to_uint p) Hn) as H.
    unfold NilZero.string_of_uint in H.
    destruct (Pos.to_uint p); [congruence|..]; exact H.
  - unfold Z.of_uint. rewrite DecimalPos.Unsigned.of_to. reflexivity.
Qed.

Lemma FormatInt_pos p : FormatInt (Z.pos p) = NilEmpty.string_of_uint (Pos.to_uint p).
Proof.
  unfold FormatInt. simpl. unfold NilZero.string_of_uint.
  pose proof (DecimalPos.Unsigned.to_uint_nonnil p) as Hn.
  destruct (Pos.to_uint p); [congruence|..]; reflexivity.
Qed.

Lemma FormatInt_neg p :
  FormatInt (Z.neg p) = String "-" (NilEmpty.string_of_uint (Pos.to_uint p)).
Proof.
  unfold FormatInt. simpl. unfold NilZero.string_of_uint.
  pose proof (DecimalPos.Unsigned.to_uint_nonnil p) as Hn.
  destruct (Pos.to_uint p); [congruence|..]; reflexivity.
Qed.

(** [ParseInt] reads back what [FormatInt] writes. *)
Lemma ParseInt_FormatInt z : Int64.inRange z -> ParseInt (FormatInt z) = Some z.
Proof.
  unfold Int64.inRange, Int64.minInt, Int64.maxInt. intros Hz.
  destruct z as [|p|p].
  - reflexivity.
  - rewrite FormatInt_pos.
    destruct (digits_head (Pos.to_uint p) (DecimalPos.Unsigned.to_uint_nonnil p))
      as (c & rest & Hs & Hplus & Hminus).
    destruct (digits_parse p) as [Hparse Hval].
    unfold ParseInt. rewrite Hs, Hplus, Hminus, <- Hs, Hparse, Hval.
    destruct (Z.ltb_spec (Z.pos p) (2 ^ 63)); [reflexivity|lia].
  - rewrite FormatInt_neg.
    destruct (digits_parse p) as [Hparse Hval].
    unfold ParseInt.
    change (Ascii.eqb "-" "+") with false. change (Ascii.eqb "-" "-") with true.
    cbv iota. rewrite Hparse, Hval.
    destruct (Z.leb_spec (Z.pos p) (2 ^ 63)); [reflexivity|lia].
Qed.

Lemma FormatInt_nonempty z : String.eqb (FormatInt z) "" = false.
Proof.
  destruct z as [|p|p].
  - reflexivity.
  - rewrite FormatInt_pos.
    destruct (digits_head (Pos.to_uint p) (DecimalPos.Unsigned.to_uint_nonnil p))
      as (c & rest & Hs & _). rewrite Hs. reflexivity.
  - rewrite FormatInt_neg. reflexivity.
Qed.

End StrconvSpec.

(* ===================================================================== *)
(** ** HMAC request authentication                                         *)
(* ===================================================================== *)

Module ForwardSpec.
Import forward.

(** Test vectors: FIPS 180-4 ("abc") and RFC 4231, test case 2. *)
Example sha256_abc :
  hex.EncodeToString (sha256.Sum256 (bytesOf "abc"))
  = "ba7816bf8f01cfea414140de5dae2223b00361a396177a9cb410ff61f20015ad".
Proof. vm_compute. reflexivity. Qed.

Example hmac_sha256_rfc4231_2 :
  hex.EncodeToString
    (hmac.SumSHA256 (bytesOf "Jefe") (bytesOf "what do ya want for nothing?"))
  = "5bdcc146bf60754e6a042426089575c75a003f089d2739839dec58b964ec3843".
Proof. vm_compute. reflexivity. Qed.

(** A signature is never the empty string: a digest has 32 bytes. *)
Lemma sign_nonempty secret data : String.eqb (sign secret data) "" = false.
Proof.
  unfold sign, hmac.SumSHA256, sha256.Sum256.
  match goal with |- context [sha256.digest ?s] => generalize s end.
  intros s. reflexivity.
Qed.

(** The three headers of a signed request. *)
Lemma addHMACAuth_headers req secret body now :
  http.Get (http.Header (addHMACAuth req secret body now)) "X-Timestamp"
    = strconv.FormatInt now /\
  http.Get (http.Header (addHMACAuth req secret body now)) "X-Signature"
    = sign secret (signatureData (strconv.FormatInt now)
                     (http.Method req) (http.Path req) body) /\
  http.Get (http.Header (addHMACAuth req secret body now)) "X-Auth-Type"
    = "hmac-sha256".
Proof.
  unfold addHMACAuth, http.Get, http.Set_. cbn [http.Header].
  repeat split.
  - rewrite lookup_insert_ne by discriminate.
    rewrite lookup_insert_ne by discriminate.
    rewrite lookup_insert_eq. reflexivity.
  - rewrite lookup_insert_ne by discriminate.
    rewrite lookup_insert_eq. reflexivity.
  - rewrite lookup_insert_eq. reflexivity.
Qed.

(** The replay window on timestamps an [int64] apart by less than 2^63. *)
Lemma abs_sub now ts :
  Int64.inRange now -> Int64.inRange ts -> Z.abs (now - ts) < 2 ^ 63 ->
  abs (Int64.sub now ts) = Z.abs (now - ts).
Proof.
  unfold Int64.inRange, Int64.minInt, Int64.maxInt. intros Hn Ht Hd.
  unfold Int64.sub. rewrite Int64Facts.wrap_small
    by (unfold Int64.inRange, Int64.minInt, Int64.maxInt; lia).
  unfold abs. destruct (Z.ltb_spec (now - ts) 0).
  - unfold Int64.neg. rewrite Int64Facts.wrap_small
      by (unfold Int64.inRange, Int64.minInt, Int64.maxInt; lia). lia.
  - lia.
Qed.

(** Validation of a request that carries the headers of a signed one:
    inside the window it is the comparison of the two signatures. *)
Lemma validate_signed req secret body ts method' path' secret' body' now :
  Int64.inRange ts -> Int64.inRange now -> Z.abs (now - ts) < 2 ^ 63 ->
  ValidateHMACSignature
    {| http.Method := method'; http.Path := path';
       http.Header := http.Header (addHMACAuth req secret body ts) |} secret' body' now
  = if 300 <? Z.abs (now - ts) then false
    else String.eqb
           (sign secret (signatureData (strconv.FormatInt ts)
                           (http.Method req) (http.Path req) body))
           (sign secret' (signatureData (strconv.FormatInt ts) method' path' body')).
Proof.
  intros Hts Hnow Hd.
  destruct (addHMACAuth_headers req secret body ts) as (Ht & Hs & Ha).
  unfold ValidateHMACSignature. cbn [http.Header http.Method http.Path].
  rewrite Ht, Hs, Ha.
  rewrite StrconvSpec.FormatInt_nonempty, sign_nonempty.
  change (String.eqb "hmac-sha256" "hmac-sha256") with true. cbn [orb negb].
  rewrite StrconvSpec.ParseInt_FormatInt by exact Hts.
  rewrite abs_sub by assumption. reflexivity.
Qed.

(** The replay window in plain arithmetic: what [abs(now - ts) > 300]
    lets through when the subtraction and the negation are those of
    [int64]. A distance of at most 300 passes; so does a distance of
    exactly 2^63, where the difference is the least [int64] and [abs]
    returns it unchanged, and a distance of 2^64 - 300 or more, where the
    difference wraps around to at most 300. *)
Definition withinWindow (now ts : Z) : bool :=
  (Z.abs (now - ts) <=? 300) || (Z.abs (now - ts) =? 2 ^ 63)
  || (2 ^ 64 - 300 <=? Z.abs (now - ts)).

Lemma wrap_above z : 2 ^ 63 <= z < 2 ^ 64 -> Int64.wrap z = z - 2 ^ 64.
Proof.
  intros H. unfold Int64.wrap.
  replace (z + 2 ^ 63) with ((z + 2 ^ 63 - 2 ^ 64) + 1 * 2 ^ 64) by lia.
  rewrite Z_mod_plus_full, Z.mod_small; lia.
Qed.

Lemma wrap_below z : - 2 ^ 64 < z < - 2 ^ 63 -> Int64.wrap z = z + 2 ^ 64.
Proof.
  intros H. unfold Int64.wrap.
  replace (z + 2 ^ 63) with ((z + 2 ^ 63 + 2 ^ 64) + (-1) * 2 ^ 64) by lia.
  rewrite Z_mod_plus_full, Z.mod_small; lia.
Qed.

Lemma abs_wrapped w :
  Int64.inRange w -> abs w = if w =? Int64.minInt then Int64.minInt else Z.abs w.
Proof.
  unfold Int64.inRange, Int64.minInt, Int64.maxInt, abs. intros Hw.
  destruct (Z.eqb_spec w (- 2 ^ 63)) as [->|Hne]; [reflexivity|].
  destruct (Z.ltb_spec w 0); [|lia].
  unfold Int64.neg. rewrite Int64Facts.wrap_small
    by (unfold Int64.inRange, Int64.minInt, Int64.maxInt; lia). lia.
Qed.

Lemma window_exact now ts :
  Int64.inRange now -> Int64.inRange ts ->
  (300 <? abs (Int64.sub now ts)) = negb (withinWindow now ts).
Proof.
  unfold Int64.inRange, Int64.minInt, Int64.maxInt, withinWindow. intros Hn Ht.
  assert (Hcases : (- 2 ^ 63 <= now - ts < 2 ^ 63) \/ (2 ^ 63 <= now - ts < 2 ^ 64) \/
                   (- 2 ^ 64 < now - ts < - 2 ^ 63)) by lia.
  unfold Int64.sub.
  destruct Hcases as [H|[H|H]].
  - rewrite Int64Facts.wrap_small
      by (unfold Int64.inRange, Int64.minInt, Int64.maxInt; lia).
    rewrite abs_wrapped by (unfold Int64.inRange, Int64.minInt, Int64.maxInt; lia).
    unfold Int64.minInt.
    destruct (Z.eqb_spec (now - ts) (- 2 ^ 63));
      destruct (Z.ltb_spec 300 (- 2 ^ 63)), (Z.ltb_spec 300 (Z.abs (now - ts))),
        (Z.leb_spec (Z.abs (now - ts)) 300), (Z.eqb_spec (Z.abs (now - ts)) (2 ^ 63)),
        (Z.leb_spec (2 ^ 64 - 300) (Z.abs (now - ts))); cbn; try reflexivity; lia.
  - rewrite wrap_above by exact H.
    rewrite abs_wrapped by (unfold Int64.inRange, Int64.minInt, Int64.maxInt; lia).
    unfold Int64.minInt.
    destruct (Z.eqb_spec (now - ts - 2 ^ 64) (- 2 ^ 63));
      destruct (Z.ltb_spec 300 (- 2 ^ 63)), (Z.ltb_spec 300 (Z.abs (now - ts - 2 ^ 64))),
        (Z.leb_spec (Z.abs (now - ts)) 300), (Z.eqb_spec (Z.abs (now - ts)) (2 ^ 63)),
        (Z.leb_spec (2 ^ 64 - 300) (Z.abs (now - ts))); cbn; try reflexivity; lia.
  - rewrite wrap_below by exact H.
    rewrite abs_wrapped by (unfold Int64.inRange, Int64.minInt, Int64.maxInt; lia).
    unfold Int64.minInt.
    destruct (Z.eqb_spec (now - ts + 2 ^ 64) (- 2 ^ 63));
      destruct (Z.ltb_spec 300 (- 2 ^ 63)), (Z.ltb_spec 300 (Z.abs (now - ts + 2 ^ 64))),
        (Z.leb_spec (Z.abs (now - ts)) 300), (Z.eqb_spec (Z.abs (now - ts)) (2 ^ 63)),
        (Z.leb_spec (2 ^ 64 - 300) (Z.abs (now - ts))); cbn; try reflexivity; lia.
Qed.

(** Validation of a request that carries the headers of a signed one, for
    every [int64] clock and timestamp. *)
Lemma validate_signed_exact req secret body ts method' path' secret' body' now :
  Int64.inRange ts -> Int64.inRange now ->
  ValidateHMACSignature
    {| http.Method := method'; http.Path := path';
       http.Header := http.Header (addHMACAuth req secret body ts) |} secret' body' now
  = withinWindow now ts
    && String.eqb
         (sign secret (signatureData (strconv.FormatInt ts)
                         (http.Method req) (http.Path req) body))
         (sign secret' (signatureData (strconv.FormatInt ts) method' path' body')).
Proof.
  intros Hts Hnow.
  destruct (addHMACAuth_headers req secret body ts) as (Ht & Hs & Ha).
  unfold ValidateHMACSignature. cbn [http.Header http.Method http.Path].
  rewrite Ht, Hs, Ha.
  rewrite StrconvSpec.FormatInt_nonempty, sign_nonempty.
  change (String.eqb "hmac-sha256" "hmac-sha256") with true. cbn [orb negb].
  rewrite StrconvSpec.ParseInt_FormatInt by exact Hts.
  rewrite window_exact by assumption.
  destruct (withinWindow now ts); reflexivity.
Qed.

(** C4, as the code has it. The outbound request carries [X-Timestamp],
    [X-Signature] = hex(HMAC-SHA256(secret, timestamp + method + path +
    body)) and [X-Auth-Type: hmac-sha256]. For every [int64] clock and
    timestamp, a request carrying these headers is accepted by
    [ValidateHMACSignature] exactly when the timestamp is within the
    window and the signature recomputed from the receiver's secret,
    method, path and body is the one carried, in particular when secret,
    method, path and body are those signed. A timestamp at most 300
    seconds from now is within the window; one more than 300 seconds from
    now is outside it, whatever the signature, except where the [int64]
    arithmetic wraps around: at a distance of exactly 2^63 seconds, and
    at a distance of 2^64 - 300 seconds or more, the request is
    accepted. *)
Theorem HMAC_sign_validate (req : http.Request) (secret body : string) (ts : Z) :
  Int64.inRange ts ->
  (http.Get (http.Header (addHMACAuth req secret body ts)) "X-Timestamp"
     = strconv.FormatInt ts /\
   http.Get (http.Header (addHMACAuth req secret body ts)) "X-Signature"
     = hex.EncodeToString
         (hmac.SumSHA256 (bytesOf secret)
            (bytesOf (((strconv.FormatInt ts +:+ http.Method req) +:+ http.Path req)
                      +:+ body))) /\
   http.Get (http.Header (addHMACAuth req secret body ts)) "X-Auth-Type" = "hmac-sha256" /\
   http.Method (addHMACAuth req secret body ts) = http.Method req /\
   http.Path (addHMACAuth req secret body ts) = http.Path req) /\
  (forall now, Int64.inRange now ->
     (Z.abs (now - ts) <= 300 ->
        ValidateHMACSignature (addHMACAuth req secret body ts) secret body now = true) /\
     (300 < Z.abs (now - ts) -> Z.abs (now - ts) <> 2 ^ 63 ->
      Z.abs (now - ts) < 2 ^ 64 - 300 ->
        forall method' path' secret' body',
          ValidateHMACSignature
            {| http.Method := method'; http.Path := path';
               http.Header := http.Header (addHMACAuth req secret body ts) |}
            secret' body' now = false) /\
     (Z.abs (now - ts) = 2 ^ 63 \/ 2 ^ 64 - 300 <= Z.abs (now - ts) ->
        ValidateHMACSignature (addHMACAuth req secret body ts) secret body now = true) /\
     (forall method' path' secret' body',
        ValidateHMACSignature
          {| http.Method := method'; http.Path := path';
             http.Header := http.Header (addHMACAuth req secret body ts) |}
          secret' body' now
        = withinWindow now ts
          && String.eqb
               (sign secret (signatureData (strconv.FormatInt ts)
                               (http.Method req) (http.Path req) body))
               (sign secret' (signatureData (strconv.FormatInt ts) method' path' body')))).
Proof.
  intros Hts. split.
  - destruct (addHMACAuth_headers req secret body ts) as (Ht & Hs & Ha).
    repeat split; assumption.
  - intros now Hnow.
    assert (Hself : addHMACAuth req secret body ts
                    = {| http.Method := http.Method req; http.Path := http.Path req;
                         http.Header := http.Header (addHMACAuth req secret body ts) |})
      by reflexivity.
    split; [|split; [|split]].
    + intros Hw. rewrite Hself, validate_signed_exact by assumption.
      rewrite String.eqb_refl, andb_true_r. unfold withinWindow.
      rewrite (proj2 (Z.leb_le _ _) Hw). reflexivity.
    + intros Hw Hne Hlt method' path' secret' body'.
      rewrite validate_signed_exact by assumption. unfold withinWindow.
      rewrite (proj2 (Z.leb_gt _ _) Hw), (proj2 (Z.eqb_neq _ _) Hne),
        (proj2 (Z.leb_gt _ _) Hlt). reflexivity.
    + intros Hw. rewrite Hself, validate_signed_exact by assumption.
      rewrite String.eqb_refl, andb_true_r. unfold withinWindow.
      destruct Hw as [Hw|Hw].
      * rewrite (proj2 (Z.eqb_eq _ _) Hw). rewrite orb_true_r. reflexivity.
      * rewrite (proj2 (Z.leb_le _ _) Hw). rewrite orb_true_r. reflexivity.
    + intros method' path' secret' body'. apply validate_signed_exact; assumption.
Qed.

Definition chatRequest : http.Request :=
  http.mkRequest "POST" "/v1/chat/completions" ∅.

(** Signed at 1700000000: valid 300 seconds later, not 301 seconds later,
    and not with another body. *)
Lemma HMAC_sign_validate_witness :
  ValidateHMACSignature (addHMACAuth chatRequest "s3cr3t" "{}" 1700000000)
    "s3cr3t" "{}" 1700000300 = true /\
  ValidateHMACSignature (addHMACAuth chatRequest "s3cr3t" "{}" 1700000000)
    "s3cr3t" "{}" 1700000301 = false /\
  ValidateHMACSignature
    {| http.Method := "POST"; http.Path := "/v1/chat/completions";
       http.Header := http.Header (addHMACAuth chatRequest "s3cr3t" "{}" 1700000000) |}
    "s3cr3t" "{ }" 1700000000
  = withinWindow 1700000000 1700000000
    && String.eqb
         (sign "s3cr3t" (signatureData (strconv.FormatInt 1700000000)
                           "POST" "/v1/chat/completions" "{}"))
         (sign "s3cr3t" (signatureData (strconv.FormatInt 1700000000)
                           "POST" "/v1/chat/completions" "{ }")).
Proof.
  assert (Hts : Int64.inRange 1700000000)
    by (unfold Int64.inRange, Int64.minInt, Int64.maxInt; lia).
  split; [|split].
  - apply (proj1 (proj2 (HMAC_sign_validate chatRequest "s3cr3t" "{}" 1700000000 Hts)
                    1700000300 ltac:(unfold Int64.inRange, Int64.minInt, Int64.maxInt; lia))).
    simpl. lia.
  - apply (proj1 (proj2 (proj2 (HMAC_sign_validate chatRequest "s3cr3t" "{}" 1700000000 Hts)
                    1700000301 ltac:(unfold Int64.inRange, Int64.minInt, Int64.maxInt; lia)))
             ltac:(simpl; lia) ltac:(simpl; lia) ltac:(simpl; lia)
             "POST" "/v1/chat/completions" "s3cr3t" "{}").
  - apply (proj2 (proj2 (proj2 (proj2 (HMAC_sign_validate chatRequest "s3cr3t" "{}"
                                        1700000000 Hts)
                    1700000000 ltac:(unfold Int64.inRange, Int64.minInt, Int64.maxInt; lia))))
             "POST" "/v1/chat/completions" "s3cr3t" "{ }").
Defined.

(** C4 as stated fails: the signed data is a concatenation without
    separators, and HMAC pads its key with zero bytes. A request signed
    for path "/v1/chat/completions" and body "{}" validates with path
    "/v1/chat/completions{" and body "}", and validates under the secret
    extended by a zero byte. *)
Lemma HMAC_accepts_other_path_body_secret :
  ValidateHMACSignature
    {| http.Method := "POST"; http.Path := "/v1/chat/completions{";
       http.Header := http.Header (addHMACAuth chatRequest "s3cr3t" "{}" 1700000000) |}
    "s3cr3t" "}" 1700000000 = true /\
  ValidateHMACSignature (addHMACAuth chatRequest "s3cr3t" "{}" 1700000000)
    ("s3cr3t" +:+ String "000"%char "") "{}" 1700000000 = true /\
  String.eqb "/v1/chat/completions{" (http.Path chatRequest) = false /\
  String.eqb "}" "{}" = false /\
  String.eqb ("s3cr3t" +:+ String "000"%char "") "s3cr3t" = false.
Proof.
  split; [vm_compute; reflexivity|]. split; [vm_compute; reflexivity|].
  split; [reflexivity|]. split; reflexivity.
Qed.

End ForwardSpec.

(* ===================================================================== *)
(** ** The cost engine: queries, updates, independence of clusters         *)
(* ===================================================================== *)

Module CostQueries.
Import cost.

Lemma last_storeHistorical h v : last (storeHistorical h v) = Some v.
Proof.
  unfold storeHistorical.
  destruct (Nat.ltb_spec 100 (length (h ++ [v]))) as [Hlt|_].
  - destruct h as [|x h]; [simpl in Hlt; lia|]. simpl. rewrite drop_0. apply last_snoc.
  - apply last_snoc.
Qed.

(** [GetClusterCost] reads back the value the last successful computation
    returned; it answers [(0, false)] for a cluster that is unknown or
    has no computation recorded, in particular right after [AddCluster]. *)
Theorem GetClusterCost_reads_last (e : Engine) (now : Time) (name : string) (tps : float) :
  (forall c, clusters e !! name = Some c -> F64.leb tps 0 = false ->
     GetClusterCost (fst (CalculateCostPer1KTokens e now name tps)) name
     = (snd (CalculateCostPer1KTokens e now name tps), true)) /\
  (clusters e !! name = None -> GetClusterCost e name = (0%float, false)) /\
  (forall cph, GetClusterCost (AddCluster e name cph) name = (0%float, false)).
Proof.
  split; [|split].
  - intros c Hc Htps.
    destruct (CostSpec.calculate_valid e now name tps c Hc Htps) as (Hv & _ & Hc').
    unfold GetClusterCost. rewrite Hc'. cbn [HistoricalCosts].
    rewrite last_storeHistorical, Hv. reflexivity.
  - intros H. unfold GetClusterCost. rewrite H. reflexivity.
  - intros cph. unfold GetClusterCost, AddCluster. cbn [clusters].
    rewrite lookup_insert_eq. reflexivity.
Qed.

Lemma GetClusterCost_reads_last_witness :
  GetClusterCost (fst (CalculateCostPer1KTokens (AddCluster (NewEngine 1.1) "gpu-a" 1.5)
                         7 "gpu-a" 25)) "gpu-a"
    = (snd (CalculateCostPer1KTokens (AddCluster (NewEngine 1.1) "gpu-a" 1.5) 7 "gpu-a" 25),
       true) /\
  GetClusterCost (AddCluster (NewEngine 1.1) "gpu-a" 1.5) "gpu-b" = (0%float, false).
Proof.
  split.
  - apply (proj1 (GetClusterCost_reads_last (AddCluster (NewEngine 1.1) "gpu-a" 1.5)
                    7 "gpu-a" 25) (mkClusterCost 1.5 0 zeroTime [])).
    + vm_compute. reflexivity.
    + vm_compute. reflexivity.
  - apply (proj1 (proj2 (GetClusterCost_reads_last (AddCluster (NewEngine 1.1) "gpu-a" 1.5)
                           7 "gpu-b" 25))).
    vm_compute. reflexivity.
Defined.

(** [UpdateClusterCost] changes nothing for an unknown cluster; for a known
    one it keeps the history and the tracking data, and the next
    computation is made with the new hourly cost. *)
Theorem UpdateClusterCost_spec (e : Engine) (name : string) (newCost : float) :
  (clusters e !! name = None -> UpdateClusterCost e name newCost = e) /\
  (forall c, clusters e !! name = Some c ->
     clusters (UpdateClusterCost e name newCost) !! name
       = Some {| CostPerHour := newCost;
                 LastTokensPerSec := LastTokensPerSec c;
                 LastUpdate := LastUpdate c;
                 HistoricalCosts := HistoricalCosts c |} /\
     history (UpdateClusterCost e name newCost) name = history e name /\
     forall now tps, F64.leb tps 0 = false ->
       snd (CalculateCostPer1KTokens (UpdateClusterCost e name newCost) now name tps)
       = costFormula newCost tps (overheadFactor e)).
Proof.
  split.
  - intros H. unfold UpdateClusterCost. rewrite H. reflexivity.
  - intros c Hc.
    assert (Hl : clusters (UpdateClusterCost e name newCost) !! name
                 = Some {| CostPerHour := newCost;
                           LastTokensPerSec := LastTokensPerSec c;
                           LastUpdate := LastUpdate c;
                           HistoricalCosts := HistoricalCosts c |}).
    { unfold UpdateClusterCost. rewrite Hc. cbn [clusters]. apply lookup_insert_eq. }
    split; [exact Hl|]. split.
    + unfold history. rewrite Hl, Hc. reflexivity.
    + intros now tps Htps.
      destruct (CostSpec.calculate_valid _ now name tps _ Hl Htps) as (Hv & _).
      rewrite Hv. cbn [CostPerHour]. f_equal.
      unfold UpdateClusterCost. rewrite Hc. reflexivity.
Qed.

Lemma UpdateClusterCost_spec_witness :
  UpdateClusterCost (AddCluster (NewEngine 1.1) "gpu-a" 1.5) "gpu-b" 2
    = AddCluster (NewEngine 1.1) "gpu-a" 1.5 /\
  snd (CalculateCostPer1KTokens
         (UpdateClusterCost (AddCluster (NewEngine 1.1) "gpu-a" 1.5) "gpu-a" 2) 9 "gpu-a" 25)
    = costFormula 2 25 1.1.
Proof.
  split.
  - apply (proj1 (UpdateClusterCost_spec (AddCluster (NewEngine 1.1) "gpu-a" 1.5) "gpu-b" 2)).
    vm_compute. reflexivity.
  - apply (proj2 (UpdateClusterCost_spec (AddCluster (NewEngine 1.1) "gpu-a" 1.5) "gpu-a" 2)
             (mkClusterCost 1.5 0 zeroTime [])).
    + vm_compute. reflexivity.
    + vm_compute. reflexivity.
Defined.

(** The cluster a call of the API names. *)
Definition target (k : call) : string :=
  match k with
  | CallAddCluster name _ | CallCalculate _ name _ | CallUpdateClusterCost name _ => name
  end.

Definition isAddCluster (k : call) : bool :=
  match k with CallAddCluster _ _ => true | _ => false end.

Lemma exec_other e k name : target k <> name -> clusters (exec e k) !! name = clusters e !! name.
Proof.
  intros Hne. destruct k as [n cph|now n tps|n cph]; simpl in *.
  - apply lookup_insert_ne, Hne.
  - unfold CalculateCostPer1KTokens. destruct (clusters e !! n); [|reflexivity].
    destruct (F64.leb tps 0); [reflexivity|]. simpl. apply lookup_insert_ne, Hne.
  - unfold UpdateClusterCost. destruct (clusters e !! n); [|reflexivity].
    simpl. apply lookup_insert_ne, Hne.
Qed.

Lemma exec_overhead e k : overheadFactor (exec e k) = overheadFactor e.
Proof.
  destruct k as [n cph|now n tps|n cph]; simpl; [reflexivity|..].
  - unfold CalculateCostPer1KTokens. destruct (clusters e !! n); [|reflexivity].
    destruct (F64.leb tps 0); reflexivity.
  - unfold UpdateClusterCost. destruct (clusters e !! n); reflexivity.
Qed.

Lemma exec_registered e k name :
  isAddCluster k = false ->
  (is_Some (clusters (exec e k) !! name) <-> is_Some (clusters e !! name)).
Proof.
  intros Hk. destruct (decide (target k = name)) as [Heq|Hne].
  - destruct k as [n cph|now n tps|n cph]; [discriminate|..]; simpl in *; subst n.
    + unfold CalculateCostPer1KTokens.
      destruct (clusters e !! name) eqn:E; [|simpl; rewrite ?E; tauto].
      destruct (F64.leb tps 0); [simpl; rewrite ?E; tauto|]. simpl. rewrite lookup_insert_eq.
      split; eauto.
    + unfold UpdateClusterCost.
      destruct (clusters e !! name) eqn:E; [|simpl; rewrite ?E; tauto].
      simpl. rewrite lookup_insert_eq. split; eauto.
  - rewrite exec_other by exact Hne. tauto.
Qed.

(** Clusters are independent in the cost engine: a run of calls none of
    which names a given cluster leaves that cluster's record exactly as it
    was, and no call changes the overhead factor; calls other than
    [AddCluster] register nothing and unregister nothing. *)
Theorem clusters_independent (e : Engine) (ks : list call) (name : string) :
  (Forall (fun k => target k <> name) ks -> clusters (run e ks) !! name = clusters e !! name) /\
  overheadFactor (run e ks) = overheadFactor e /\
  (Forall (fun k => isAddCluster k = false) ks ->
     (is_Some (clusters (run e ks) !! name) <-> is_Some (clusters e !! name))).
Proof.
  revert e. induction ks as [|k ks IH]; intros e.
  - split; [|split]; intros; simpl; tauto.
  - change (run e (k :: ks)) with (run (exec e k) ks).
    destruct (IH (exec e k)) as (IH1 & IH2 & IH3). split; [|split].
    + intros Hall. apply Forall_cons in Hall as [Hk Hall].
      rewrite IH1 by exact Hall. apply exec_other, Hk.
    + rewrite IH2. apply exec_overhead.
    + intros Hall. apply Forall_cons in Hall as [Hk Hall].
      rewrite IH3 by exact Hall. apply exec_registered, Hk.
Qed.

Lemma clusters_independent_witness :
  clusters (run (AddCluster (AddCluster (NewEngine 1.1) "gpu-a" 1.5) "gpu-b" 0.9)
              [CallCalculate 3 "gpu-b" 40; CallUpdateClusterCost "gpu-b" 1;
               CallAddCluster "gpu-c" 2]) !! "gpu-a"
  = clusters (AddCluster (AddCluster (NewEngine 1.1) "gpu-a" 1.5) "gpu-b" 0.9) !! "gpu-a".
Proof.
  apply (proj1 (clusters_independent
                  (AddCluster (AddCluster (NewEngine 1.1) "gpu-a" 1.5) "gpu-b" 0.9)
                  [CallCalculate 3 "gpu-b" 40; CallUpdateClusterCost "gpu-b" 1;
                   CallAddCluster "gpu-c" 2] "gpu-a")).
  repeat constructor; discriminate.
Defined.

(** [GetAverageCost] answers [(0, false)] for a cluster that is unknown or
    has no computation recorded; a window larger than the history is cut
    to the history (asking for more gives the average of all there is);
    a window of 0 on a non-empty history (of at most 100 entries, as
    every history is) is not refused: the division of
    0 by 0 is returned, with [true]. *)
Theorem GetAverageCost_edges (e : Engine) (name : string) :
  (history e name = [] -> forall lastN, GetAverageCost e name lastN = Some (0%float, false)) /\
  (forall lastN, Z.of_nat (length (history e name)) <= lastN ->
     GetAverageCost e name lastN
     = GetAverageCost e name (Z.of_nat (length (history e name)))) /\
  (history e name <> [] -> (length (history e name) <= 100)%nat ->
     GetAverageCost e name 0 = Some ((0 / 0)%float, true) /\
     F64.isNaN (0 / 0)%float = true).
Proof.
  unfold history, GetAverageCost.
  destruct (clusters e !! name) as [c|]; [|repeat split; intros; try reflexivity; congruence].
  split; [|split].
  - intros H lastN. rewrite H. reflexivity.
  - intros lastN Hle.
    destruct (HistoricalCosts c) as [|x h] eqn:Hh; [reflexivity|].
    set (len := Z.of_nat (length (x :: h))) in *.
    change (length (x :: h) =? 0)%nat with false. cbv iota.
    rewrite Z.ltb_irrefl.
    destruct (Z.ltb_spec len lastN) as [Hlt|Hge]; [reflexivity|].
    assert (lastN = len) as -> by lia. reflexivity.
  - intros Hne Hlen. split; [|vm_compute; reflexivity].
    destruct (HistoricalCosts c) as [|x h] eqn:Hh; [congruence|].
    change (length (x :: h) =? 0)%nat with false. cbv iota.
    destruct (Z.ltb_spec (Z.of_nat (length (x :: h))) 0) as [Hlt|Hge]; [lia|].
    unfold Int64.sub. rewrite Z.sub_0_r, Int64Facts.wrap_small.
    + unfold sumFrom. destruct (Z.ltb_spec (Z.of_nat (length (x :: h))) 0); [lia|].
      rewrite Nat2Z.id, drop_all. reflexivity.
    + unfold Int64.inRange, Int64.minInt, Int64.maxInt. lia.
Qed.

(** Three computations recorded: a window of 5 averages the three, a
    window of 0 gives NaN. *)
Definition threeRecorded : Engine :=
  run (AddCluster (NewEngine 1.1) "gpu-a" 1.5)
      [CallCalculate 1 "gpu-a" 20; CallCalculate 2 "gpu-a" 25; CallCalculate 3 "gpu-a" 30].

Lemma GetAverageCost_edges_witness :
  GetAverageCost threeRecorded "gpu-b" 4 = Some (0%float, false) /\
  GetAverageCost threeRecorded "gpu-a" 5 = GetAverageCost threeRecorded "gpu-a" 3 /\
  GetAverageCost threeRecorded "gpu-a" 0 = Some ((0 / 0)%float, true).
Proof.
  split; [|split].
  - apply (proj1 (GetAverageCost_edges threeRecorded "gpu-b")). vm_compute. reflexivity.
  - apply (proj1 (proj2 (GetAverageCost_edges threeRecorded "gpu-a")) 5).
    vm_compute. discriminate.
  - apply (proj2 (proj2 (GetAverageCost_edges threeRecorded "gpu-a"))).
    + vm_compute. discriminate.
    + vm_compute. lia.
Defined.

(** [GetAllClusterCosts] reports exactly the registered clusters; for each,
    the hourly cost, the last computed cost ([GetClusterCost]'s value) and
    the average of the last 10 computations, which is [GetAverageCost]'s
    value for a window of 10 once 10 computations are recorded and stays 0
    before. *)
Theorem GetAllClusterCosts_spec (e : Engine) (name : string) :
  (clusters e !! name = None -> GetAllClusterCosts e !! name = None) /\
  (forall c, clusters e !! name = Some c ->
     exists info, GetAllClusterCosts e !! name = Some info /\
       Info.CostPerHour info = CostPerHour c /\
       Info.LastTokensPerSec info = LastTokensPerSec c /\
       Info.LastCostPer1K info = fst (GetClusterCost e name) /\
       ((length (HistoricalCosts c) < 10)%nat -> Info.AvgCostPer1K info = 0%float) /\
       ((10 <= length (HistoricalCosts c) <= 100)%nat ->
          GetAverageCost e name 10 = Some (Info.AvgCostPer1K info, true))).
Proof.
  unfold GetAllClusterCosts. rewrite lookup_fmap. split.
  - intros H. rewrite H. reflexivity.
  - intros c Hc. rewrite Hc. exists (infoOf c). split; [reflexivity|].
    split; [reflexivity|]. split; [reflexivity|]. split; [|split].
    + unfold GetClusterCost. rewrite Hc. cbn [infoOf Info.LastCostPer1K].
      destruct (last (HistoricalCosts c)); reflexivity.
    + intros Hlt. cbn [infoOf Info.AvgCostPer1K].
      destruct (Nat.leb_spec 10 (length (HistoricalCosts c))); [lia|reflexivity].
    + intros [Hlo Hhi]. cbn [infoOf Info.AvgCostPer1K].
      destruct (Nat.leb_spec 10 (length (HistoricalCosts c))); [|lia].
      unfold GetAverageCost, getAverageCostUnsafe. rewrite Hc.
      destruct (Nat.eqb_spec (length (HistoricalCosts c)) 0); [lia|].
      destruct (Z.ltb_spec (Z.of_nat (length (HistoricalCosts c))) 10); [lia|].
      change (10 =? 0) with false. cbv iota.
      unfold Int64.sub. rewrite Int64Facts.wrap_small
        by (unfold Int64.inRange, Int64.minInt, Int64.maxInt; lia).
      unfold sumFrom.
      destruct (Z.ltb_spec (Z.of_nat (length (HistoricalCosts c)) - 10) 0); [lia|].
      reflexivity.
Qed.

(** Ten computations recorded on [gpu-a], none on [gpu-b]. *)
Definition tenRecorded : Engine :=
  fst (calculateAll (AddCluster (AddCluster (NewEngine 1.1) "gpu-a" 1.5) "gpu-b" 0.9)
         "gpu-a" (map (fun n => (Z.of_nat n, F64.ofInt (Z.of_nat n + 20))) (seq 0 10))).

Lemma GetAllClusterCosts_spec_witness :
  GetAllClusterCosts tenRecorded !! "gpu-c" = None /\
  exists info, GetAllClusterCosts tenRecorded !! "gpu-a" = Some info /\
    GetAverageCost tenRecorded "gpu-a" 10 = Some (Info.AvgCostPer1K info, true).
Proof.
  split.
  - apply (proj1 (GetAllClusterCosts_spec tenRecorded "gpu-c")). vm_compute. reflexivity.
  - destruct (proj2 (GetAllClusterCosts_spec tenRecorded "gpu-a")
                (default (mkClusterCost 0 0 0 []) (clusters tenRecorded !! "gpu-a")))
      as (info & Hi & _ & _ & _ & _ & Havg).
    + vm_compute. reflexivity.
    + exists info. split; [exact Hi|]. apply Havg. vm_compute. lia.
Defined.

End CostQueries.

(* ===================================================================== *)
(** ** The health checker: probes, overrides, independence of clusters     *)
(* ===================================================================== *)

Module HealthMore.
Import health.

(** What a probe yields. The verdict is that of the liveness GET alone:
    whatever the metrics and statistics endpoints answer, they never make
    a check fail. A failed check reports 0 for queue depth, throughput and
    latency. A successful check reports the defaults 0, 10 and 1000
    whenever the statistics are unusable, that is when the GET of
    [/metrics] or of [/stats] fails or is answered with a status other
    than 200, or the body of [/stats] does not decode; when both are
    answered 200 and the body decodes, it reports each statistic that is
    in range (queue depth at least 0, throughput above 0, latency above 0)
    and the default for each that is not. So a successful check always
    reports a queue depth of at least 0, a throughput above 0 and a
    latency above 0. *)
Theorem performHealthCheck_reports (p : probe) :
  fst (fst (fst (performHealthCheck p))) = succeeds p /\
  (succeeds p = true ->
     0 <= snd (fst (fst (performHealthCheck p))) /\
     F64.ltb 0 (snd (fst (performHealthCheck p))) = true /\
     F64.ltb 0 (snd (performHealthCheck p)) = true) /\
  (succeeds p = false -> performHealthCheck p = (false, 0, 0%float, 0%float)) /\
  (succeeds p = true ->
     ((exists err, metricsResp p = http.TransportError err) \/
      (exists code, metricsResp p = http.Response code /\ code <> http.StatusOK) \/
      (exists err, statsResp p = http.TransportError err) \/
      (exists code, statsResp p = http.Response code /\ code <> http.StatusOK) \/
      statsBody p = None) ->
     performHealthCheck p = (true, 0, 10%float, 1000%float)) /\
  (succeeds p = true ->
     forall st, metricsResp p = http.Response http.StatusOK ->
       statsResp p = http.Response http.StatusOK -> statsBody p = Some st ->
       performHealthCheck p
       = (true,
          if 0 <=? statsQueueDepth st then statsQueueDepth st else 0,
          if F64.ltb 0 (statsTokensPerSecond st) then statsTokensPerSecond st else 10%float,
          if F64.ltb 0 (statsLatencyP95 st) then statsLatencyP95 st else 1000%float)).
Proof.
  split; [apply HealthSpec.performHealthCheck_succeeds|].
  unfold performHealthCheck, succeeds, getMetrics.
  destruct (healthResp p) as [err|code]; [repeat split; discriminate|].
  destruct (code =? http.StatusOK); cbn [negb]; [|repeat split; discriminate].
  split; [|split; [discriminate|split]].
  - intros _.
    destruct (metricsResp p) as [e1|c1]; [repeat split; (lia || reflexivity)|].
    destruct (c1 =? http.StatusOK); cbn [negb]; [|repeat split; (lia || reflexivity)].
    destruct (statsResp p) as [e2|c2]; [repeat split; (lia || reflexivity)|].
    destruct (c2 =? http.StatusOK); [|repeat split; (lia || reflexivity)].
    destruct (statsBody p) as [st|]; [|repeat split; (lia || reflexivity)].
    cbn [fst snd]. repeat split.
    + destruct (Z.leb_spec 0 (statsQueueDepth st)); lia.
    + destruct (F64.ltb 0 (statsTokensPerSecond st)) eqn:E; [exact E|reflexivity].
    + destruct (F64.ltb 0 (statsLatencyP95 st)) eqn:E; [exact E|reflexivity].
  - intros _ Hbad.
    destruct (metricsResp p) as [e1|c1] eqn:Hm; [reflexivity|].
    destruct (Z.eqb_spec c1 http.StatusOK) as [Hc1|Hc1]; cbn [negb]; [|reflexivity].
    destruct (statsResp p) as [e2|c2] eqn:Hs; [reflexivity|].
    destruct (Z.eqb_spec c2 http.StatusOK) as [Hc2|Hc2]; [|reflexivity].
    destruct Hbad as [[e H]|[[c [H Hc]]|[[e H]|[[c [H Hc]]|H]]]]; try discriminate.
    + injection H as <-. contradiction.
    + injection H as <-. contradiction.
    + rewrite H. reflexivity.
  - intros _ st Hm Hs Hb. rewrite Hm, Hs, Hb. reflexivity.
Qed.

(** The metrics endpoint answering 503 leaves the defaults; a usable
    statistics body is reported; a refused connection fails the check. *)
Lemma performHealthCheck_reports_witness :
  performHealthCheck
    (mkProbe (http.Response 200) (http.Response 503) (http.Response 200)
       (Some (mkStats 2 40 350)))
  = (true, 0, 10%float, 1000%float) /\
  performHealthCheck HealthSpec.probeUp = (true, 2, 40%float, 350%float) /\
  performHealthCheck HealthSpec.probeDown = (false, 0, 0%float, 0%float).
Proof.
  split; [|split].
  - apply (proj1 (proj2 (proj2 (proj2
             (performHealthCheck_reports
                (mkProbe (http.Response 200) (http.Response 503) (http.Response 200)
                   (Some (mkStats 2 40 350)))))))); [reflexivity|].
    right. left. exists 503. split; [reflexivity|discriminate].
  - apply (proj2 (proj2 (proj2 (proj2 (performHealthCheck_reports HealthSpec.probeUp))))
             eq_refl (mkStats 2 40 350)); reflexivity.
  - apply (proj1 (proj2 (proj2 (performHealthCheck_reports HealthSpec.probeDown)))).
    reflexivity.
Defined.

(** Checks of two different clusters commute: the state after both does
    not depend on which of the two goroutines of a tick took the lock
    first. *)
Lemma checkCluster_commute (c : Checker) (n1 n2 : string) (p1 p2 : probe)
    (rt1 rt2 : float) (t1 t2 : Time) :
  n1 <> n2 ->
  checkCluster (checkCluster c n1 p1 rt1 t1) n2 p2 rt2 t2
  = checkCluster (checkCluster c n2 p2 rt2 t2) n1 p1 rt1 t1.
Proof.
  intros Hne.
  unfold checkCluster at 1 3.
  rewrite (HealthSpec.checkCluster_other c n1 p1 rt1 t1 n2 Hne).
  rewrite (HealthSpec.checkCluster_other c n2 p2 rt2 t2 n1 (not_eq_sym Hne)).
  pose proof (HealthSpec.maxConsecutiveErrors_exec c (CallCheck n1 p1 rt1 t1)) as H1.
  pose proof (HealthSpec.maxConsecutiveErrors_exec c (CallCheck n2 p2 rt2 t2)) as H2.
  cbn [exec] in H1, H2. rewrite H1, H2.
  unfold checkCluster.
  destruct (clusters c !! n1) as [m1|] eqn:E1, (clusters c !! n2) as [m2|] eqn:E2;
    try reflexivity.
  unfold withClusters. cbn [clusters checkInterval maxConsecutiveErrors].
  f_equal. apply insert_insert_ne. exact (not_eq_sym Hne).
Qed.

Definition isAddCluster (k : call) : bool :=
  match k with CallAddCluster _ _ _ => true | _ => false end.

Lemma exec_keeps c k name :
  isAddCluster k = false ->
  match clusters c !! name with
  | None => clusters (exec c k) !! name = None
  | Some m => exists m', clusters (exec c k) !! name = Some m' /\ Endpoint m' = Endpoint m
  end.
Proof.
  intros Hk. destruct k as [n e t|n p rt t|n reason|n]; [discriminate|..]; cbn [exec].
  - destruct (clusters c !! name) as [m|] eqn:Hm.
    + destruct (decide (n = name)) as [->|Hne].
      * rewrite (HealthSpec.checkCluster_same _ _ _ _ _ _ Hm). eexists. split; [reflexivity|].
        unfold recordCheck. destruct (performHealthCheck p) as [[[h q] tp] l].
        destruct h; reflexivity.
      * rewrite HealthSpec.checkCluster_other by exact Hne. eauto.
    + apply HealthSpec.checkCluster_unregistered, Hm.
  - unfold MarkUnhealthy. destruct (clusters c !! n) as [mn|] eqn:Hn.
    + cbn [withClusters clusters]. destruct (decide (n = name)) as [->|Hne].
      * rewrite Hn, lookup_insert_eq. eexists. split; reflexivity.
      * rewrite lookup_insert_ne by exact Hne. destruct (clusters c !! name); eauto.
    + destruct (clusters c !! name); eauto.
  - unfold ForceHealthy. destruct (clusters c !! n) as [mn|] eqn:Hn.
    + cbn [withClusters clusters]. destruct (decide (n = name)) as [->|Hne].
      * rewrite Hn, lookup_insert_eq. eexists. split; reflexivity.
      * rewrite lookup_insert_ne by exact Hne. destruct (clusters c !! name); eauto.
    + destruct (clusters c !! name); eauto.
Qed.

(** Only [AddCluster] changes which clusters are monitored and where: a run
    of checks and manual overrides, on whatever names, registers no
    cluster, drops none and keeps every endpoint. *)
Theorem registration_stable (c : Checker) (ks : list call) (name : string) :
  Forall (fun k => isAddCluster k = false) ks ->
  (clusters c !! name = None -> clusters (run c ks) !! name = None) /\
  (forall m, clusters c !! name = Some m ->
     exists m', clusters (run c ks) !! name = Some m' /\ Endpoint m' = Endpoint m).
Proof.
  revert c. induction ks as [|k ks IH]; intros c Hall.
  - split; [tauto|]. intros m Hm. exists m. split; [exact Hm|reflexivity].
  - apply Forall_cons in Hall as [Hk Hall].
    change (run c (k :: ks)) with (run (exec c k) ks).
    destruct (IH (exec c k) Hall) as [IHn IHs].
    pose proof (exec_keeps c k name Hk) as Hstep. split.
    + intros Hn. rewrite Hn in Hstep. apply IHn, Hstep.
    + intros m Hm. rewrite Hm in Hstep. destruct Hstep as (m1 & Hm1 & He1).
      destruct (IHs m1 Hm1) as (m' & Hm' & He'). exists m'. split; [exact Hm'|congruence].
Qed.

Lemma registration_stable_witness :
  clusters (run (AddCluster (NewChecker 30) "gpu-a" "http://gpu-a:8080" 0)
              [CallCheck "gpu-b" HealthSpec.probeUp 12 30; CallForceHealthy "gpu-b";
               CallMarkUnhealthy "gpu-b" "drain"]) !! "gpu-b" = None /\
  exists m', clusters (run (AddCluster (NewChecker 30) "gpu-a" "http://gpu-a:8080" 0)
                         [CallCheck "gpu-a" HealthSpec.probeDown 9 30;
                          CallForceHealthy "gpu-a"]) !! "gpu-a" = Some m' /\
             Endpoint m' = "http://gpu-a:8080".
Proof.
  split.
  - apply (proj1 (registration_stable (AddCluster (NewChecker 30) "gpu-a" "http://gpu-a:8080" 0)
                    [CallCheck "gpu-b" HealthSpec.probeUp 12 30; CallForceHealthy "gpu-b";
                     CallMarkUnhealthy "gpu-b" "drain"] "gpu-b"
                    ltac:(repeat constructor))).
    vm_compute. reflexivity.
  - apply (proj2 (registration_stable (AddCluster (NewChecker 30) "gpu-a" "http://gpu-a:8080" 0)
                    [CallCheck "gpu-a" HealthSpec.probeDown 9 30; CallForceHealthy "gpu-a"]
                    "gpu-a" ltac:(repeat constructor))
             (mkClusterMetrics false 0 0 0 0 0 0 0 "http://gpu-a:8080")).
    vm_compute. reflexivity.
Defined.

(** *** The manual overrides in the hysteresis *)

(** What a call contributes to the hysteresis of cluster [name]: the
    outcome of a check of it, a success for a [ForceHealthy] of it. *)
Definition verdict (name : string) (k : call) : option bool :=
  match k with
  | CallCheck n p _ _ => if String.eqb n name then Some (succeeds p) else None
  | CallForceHealthy n => if String.eqb n name then Some true else None
  | _ => None
  end.

(** Calls that do not register or mark down cluster [name] itself. *)
Definition spares (name : string) (k : call) : bool :=
  match k with
  | CallAddCluster n _ _ | CallMarkUnhealthy n _ => negb (String.eqb n name)
  | _ => true
  end.

Lemma tracks_exec c name acc k :
  maxConsecutiveErrors c = 3 -> spares name k = true ->
  HealthSpec.tracks c name acc ->
  HealthSpec.tracks (exec c k) name
    (match verdict name k with Some ok => HealthSpec.sinceSuccess acc ok | None => acc end).
Proof.
  intros Hmax Hk Ht. destruct k as [n e t|n p rt t|n reason|n]; cbn [exec verdict spares] in *.
  - destruct (String.eqb_spec n name) as [Heq|Hne]; [discriminate|].
    intros m k' Hm. cbn [AddCluster withClusters clusters] in Hm.
    rewrite lookup_insert_ne in Hm by exact Hne. eauto.
  - pose proof (HealthSpec.tracks_check c name acc n p rt t Hmax Ht) as H.
    destruct (String.eqb n name); exact H.
  - destruct (String.eqb_spec n name) as [Heq|Hne]; [discriminate|].
    intros m k' Hm. unfold MarkUnhealthy in Hm.
    destruct (clusters c !! n); [|eauto].
    cbn [withClusters clusters] in Hm. rewrite lookup_insert_ne in Hm by exact Hne. eauto.
  - destruct (String.eqb_spec n name) as [->|Hne].
    + intros m k' Hm Hacc. cbn [HealthSpec.sinceSuccess] in Hacc. injection Hacc as <-.
      unfold ForceHealthy in Hm. destruct (clusters c !! name) as [m0|] eqn:Hm0.
      * cbn [withClusters clusters] in Hm. rewrite lookup_insert_eq in Hm.
        injection Hm as <-. split; reflexivity.
      * rewrite Hm0 in Hm. discriminate.
    + intros m k' Hm. unfold ForceHealthy in Hm.
      destruct (clusters c !! n); [|eauto].
      cbn [withClusters clusters] in Hm. rewrite lookup_insert_ne in Hm by exact Hne. eauto.
Qed.

Lemma tracks_run_overrides ks : forall c name acc,
  maxConsecutiveErrors c = 3 ->
  Forall (fun k => spares name k = true) ks ->
  HealthSpec.tracks c name acc ->
  HealthSpec.tracks (run c ks) name
    (fold_left HealthSpec.sinceSuccess (omap (verdict name) ks) acc).
Proof.
  induction ks as [|k ks IH]; intros c name acc Hmax Hall Ht; [exact Ht|].
  apply Forall_cons in Hall as [Hk Hall].
  change (run c (k :: ks)) with (run (exec c k) ks).
  pose proof (tracks_exec c name acc k Hmax Hk Ht) as Ht'.
  assert (Hmax' : maxConsecutiveErrors (exec c k) = 3)
    by (rewrite HealthSpec.maxConsecutiveErrors_exec; exact Hmax).
  specialize (IH _ name _ Hmax' Hall Ht').
  cbn [omap list_omap]. destruct (verdict name k); exact IH.
Qed.

(** [ForceHealthy] counts as a successful check in the hysteresis. Through
    any run of checks and overrides that does not re-register or mark
    down the cluster itself: once the cluster has had a successful check
    or a [ForceHealthy], it is unhealthy exactly when 3 or more of its
    checks have failed since the last of these. *)
Theorem ForceHealthy_restarts_hysteresis (interval : Z) (history ks : list call)
    (name : string) (m : ClusterMetrics) (pre : list bool) (k : nat) :
  Forall (fun call => spares name call = true) ks ->
  omap (verdict name) ks = pre ++ true :: replicate k false ->
  clusters (run (run (NewChecker interval) history) ks) !! name = Some m ->
  Healthy m = (k <? 3)%nat /\ ConsecutiveError m = Int64.wrap (Z.of_nat k).
Proof.
  intros Hall Hv Hm.
  assert (Hmax : maxConsecutiveErrors (run (NewChecker interval) history) = 3)
    by (rewrite HealthSpec.maxConsecutiveErrors_run; reflexivity).
  assert (Ht : HealthSpec.tracks (run (NewChecker interval) history) name None)
    by (intros ? ? _ [=]).
  pose proof (tracks_run_overrides ks _ name None Hmax Hall Ht) as H.
  apply (H m k Hm). rewrite Hv. apply HealthSpec.failuresSinceSuccess_app.
Qed.

(** Never checked successfully, forced healthy, then two failed checks:
    still healthy; a third one: unhealthy. *)
Lemma ForceHealthy_restarts_hysteresis_witness :
  (exists m,
     clusters (run (run (NewChecker 30) [CallAddCluster "gpu-a" "http://gpu-a:8080" 0])
                 [CallCheck "gpu-a" HealthSpec.probeDown 9 30; CallForceHealthy "gpu-a";
                  CallCheck "gpu-a" HealthSpec.probeDown 9 60;
                  CallCheck "gpu-a" HealthSpec.probeDown 9 90]) !! "gpu-a" = Some m /\
     Healthy m = true /\ ConsecutiveError m = 2) /\
  (exists m,
     clusters (run (run (NewChecker 30) [CallAddCluster "gpu-a" "http://gpu-a:8080" 0])
                 [CallForceHealthy "gpu-a";
                  CallCheck "gpu-a" HealthSpec.probeDown 9 60;
                  CallCheck "gpu-a" HealthSpec.probeDown 9 90;
                  CallCheck "gpu-a" HealthSpec.probeDown 9 120]) !! "gpu-a" = Some m /\
     Healthy m = false /\ ConsecutiveError m = 3).
Proof.
  split.
  - eexists. split; [vm_compute; reflexivity|].
    apply (ForceHealthy_restarts_hysteresis 30 [CallAddCluster "gpu-a" "http://gpu-a:8080" 0]
             [CallCheck "gpu-a" HealthSpec.probeDown 9 30; CallForceHealthy "gpu-a";
              CallCheck "gpu-a" HealthSpec.probeDown 9 60;
              CallCheck "gpu-a" HealthSpec.probeDown 9 90] "gpu-a" _ [false] 2%nat).
    + repeat constructor.
    + vm_compute. reflexivity.
    + vm_compute. reflexivity.
  - eexists. split; [vm_compute; reflexivity|].
    apply (ForceHealthy_restarts_hysteresis 30 [CallAddCluster "gpu-a" "http://gpu-a:8080" 0]
             [CallForceHealthy "gpu-a";
              CallCheck "gpu-a" HealthSpec.probeDown 9 60;
              CallCheck "gpu-a" HealthSpec.probeDown 9 90;
              CallCheck "gpu-a" HealthSpec.probeDown 9 120] "gpu-a" _ [] 3%nat).
    + repeat constructor.
    + vm_compute. reflexivity.
    + vm_compute. reflexivity.
Defined.

(** [MarkUnhealthy] does nothing to an unknown cluster. A known one leaves
    [GetHealthyMetrics] at once, whatever its error count was, with both
    error counters incremented; the next successful check of it brings it
    back with [ConsecutiveError] 0. *)
Theorem MarkUnhealthy_spec (c : Checker) (name reason : string) :
  (clusters c !! name = None -> MarkUnhealthy c name reason = c) /\
  (forall m, clusters c !! name = Some m ->
     GetHealthyMetrics (MarkUnhealthy c name reason) !! name = None /\
     (exists m', clusters (MarkUnhealthy c name reason) !! name = Some m' /\
        ErrorCount m' = Int64.incr (ErrorCount m) /\
        ConsecutiveError m' = Int64.incr (ConsecutiveError m)) /\
     forall p rt now, succeeds p = true ->
       exists m'', GetHealthyMetrics
                     (checkCluster (MarkUnhealthy c name reason) name p rt now) !! name
                   = Some m'' /\ ConsecutiveError m'' = 0).
Proof.
  split.
  - intros H. unfold MarkUnhealthy. rewrite H. reflexivity.
  - intros m Hm.
    assert (Hl : exists m', clusters (MarkUnhealthy c name reason) !! name = Some m' /\
                   Healthy m' = false /\
                   ErrorCount m' = Int64.incr (ErrorCount m) /\
                   ConsecutiveError m' = Int64.incr (ConsecutiveError m)).
    { unfold MarkUnhealthy. rewrite Hm. cbn [withClusters clusters].
      rewrite lookup_insert_eq. eexists. repeat split. }
    destruct Hl as (m' & Hm' & Hh & He & Hc). split; [|split].
    + apply HealthSpec.unhealthy_not_listed. intros x Hx. congruence.
    + exists m'. auto.
    + intros p rt now Hp.
      pose proof (HealthSpec.checkCluster_same _ _ p rt now _ Hm') as Hck.
      destruct (HealthSpec.recordCheck_success
                  (maxConsecutiveErrors (MarkUnhealthy c name reason)) m' p rt now Hp)
        as (H1 & H2 & _).
      eexists. split; [|exact H2].
      unfold GetHealthyMetrics. apply map_lookup_filter_Some_2; [exact Hck|exact H1].
Qed.

Lemma MarkUnhealthy_spec_witness :
  MarkUnhealthy (AddCluster (NewChecker 30) "gpu-a" "http://gpu-a:8080" 0) "gpu-b" "drain"
    = AddCluster (NewChecker 30) "gpu-a" "http://gpu-a:8080" 0 /\
  GetHealthyMetrics
    (MarkUnhealthy (ForceHealthy (AddCluster (NewChecker 30) "gpu-a" "http://gpu-a:8080" 0)
                      "gpu-a") "gpu-a" "drain") !! "gpu-a" = None.
Proof.
  split.
  - apply (proj1 (MarkUnhealthy_spec (AddCluster (NewChecker 30) "gpu-a" "http://gpu-a:8080" 0)
                    "gpu-b" "drain")).
    vm_compute. reflexivity.
  - apply (proj2 (MarkUnhealthy_spec
                    (ForceHealthy (AddCluster (NewChecker 30) "gpu-a" "http://gpu-a:8080" 0)
                       "gpu-a") "gpu-a" "drain")
             (mkClusterMetrics true 0 0 0 0 0 0 0 "http://gpu-a:8080")).
    vm_compute. reflexivity.
Defined.

(** *** The error counter *)

(** What a call adds to the error count of cluster [name]. *)
Definition errors (name : string) (k : call) : Z :=
  match k with
  | CallCheck n p _ _ => if String.eqb n name && negb (succeeds p) then 1 else 0
  | CallMarkUnhealthy n _ => if String.eqb n name then 1 else 0
  | _ => 0
  end.

Definition errorsIn (name : string) (ks : list call) : Z :=
  fold_right (fun k n => errors name k + n) 0 ks.

Definition keeps (name : string) (k : call) : bool :=
  match k with
  | CallAddCluster n _ _ => negb (String.eqb n name)
  | _ => true
  end.

Lemma wrap_inRange z : Int64.inRange (Int64.wrap z).
Proof.
  unfold Int64.inRange, Int64.minInt, Int64.maxInt, Int64.wrap.
  pose proof (Z.mod_pos_bound (z + 2 ^ 63) (2 ^ 64) ltac:(lia)). lia.
Qed.

Lemma incr_inRange z : Int64.inRange (Int64.incr z).
Proof. apply wrap_inRange. Qed.

Lemma ErrorCount_exec c k name m :
  keeps name k = true -> clusters c !! name = Some m -> Int64.inRange (ErrorCount m) ->
  exists m', clusters (exec c k) !! name = Some m' /\ Int64.inRange (ErrorCount m') /\
    ErrorCount m' = Int64.wrap (ErrorCount m + errors name k).
Proof.
  intros Hk Hm Hr.
  assert (Hsame : ErrorCount m = Int64.wrap (ErrorCount m + 0))
    by (rewrite Z.add_0_r, Int64Facts.wrap_small; auto).
  destruct k as [n e t|n p rt t|n reason|n]; cbn [exec errors keeps] in *.
  - destruct (String.eqb_spec n name) as [Heq|Hne]; [discriminate|].
    cbn [AddCluster withClusters clusters]. rewrite lookup_insert_ne by exact Hne.
    exists m. auto.
  - destruct (String.eqb_spec n name) as [->|Hne].
    + rewrite (HealthSpec.checkCluster_same _ _ _ _ _ _ Hm). eexists. split; [reflexivity|].
      destruct (succeeds p) eqn:Hp; cbn [andb negb].
      * destruct (HealthSpec.recordCheck_success (maxConsecutiveErrors c) m p rt t Hp)
          as (_ & _ & He). rewrite He. auto.
      * destruct (HealthSpec.recordCheck_failure (maxConsecutiveErrors c) m p rt t Hp)
          as (He & _). rewrite He. split; [apply incr_inRange|reflexivity].
    + rewrite HealthSpec.checkCluster_other by exact Hne. exists m. cbn [andb]. auto.
  - unfold MarkUnhealthy. destruct (String.eqb_spec n name) as [->|Hne].
    + rewrite Hm. cbn [withClusters clusters]. rewrite lookup_insert_eq.
      eexists. split; [reflexivity|]. cbn [ErrorCount].
      split; [apply incr_inRange|reflexivity].
    + destruct (clusters c !! n).
      * cbn [withClusters clusters]. rewrite lookup_insert_ne by exact Hne. exists m. auto.
      * exists m. auto.
  - unfold ForceHealthy. destruct (decide (n = name)) as [->|Hne].
    + rewrite Hm. cbn [withClusters clusters]. rewrite lookup_insert_eq.
      eexists. split; [reflexivity|]. cbn [ErrorCount]. auto.
    + destruct (clusters c !! n).
      * cbn [withClusters clusters]. rewrite lookup_insert_ne by exact Hne. exists m. auto.
      * exists m. auto.
Qed.

Lemma wrap_add_wrap a b : Int64.wrap (Int64.wrap a + b) = Int64.wrap (a + b).
Proof.
  unfold Int64.wrap. f_equal.
  replace ((a + 2 ^ 63) mod 2 ^ 64 - 2 ^ 63 + b + 2 ^ 63)
    with ((a + 2 ^ 63) mod 2 ^ 64 + b) by lia.
  rewrite Zplus_mod_idemp_l. f_equal. lia.
Qed.

(** [ErrorCount] counts every failure since registration: through any run
    of calls that does not re-register the cluster, it grows by exactly
    the number of its failed checks and of its [MarkUnhealthy] calls
    (modulo 2^64); successful checks and [ForceHealthy] never reset it. *)
Theorem ErrorCount_counts_failures (c : Checker) (ks : list call) (name : string)
    (m : ClusterMetrics) :
  Forall (fun k => keeps name k = true) ks ->
  clusters c !! name = Some m ->
  Int64.inRange (ErrorCount m) ->
  exists m', clusters (run c ks) !! name = Some m' /\
    ErrorCount m' = Int64.wrap (ErrorCount m + errorsIn name ks).
Proof.
  revert c m. induction ks as [|k ks IH]; intros c m Hall Hm Hr.
  - exists m. split; [exact Hm|]. simpl. rewrite Z.add_0_r, Int64Facts.wrap_small; auto.
  - apply Forall_cons in Hall as [Hk Hall].
    change (run c (k :: ks)) with (run (exec c k) ks).
    destruct (ErrorCount_exec c k name m Hk Hm Hr) as (m1 & Hm1 & Hr1 & He1).
    destruct (IH (exec c k) m1 Hall Hm1 Hr1) as (m' & Hm' & He').
    exists m'. split; [exact Hm'|].
    rewrite He', He1, wrap_add_wrap. cbn [errorsIn fold_right]. f_equal.
    fold (errorsIn name ks). lia.
Qed.

(** Two failed checks, a success, a manual mark-down and a [ForceHealthy]:
    three errors counted. *)
Lemma ErrorCount_counts_failures_witness :
  exists m',
    clusters (run (AddCluster (NewChecker 30) "gpu-a" "http://gpu-a:8080" 0)
                [CallCheck "gpu-a" HealthSpec.probeDown 9 30;
                 CallCheck "gpu-a" HealthSpec.probeDown 9 60;
                 CallCheck "gpu-a" HealthSpec.probeUp 12 90;
                 CallMarkUnhealthy "gpu-a" "drain"; CallForceHealthy "gpu-a"]) !! "gpu-a"
      = Some m' /\
    ErrorCount m' = 3.
Proof.
  apply (ErrorCount_counts_failures (AddCluster (NewChecker 30) "gpu-a" "http://gpu-a:8080" 0)
           [CallCheck "gpu-a" HealthSpec.probeDown 9 30;
            CallCheck "gpu-a" HealthSpec.probeDown 9 60;
            CallCheck "gpu-a" HealthSpec.probeUp 12 90;
            CallMarkUnhealthy "gpu-a" "drain"; CallForceHealthy "gpu-a"] "gpu-a"
           (mkClusterMetrics false 0 0 0 0 0 0 0 "http://gpu-a:8080")).
  - repeat constructor.
  - vm_compute. reflexivity.
  - unfold Int64.inRange, Int64.minInt, Int64.maxInt. simpl. lia.
Defined.

End HealthMore.

(* ===================================================================== *)
(** ** The forwarder: credentials per cluster, rejected requests           *)
(* ===================================================================== *)

Module ForwardMore.
Import forward.

(** [addAuthentication] after [SetHMACAuth]: the request sent to the
    cluster validates under the configured secret within the window; the
    three authentication headers are the only change to the request (any
    other header, the method and the path are as they came); credentials
    of one cluster play no part in requests to another; a cluster without
    a secret gets the request as it came. *)
Theorem addAuthentication_spec (f : Forwarder) (cluster secret : string)
    (req : http.Request) (body : string) (ts : Z) :
  Int64.inRange ts ->
  (forall now, Int64.inRange now -> Z.abs (now - ts) <= 300 ->
     ValidateHMACSignature
       (addAuthentication (SetHMACAuth f cluster secret) req cluster body ts)
       secret body now = true) /\
  (forall key, key <> "X-Timestamp" -> key <> "X-Signature" -> key <> "X-Auth-Type" ->
     http.Header (addAuthentication (SetHMACAuth f cluster secret) req cluster body ts) !! key
     = http.Header req !! key) /\
  http.Method (addAuthentication (SetHMACAuth f cluster secret) req cluster body ts)
    = http.Method req /\
  http.Path (addAuthentication (SetHMACAuth f cluster secret) req cluster body ts)
    = http.Path req /\
  (forall other, other <> cluster ->
     addAuthentication (SetHMACAuth f cluster secret) req other body ts
     = addAuthentication f req other body ts) /\
  (hmacSecrets f !! cluster = None -> addAuthentication f req cluster body ts = req).
Proof.
  intros Hts.
  assert (Hauth : addAuthentication (SetHMACAuth f cluster secret) req cluster body ts
                  = addHMACAuth req secret body ts).
  { unfold addAuthentication, SetHMACAuth. cbn [hmacSecrets].
    rewrite lookup_insert_eq. reflexivity. }
  rewrite Hauth. split; [|split; [|split; [|split; [|split]]]].
  - intros now Hnow Hw.
    change (addHMACAuth req secret body ts)
      with {| http.Method := http.Method req; http.Path := http.Path req;
              http.Header := http.Header (addHMACAuth req secret body ts) |}.
    rewrite ForwardSpec.validate_signed by (try assumption; lia).
    destruct (Z.ltb_spec 300 (Z.abs (now - ts))); [lia|]. apply String.eqb_refl.
  - intros key H1 H2 H3. unfold addHMACAuth, http.Set_. cbn [http.Header].
    rewrite !lookup_insert_ne by congruence. reflexivity.
  - reflexivity.
  - reflexivity.
  - intros other Hne. unfold addAuthentication, SetHMACAuth. cbn [hmacSecrets].
    rewrite lookup_insert_ne by congruence. reflexivity.
  - intros Hn. unfold addAuthentication. rewrite Hn. reflexivity.
Qed.

Definition plainRequest : http.Request :=
  http.mkRequest "POST" "/v1/chat/completions"
    (<["Content-Type" := ["application/json"]]> (<["X-Signature" := ["forged"]]> ∅)).

Lemma addAuthentication_spec_witness :
  ValidateHMACSignature
    (addAuthentication (SetHMACAuth NewForwarder "gpu-a" "s3cr3t") plainRequest "gpu-a"
       "{}" 1700000000) "s3cr3t" "{}" 1700000240 = true /\
  addAuthentication (SetHMACAuth NewForwarder "gpu-a" "s3cr3t") plainRequest "gpu-b"
    "{}" 1700000000 = addAuthentication NewForwarder plainRequest "gpu-b" "{}" 1700000000 /\
  addAuthentication NewForwarder plainRequest "gpu-a" "{}" 1700000000 = plainRequest.
Proof.
  pose proof (addAuthentication_spec NewForwarder "gpu-a" "s3cr3t" plainRequest "{}"
                1700000000
                ltac:(unfold Int64.inRange, Int64.minInt, Int64.maxInt; lia))
    as (H1 & _ & _ & _ & H5 & H6).
  split; [|split].
  - apply H1; [unfold Int64.inRange, Int64.minInt, Int64.maxInt; lia|simpl; lia].
  - apply H5. discriminate.
  - apply H6. reflexivity.
Defined.

(** [ValidateHMACSignature] accepts only what it can recompute: an accepted
    request carries [X-Auth-Type: hmac-sha256], a decimal [X-Timestamp]
    whose distance to now, as [abs] computes it, is at most 300, and as
    [X-Signature] the hex HMAC-SHA256, under the receiver's secret, of the
    timestamp header as sent, the method, the path and the body. *)
Theorem ValidateHMACSignature_accepts_only (req : http.Request) (secret body : string)
    (now : Z) :
  ValidateHMACSignature req secret body now = true ->
  http.Get (http.Header req) "X-Auth-Type" = "hmac-sha256" /\
  (exists ts, strconv.ParseInt (http.Get (http.Header req) "X-Timestamp") = Some ts /\
              abs (Int64.sub now ts) <= 300) /\
  http.Get (http.Header req) "X-Signature"
  = sign secret (signatureData (http.Get (http.Header req) "X-Timestamp")
                   (http.Method req) (http.Path req) body).
Proof.
  unfold ValidateHMACSignature.
  destruct (String.eqb (http.Get (http.Header req) "X-Timestamp") ""); [discriminate|].
  destruct (String.eqb (http.Get (http.Header req) "X-Signature") ""); [discriminate|].
  destruct (String.eqb_spec (http.Get (http.Header req) "X-Auth-Type") "hmac-sha256")
    as [Ha|Ha]; [|discriminate].
  cbn [orb negb].
  destruct (strconv.ParseInt (http.Get (http.Header req) "X-Timestamp")) as [ts|];
    [|discriminate].
  destruct (Z.ltb_spec 300 (abs (Int64.sub now ts))) as [Hw|Hw]; [discriminate|].
  unfold hmac.Equal. intros He. apply String.eqb_eq in He.
  split; [exact Ha|]. split; [exists ts; auto|exact He].
Qed.

Lemma ValidateHMACSignature_accepts_only_witness :
  http.Get (http.Header (addHMACAuth plainRequest "s3cr3t" "{}" 1700000000)) "X-Signature"
  = sign "s3cr3t"
      (signatureData
         (http.Get (http.Header (addHMACAuth plainRequest "s3cr3t" "{}" 1700000000))
            "X-Timestamp")
         "POST" "/v1/chat/completions" "{}").
Proof.
  apply (ValidateHMACSignature_accepts_only
           (addHMACAuth plainRequest "s3cr3t" "{}" 1700000000) "s3cr3t" "{}" 1700000100).
  vm_compute. reflexivity.
Defined.



(** [abs] is the absolute value on every [int64] but the least, which it
    returns unchanged (negative); so the replay window does not reject a
    timestamp exactly 2^63 seconds before now: a request signed with such
    a timestamp is accepted. *)
Theorem abs_overflow_accepts (req : http.Request) (secret body : string) (now : Z) :
  0 <= now <= Int64.maxInt ->
  (forall x, Int64.inRange x -> x <> Int64.minInt -> abs x = Z.abs x) /\
  abs Int64.minInt = Int64.minInt /\
  ValidateHMACSignature (addHMACAuth req secret body (now - 2 ^ 63)) secret body now = true.
Proof.
  intros Hnow. split; [|split].
  - unfold Int64.inRange, Int64.minInt, Int64.maxInt, abs. intros x Hx Hne.
    destruct (Z.ltb_spec x 0); [|lia].
    unfold Int64.neg. rewrite Int64Facts.wrap_small
      by (unfold Int64.inRange, Int64.minInt, Int64.maxInt; lia). lia.
  - reflexivity.
  - unfold Int64.maxInt in Hnow.
    assert (Hts : Int64.inRange (now - 2 ^ 63))
      by (unfold Int64.inRange, Int64.minInt, Int64.maxInt; lia).
    destruct (ForwardSpec.addHMACAuth_headers req secret body (now - 2 ^ 63))
      as (Ht & Hs & Ha).
    unfold ValidateHMACSignature. rewrite Ht, Hs, Ha.
    rewrite StrconvSpec.FormatInt_nonempty, ForwardSpec.sign_nonempty.
    change (String.eqb "hmac-sha256" "hmac-sha256") with true. cbn [orb negb].
    rewrite StrconvSpec.ParseInt_FormatInt by exact Hts.
    replace (Int64.sub now (now - 2 ^ 63)) with Int64.minInt.
    + change (300 <? abs Int64.minInt) with false. cbv iota.
      unfold hmac.Equal. apply String.eqb_refl.
    + unfold Int64.sub. replace (now - (now - 2 ^ 63)) with (2 ^ 63) by lia. reflexivity.
Qed.

Lemma abs_overflow_accepts_witness :
  ValidateHMACSignature
    (addHMACAuth plainRequest "s3cr3t" "{}" (1700000000 - 2 ^ 63)) "s3cr3t" "{}" 1700000000
  = true.
Proof.
  apply (abs_overflow_accepts plainRequest "s3cr3t" "{}" 1700000000).
  unfold Int64.maxInt. lia.
Defined.

End ForwardMore.

(* ================================================================== *)
(** ** The selection strategies and the request handler, further      *)
(* ================================================================== *)

Module RouterMore.
Import router SelectSpec.

(** Floats that compare equal compare alike with every third one (the two
    zeros are the only distinct equal pair). *)
Lemma SFcompare_eq_r x y z :
  SFcompare y z = Some Eq -> SFcompare x y = SFcompare x z.
Proof.
  destruct y as [s2|s2| |s2 m2 e2], z as [s3|s3| |s3 m3 e3]; simpl; try discriminate;
    try (destruct s2; discriminate); try (destruct s3; discriminate).
  - intros _. destruct x; reflexivity.
  - destruct s2, s3; try discriminate; reflexivity.
  - change (Pos.compare_cont Eq) with Pos.compare.
    destruct s2, s3; try discriminate;
      destruct (Z.compare_spec e2 e3); try discriminate; subst;
      destruct (Pos.compare_spec m2 m3); try discriminate; subst; reflexivity.
Qed.

Lemma ltb_leb_trans x y z :
  F64.ltb x y = true -> F64.leb y z = true -> F64.ltb x z = true.
Proof.
  intros Hxy Hyz. apply F64Facts.leb_cmp in Hyz as [Hlt|Heq].
  - apply F64Facts.ltb_cmp in Hlt. eapply F64Facts.ltb_trans; eauto.
  - apply F64Facts.ltb_cmp. apply F64Facts.ltb_cmp in Hxy. unfold F64.cmp in *.
    rewrite <- (SFcompare_eq_r _ _ _ Heq). exact Hxy.
Qed.

Lemma fold_left_snoc {A B} (f : A -> B -> A) l b a :
  fold_left f (l ++ [b]) a = f (fold_left f l a) b.
Proof. rewrite fold_left_app. reflexivity. Qed.

(** The strict comparison keeps the earliest of several least elements:
    everything in front of the result is strictly above it, everything
    behind at least it. *)
Lemma pick_fold_first (key : RouteTarget -> float) l : forall t0,
  (forall c, In c (t0 :: l) -> F64.isNaN (key c) = false) ->
  exists before after,
    t0 :: l = before ++ fold_left (pick anyTarget key) l t0 :: after /\
    (forall c, In c before ->
       F64.ltb (key (fold_left (pick anyTarget key) l t0)) (key c) = true) /\
    (forall c, In c after ->
       F64.leb (key (fold_left (pick anyTarget key) l t0)) (key c) = true).
Proof.
  induction l as [|a l IH] using rev_ind; intros t0 Hnum.
  - exists [], []. simpl. split; [reflexivity|]. split; intros c [].
  - destruct (IH t0) as (before & after & Hsplit & Hb & Ha).
    { intros c Hc. apply Hnum. destruct Hc as [->|Hc]; [left; reflexivity|].
      right. apply in_or_app. left. exact Hc. }
    rewrite fold_left_snoc. set (r := fold_left (pick anyTarget key) l t0) in *.
    assert (Hin : In r (t0 :: l)) by (rewrite Hsplit; apply in_elt).
    assert (Hr : F64.isNaN (key r) = false).
    { apply Hnum. destruct Hin as [<-|Hin]; [left; reflexivity|].
      right. apply in_or_app. left. exact Hin. }
    assert (Hna : F64.isNaN (key a) = false).
    { apply Hnum. right. apply in_or_app. right. left. reflexivity. }
    replace (pick anyTarget key r a) with (if F64.ltb (key a) (key r) then a else r)
      by reflexivity.
    destruct (F64.ltb (key a) (key r)) eqn:Hlt.
    + exists (before ++ r :: after), [].
      split; [rewrite app_comm_cons, Hsplit; reflexivity|].
      split; [|intros c []].
      intros c Hc. apply in_app_or in Hc as [Hc|[<-|Hc]].
      * eapply F64Facts.ltb_trans; [exact Hlt|apply Hb, Hc].
      * exact Hlt.
      * eapply ltb_leb_trans; [exact Hlt|apply Ha, Hc].
    + exists before, (after ++ [a]).
      split; [rewrite app_comm_cons, Hsplit, <- app_assoc; reflexivity|].
      split; [exact Hb|].
      intros c Hc. apply in_app_or in Hc as [Hc|[<-|[]]]; [apply Ha, Hc|].
      apply F64Facts.not_ltb_leb; assumption.
Qed.

(** [selectByCost] on a non-empty list returns one of its targets and
    counts one routing decision for it with the reason [lowest_cost]; no
    target costs strictly less than the one returned, and when no cost is
    NaN it is the first of the cheapest: every target in front of it costs
    strictly more, every target behind it at least as much. *)
Theorem selectByCost_spec (targets : list RouteTarget) :
  targets <> [] ->
  exists t,
    selectByCost targets
    = (Some t, [CounterInc "llm_router_routing_decisions_total"
                  [Name t; Type_ t; "lowest_cost"]]) /\
    In t targets /\
    (forall c, In c targets -> F64.ltb (Cost c) (Cost t) = false) /\
    ((forall c, In c targets -> F64.isNaN (Cost c) = false) ->
     exists before after,
       targets = before ++ t :: after /\
       (forall c, In c before -> F64.ltb (Cost t) (Cost c) = true) /\
       (forall c, In c after -> F64.leb (Cost t) (Cost c) = true)).
Proof.
  intros Hne. destruct targets as [|first rest]; [congruence|].
  unfold selectByCost. rewrite cheaper_pick.
  exists (fold_left (pick anyTarget Cost) rest first).
  split; [reflexivity|]. split; [apply pick_fold_In|]. split.
  - intros c Hc. apply (proj2 (pick_fold anyTarget Cost rest first)).
    destruct Hc as [<-|Hc]; [left; reflexivity|right; auto].
  - intros Hnum. apply pick_fold_first, Hnum.
Qed.

(** Two targets at the least cost: the one in front is returned. *)
Definition providerD : RouteTarget :=
  mkRouteTarget "D" "provider" "" 0.001 true 0 0 (Provider RouterSpec.providerC).

Lemma selectByCost_spec_witness :
  exists t,
    selectByCost [RouterSpec.clusterB; providerD; RouterSpec.clusterA; RouterSpec.providerC]
    = (Some t, [CounterInc "llm_router_routing_decisions_total"
                  [Name t; Type_ t; "lowest_cost"]]) /\
    Name t = "D".
Proof.
  destruct (selectByCost_spec
              [RouterSpec.clusterB; providerD; RouterSpec.clusterA; RouterSpec.providerC]
              ltac:(discriminate)) as (t & Hsel & _).
  exists t. split; [exact Hsel|].
  vm_compute in Hsel. injection Hsel as <-. reflexivity.
Defined.

(** *** The two "first of a kind" strategies on the candidate list *)

Lemma find_app_skip {A} (f : A -> bool) l1 l2 :
  (forall x, In x l1 -> f x = false) -> List.find f (l1 ++ l2) = List.find f l2.
Proof.
  induction l1 as [|a l1 IH]; intros H; simpl; [reflexivity|].
  rewrite (H a (or_introl eq_refl)). apply IH. intros x Hx. apply H. right. exact Hx.
Qed.

Lemma find_none {A} (f : A -> bool) l :
  (forall x, In x l -> f x = false) -> List.find f l = None.
Proof.
  intros H. rewrite <- (app_nil_r l), find_app_skip by exact H. reflexivity.
Qed.

Lemma clusterCandidate_types r t :
  clusterCandidate r t ->
  String.eqb (Type_ t) "cluster" = true /\ String.eqb (Type_ t) "provider" = false.
Proof. intros [-> _]. split; reflexivity. Qed.

Lemma providerCandidate_types t :
  providerCandidate t ->
  String.eqb (Type_ t) "cluster" = false /\ String.eqb (Type_ t) "provider" = true.
Proof. intros [-> _]. split; reflexivity. Qed.

(** The candidate list of [getAllTargets] has the cluster candidates in
    front of the provider candidates. On it [selectClusterFirst] compares
    nothing: it returns the head of the list and counts one routing
    decision for it, with the reason [cluster_first] when the head is a
    cluster candidate and [external_fallback] when it is a provider; and
    [selectExternalFirst] returns the first provider candidate, counted
    with the reason [external_first], or without one the head of the list,
    counted with [cluster_fallback]. On the empty list both return no
    target and count nothing. *)
Theorem first_of_kind_strategies (r : Router) (w : world) :
  exists cs ps,
    snd (getAllTargets r w) = cs ++ ps /\
    Forall (clusterCandidate r) cs /\ Forall providerCandidate ps /\
    selectClusterFirst (cs ++ ps)
    = match cs, ps with
      | c :: _, _ =>
          (Some c, [CounterInc "llm_router_routing_decisions_total"
                      [Name c; "cluster"; "cluster_first"]])
      | [], p :: _ =>
          (Some p, [CounterInc "llm_router_routing_decisions_total"
                      [Name p; "provider"; "external_fallback"]])
      | [], [] => (None, [])
      end /\
    selectExternalFirst (cs ++ ps)
    = match ps, cs with
      | p :: _, _ =>
          (Some p, [CounterInc "llm_router_routing_decisions_total"
                      [Name p; "provider"; "external_first"]])
      | [], c :: _ =>
          (Some c, [CounterInc "llm_router_routing_decisions_total"
                      [Name c; "cluster"; "cluster_fallback"]])
      | [], [] => (None, [])
      end.
Proof.
  destruct (getAllTargets_shape r w) as (cs & ps & Hshape & Hcs & Hps).
  exists cs, ps. split; [exact Hshape|]. split; [exact Hcs|]. split; [exact Hps|].
  rewrite Forall_forall in Hcs, Hps.
  assert (Hc : forall x, In x cs -> clusterCandidate r x)
    by (intros x Hx; apply Hcs, list_elem_of_In, Hx).
  assert (Hp : forall x, In x ps -> providerCandidate x)
    by (intros x Hx; apply Hps, list_elem_of_In, Hx).
  split.
  - unfold selectClusterFirst.
    destruct cs as [|c cs].
    + cbn [app]. rewrite find_none
        by (intros x Hx; apply (providerCandidate_types x), Hp, Hx).
      destruct ps as [|p ps]; [reflexivity|].
      destruct (Hp p (or_introl eq_refl)) as [Hty _]. unfold decision. rewrite Hty.
      reflexivity.
    + cbn [app List.find].
      rewrite (proj1 (clusterCandidate_types r c (Hc c (or_introl eq_refl)))).
      destruct (Hc c (or_introl eq_refl)) as [Hty _]. unfold decision. rewrite Hty.
      reflexivity.
  - unfold selectExternalFirst.
    rewrite find_app_skip by (intros x Hx; apply (clusterCandidate_types r x), Hc, Hx).
    destruct ps as [|p ps].
    + rewrite app_nil_r. destruct cs as [|c cs]; [reflexivity|].
      cbn [List.find].
      destruct (Hc c (or_introl eq_refl)) as [Hty _]. unfold decision. rewrite Hty.
      reflexivity.
    + cbn [List.find].
      rewrite (proj2 (providerCandidate_types p (Hp p (or_introl eq_refl)))).
      destruct (Hp p (or_introl eq_refl)) as [Hty _]. unfold decision. rewrite Hty.
      reflexivity.
Qed.

(** Both clusters checked and the provider up: [cluster_first] takes the
    first cluster visited, [external_first] the provider. *)
Example first_of_kind_on_checked_router :
  selectClusterFirst
    (snd (getAllTargets (RouterSpec.checkedRouter "cluster_first") RouterSpec.providerUp))
  = (nth_error
       (snd (getAllTargets (RouterSpec.checkedRouter "cluster_first") RouterSpec.providerUp))
       0,
     [CounterInc "llm_router_routing_decisions_total"
        ["gpu-a"; "cluster"; "cluster_first"]]) /\
  selectExternalFirst
    (snd (getAllTargets (RouterSpec.checkedRouter "external_first") RouterSpec.providerUp))
  = (nth_error
       (snd (getAllTargets (RouterSpec.checkedRouter "external_first") RouterSpec.providerUp))
       2,
     [CounterInc "llm_router_routing_decisions_total"
        ["openai"; "provider"; "external_first"]]).
Proof. split; vm_compute; reflexivity. Qed.

(** *** What [handleLLMRequest] does with a non-empty candidate list *)

(** Every strategy, and every unknown strategy name, returns a target of a
    non-empty list together with one routing-decision count. *)
Lemma strategyChoice_member cfg targets :
  targets <> [] ->
  exists t reason, strategyChoice cfg targets = decision t reason /\ In t targets.
Proof.
  intros Hne. destruct targets as [|first rest]; [congruence|].
  unfold strategyChoice.
  assert (Hcheap : forall reason, exists t reason',
             decision (fold_left cheaper rest first) reason = decision t reason' /\
             In t (first :: rest)).
  { intros reason. eexists _, _. split; [reflexivity|].
    rewrite cheaper_pick. apply pick_fold_In. }
  assert (Hfind : forall (f : RouteTarget -> bool) yes no, exists t reason,
             match List.find f (first :: rest) with
             | Some target => decision target yes
             | None => decision first no
             end = decision t reason /\ In t (first :: rest)).
  { intros f yes no. destruct (List.find f (first :: rest)) as [t|] eqn:Hf.
    - exists t, yes. split; [reflexivity|]. apply (find_some _ _ Hf).
    - exists first, no. split; [reflexivity|left; reflexivity]. }
  destruct (String.eqb _ "cost"); [apply Hcheap|].
  destruct (String.eqb _ "latency").
  { eexists _, _. split; [reflexivity|]. rewrite faster_pick. apply pick_fold_In. }
  destruct (String.eqb _ "external_first"); [apply Hfind|].
  destruct (String.eqb _ "cluster_first"); [apply Hfind|].
  unfold selectHybrid.
  destruct (fold_left (cheaperCluster (ClusterCostThreshold cfg)) (first :: rest) None)
    as [c|] eqn:Hc; [|apply Hcheap].
  exists c, "hybrid_cluster". split; [reflexivity|].
  destruct (List.existsb (qualifies (ClusterCostThreshold cfg)) (first :: rest)) eqn:Hex.
  - apply List.existsb_exists in Hex.
    destruct (cheaperCluster_found _ _ Hex) as (c' & Hc' & Hin & _). congruence.
  - rewrite cheaperCluster_None in Hc; [discriminate|].
    intros x Hx. destruct (qualifies _ x) eqn:Hq; [|reflexivity].
    assert (Hyes : List.existsb (qualifies (ClusterCostThreshold cfg)) (first :: rest) = true)
      by (apply List.existsb_exists; exists x; auto).
    congruence.
Qed.

(** The call a selected target gets and the counts that follow it. *)
Definition forwarded (w : world) (endpoint : string) (t : RouteTarget) : list effect :=
  let status := match forwardError w with Some _ => "error" | None => "success" end in
  (if isCluster t then [ForwardCluster (Name t) (Endpoint t +:+ endpoint)]
   else [ForwardProvider (Name t) endpoint;
         CounterInc "llm_router_external_requests_total" [Name t; "unknown"; status]])
  ++ [HistogramObserve "llm_router_request_duration_seconds" [Name t];
      requestsTotal (Name t) status].

(** When the candidate list is not empty, whatever the configured strategy
    name, [handleLLMRequest] counts one routing decision for one of the
    candidates and hands the request to that candidate once: a cluster
    gets it at its endpoint followed by the path, a provider gets the
    path. The handler itself writes no error response and dereferences no
    nil target; a forwarding failure only changes the status it counts
    from [success] to [error]. The router changes as [getAllTargets]
    changes it. *)
Theorem handleLLMRequest_forwards_once (r : Router) (w : world) (endpoint : string) :
  snd (getAllTargets r w) <> [] ->
  exists t reason,
    In t (snd (getAllTargets r w)) /\
    handleLLMRequest r w endpoint
    = (fst (getAllTargets r w),
       CounterInc "llm_router_routing_decisions_total" [Name t; Type_ t; reason]
       :: forwarded w endpoint t).
Proof.
  intros Hne.
  destruct (strategyChoice_member (RouterCfg (config r)) _ Hne) as (t & reason & Hsel & Hin).
  exists t, reason. split; [exact Hin|].
  unfold handleLLMRequest. rewrite (selectTarget_nonempty r w Hne), Hsel.
  unfold decision. cbn [fst snd].
  destruct (getAllTargets_shape r w) as (cs & ps & Hshape & Hcs & Hps).
  rewrite Hshape in Hin. rewrite Forall_forall in Hcs, Hps.
  unfold forwarded, isCluster.
  apply in_app_or in Hin as [Hin|Hin].
  - destruct (Hcs t (proj2 (list_elem_of_In _ _) Hin)) as [Hty _]. rewrite Hty.
    reflexivity.
  - destruct (Hps t (proj2 (list_elem_of_In _ _) Hin)) as [Hty [p Hp]]. rewrite Hty, Hp.
    reflexivity.
Qed.

(** Both clusters checked, the provider up: the request goes out once. *)
Lemma handleLLMRequest_forwards_once_witness :
  exists t reason,
    In t (snd (getAllTargets (RouterSpec.checkedRouter "cost") RouterSpec.providerUp)) /\
    handleLLMRequest (RouterSpec.checkedRouter "cost") RouterSpec.providerUp
      "/v1/chat/completions"
    = (fst (getAllTargets (RouterSpec.checkedRouter "cost") RouterSpec.providerUp),
       CounterInc "llm_router_routing_decisions_total" [Name t; Type_ t; reason]
       :: forwarded RouterSpec.providerUp "/v1/chat/completions" t).
Proof.
  apply (handleLLMRequest_forwards_once (RouterSpec.checkedRouter "cost")
           RouterSpec.providerUp "/v1/chat/completions").
  vm_compute. discriminate.
Defined.

(** *** The candidate list, in closed form *)

(** The cost of a cluster at a throughput, without the recording. *)
Definition quote (e : cost.Engine) (name : string) (tokensPerSecond : float) : float :=
  match cost.clusters e !! name with
  | None => F64.Inf
  | Some cluster =>
      if F64.leb tokensPerSecond 0%float then F64.Inf
      else cost.costFormula (cost.CostPerHour cluster) tokensPerSecond (cost.overheadFactor e)
  end.

Definition withinLimits (cfg : Config) (entry : string * health.ClusterMetrics) : bool :=
  F64.leb (health.LatencyP95 (snd entry)) (F64.ofInt (MaxLatencyMs (RouterCfg cfg)))
  && (health.QueueDepth (snd entry) <=? MaxQueueDepth (RouterCfg cfg)).

Definition clusterTargetOf (r : Router) (entry : string * health.ClusterMetrics)
    : RouteTarget :=
  {| Name := fst entry; Type_ := "cluster";
     Endpoint := endpointOf (Clusters (config r)) (fst entry);
     Cost := quote (costEngine r) (fst entry) (health.TokensPerSecond (snd entry));
     IsHealthy := true;
     LatencyP95 := health.LatencyP95 (snd entry);
     QueueDepth := health.QueueDepth (snd entry);
     Provider := None |}.

Definition healthyTargetOf (w : world) (entry : string * providers.adapter)
    : option RouteTarget :=
  match providers.Health (snd entry) (providerCall w (fst entry)) with
  | None => Some (providerTargetOf (snd entry))
  | Some _ => None
  end.

Definition recording (nw : Time) (entry : string * health.ClusterMetrics) : cost.call :=
  cost.CallCalculate nw (fst entry) (health.TokensPerSecond (snd entry)).

(** Two engines that quote alike: same overhead factor, same hourly cost
    for every cluster. *)
Definition sameRates (e e0 : cost.Engine) : Prop :=
  cost.overheadFactor e = cost.overheadFactor e0 /\
  forall name, cost.CostPerHour <$> cost.clusters e !! name
               = cost.CostPerHour <$> cost.clusters e0 !! name.

Lemma quote_sameRates e e0 name tps : sameRates e e0 -> quote e name tps = quote e0 name tps.
Proof.
  intros [Ho Hc]. unfold quote. specialize (Hc name). rewrite Ho.
  destruct (cost.clusters e !! name) as [c|], (cost.clusters e0 !! name) as [c0|];
    simpl in Hc; try discriminate; [|reflexivity].
  injection Hc as ->. reflexivity.
Qed.

Lemma Calculate_quote e nw name tps :
  snd (cost.CalculateCostPer1KTokens e nw name tps) = quote e name tps.
Proof.
  unfold cost.CalculateCostPer1KTokens, quote.
  destruct (cost.clusters e !! name); [|reflexivity].
  destruct (F64.leb tps 0); reflexivity.
Qed.

Lemma Calculate_sameRates e nw name tps :
  sameRates (fst (cost.CalculateCostPer1KTokens e nw name tps)) e.
Proof.
  unfold cost.CalculateCostPer1KTokens.
  destruct (cost.clusters e !! name) as [c|] eqn:Hc; [|split; reflexivity].
  destruct (F64.leb tps 0); [split; reflexivity|].
  split; [reflexivity|]. intros n. cbn [fst cost.clusters].
  destruct (decide (name = n)) as [<-|Hne].
  - rewrite lookup_insert_eq, Hc. reflexivity.
  - rewrite lookup_insert_ne by exact Hne. reflexivity.
Qed.

Lemma sameRates_trans e1 e2 e3 : sameRates e1 e2 -> sameRates e2 e3 -> sameRates e1 e3.
Proof.
  intros [H1 H2] [H3 H4]. split; [congruence|]. intros n. rewrite H2. apply H4.
Qed.

Lemma clusterLoop_eq r nw entries : forall engine acc,
  sameRates engine (costEngine r) ->
  fold_left (addClusterTarget (config r) nw) entries (engine, acc)
  = (cost.run engine (map (recording nw) (List.filter (withinLimits (config r)) entries)),
     acc ++ map (clusterTargetOf r) (List.filter (withinLimits (config r)) entries)).
Proof.
  induction entries as [|[name metrics] entries IH]; intros engine acc Hsame.
  - simpl. rewrite app_nil_r. reflexivity.
  - cbn [fold_left List.filter].
    destruct (withinLimits (config r) (name, metrics)) eqn:Hok;
      unfold withinLimits in Hok; cbn [fst snd] in Hok;
      unfold addClusterTarget at 2; rewrite Hok; [|apply IH, Hsame].
    pose proof (Calculate_quote engine nw name (health.TokensPerSecond metrics)) as Hq.
    pose proof (Calculate_sameRates engine nw name (health.TokensPerSecond metrics)) as Hs.
    destruct (cost.CalculateCostPer1KTokens engine nw name (health.TokensPerSecond metrics))
      as [engine' c] eqn:Hcalc.
    cbn [fst snd] in Hq, Hs. rewrite IH by (eapply sameRates_trans; eauto).
    cbn [map]. unfold cost.run. cbn [fold_left].
    replace (cost.exec engine (recording nw (name, metrics))) with engine'
      by (unfold recording; cbn [cost.exec fst snd]; rewrite Hcalc; reflexivity).
    rewrite <- app_assoc. cbn [app].
    replace (clusterTargetOf r (name, metrics))
      with {| Name := name; Type_ := "cluster";
              Endpoint := endpointOf (Clusters (config r)) name; Cost := c;
              IsHealthy := true; LatencyP95 := health.LatencyP95 metrics;
              QueueDepth := health.QueueDepth metrics; Provider := None |};
      [reflexivity|].
    unfold clusterTargetOf. cbn [fst snd].
    rewrite <- (quote_sameRates _ _ _ _ Hsame), <- Hq. reflexivity.
Qed.

Lemma providerLoop_eq w entries : forall acc,
  fold_left (addProviderTarget w) entries acc = acc ++ omap (healthyTargetOf w) entries.
Proof.
  induction entries as [|[key provider] entries IH]; intros acc.
  - simpl. rewrite app_nil_r. reflexivity.
  - cbn [fold_left]. rewrite addProviderTarget_eq.
    change (omap (healthyTargetOf w) ((key, provider) :: entries))
      with (match healthyTargetOf w (key, provider) with
            | Some y => y :: omap (healthyTargetOf w) entries
            | None => omap (healthyTargetOf w) entries
            end).
    replace (healthyTargetOf w (key, provider))
      with (match providers.Health provider (providerCall w key) with
            | None => Some (providerTargetOf provider)
            | Some _ => None
            end) by reflexivity.
    destruct (providers.Health provider (providerCall w key)); [apply IH|].
    rewrite IH, <- app_assoc. reflexivity.
Qed.

Lemma getAllTargets_eq r w :
  getAllTargets r w
  = (withCostEngine r
       (cost.run (costEngine r)
          (map (recording (now w))
             (List.filter (withinLimits (config r))
                (ranged (health.GetHealthyMetrics (healthChecker r)) (clusterOrder w))))),
     map (clusterTargetOf r)
       (List.filter (withinLimits (config r))
          (ranged (health.GetHealthyMetrics (healthChecker r)) (clusterOrder w)))
     ++ omap (healthyTargetOf w)
          (ranged (providers.GetAllProviders (providerManager r)) (providerOrder w))).
Proof.
  unfold getAllTargets. rewrite clusterLoop_eq by (split; reflexivity).
  rewrite providerLoop_eq. reflexivity.
Qed.

Lemma ranged_In {V} (m : gmap string V) order k v :
  In k order -> m !! k = Some v -> In (k, v) (ranged m order).
Proof.
  unfold ranged. induction order as [|x order IH]; simpl; [intros []|].
  intros [->|Hin] Hk.
  - rewrite Hk. left. reflexivity.
  - destruct (m !! x); simpl; [right|]; apply IH; assumption.
Qed.


(** The provider candidates of [getAllTargets] are the registered
    providers the loop visits whose health check returns nil, in the order
    visited and behind every cluster candidate; each carries the name the
    provider reports, an empty endpoint, latency and queue depth zero and
    the estimate [cheapestAverage] of its price table as cost. They are the
    providers [GetHealthyProviders] returns for the same answers. *)
Theorem getAllTargets_providers (r : Router) (w : world) :
  (exists cs,
     Forall (fun t => Type_ t = "cluster") cs /\
     snd (getAllTargets r w)
     = cs ++ omap (healthyTargetOf w)
               (ranged (providers.GetAllProviders (providerManager r)) (providerOrder w))) /\
  (forall t, In t (snd (getAllTargets r w)) -> Type_ t = "provider" ->
     exists key p,
       providers.GetHealthyProviders (providerManager r) (providerCall w) !! key = Some p /\
       t = providerTargetOf p) /\
  (forall key p, In key (providerOrder w) ->
     providers.GetHealthyProviders (providerManager r) (providerCall w) !! key = Some p ->
     In (providerTargetOf p) (snd (getAllTargets r w))).
Proof.
  rewrite getAllTargets_eq. cbn [snd]. split; [|split].
  - eexists. split; [|reflexivity].
    apply Forall_forall. intros t Ht.
    apply list_elem_of_In, in_map_iff in Ht as (e & <- & _). reflexivity.
  - intros t Hin Hty. apply in_app_or in Hin as [Hin|Hin].
    + apply in_map_iff in Hin as (e & <- & _). discriminate.
    + apply list_elem_of_In, list_elem_of_omap in Hin as ([key p] & Hin & Hsome).
      apply list_elem_of_In, ranged_lookup in Hin.
      unfold healthyTargetOf in Hsome. cbn [fst snd] in Hsome.
      destruct (providers.Health p (providerCall w key)) eqn:Hh; [discriminate|].
      injection Hsome as <-. exists key, p. split; [|reflexivity].
      unfold providers.GetHealthyProviders. apply map_lookup_filter_Some. split; assumption.
  - intros key p Hin Hp. apply in_or_app. right.
    unfold providers.GetHealthyProviders in Hp.
    apply map_lookup_filter_Some in Hp as [Hp Hh]. cbn [fst snd] in Hh.
    apply list_elem_of_In, list_elem_of_omap. exists (key, p).
    split; [apply list_elem_of_In, ranged_In; assumption|].
    unfold healthyTargetOf. cbn [fst snd]. rewrite Hh. reflexivity.
Qed.

(** *** The cost estimate of a provider *)

Definition averagePrice (p : providers.ModelPricing) : float :=
  ((providers.InputPricePer1K p + providers.OutputPricePer1K p) / 2)%float.

Definition lower (cost : float) (kv : string * providers.ModelPricing) : float :=
  if F64.ltb (averagePrice (snd kv)) cost then averagePrice (snd kv) else cost.

Lemma lower_fold l : forall c0,
  F64.isNaN c0 = false ->
  F64.isNaN (fold_left lower l c0) = false /\
  F64.ltb c0 (fold_left lower l c0) = false /\
  (forall kv, In kv l -> F64.ltb (averagePrice (snd kv)) (fold_left lower l c0) = false) /\
  (fold_left lower l c0 = c0 \/
   exists kv, In kv l /\ fold_left lower l c0 = averagePrice (snd kv)).
Proof.
  induction l as [|a l IH]; intros c0 Hc0.
  - simpl. split; [exact Hc0|]. split; [apply F64Facts.ltb_irrefl|].
    split; [intros kv []|left; reflexivity].
  - cbn [fold_left]. unfold lower at 2 4 6 8 10.
    destruct (F64.ltb (averagePrice (snd a)) c0) eqn:Hlt.
    + assert (Ha : F64.isNaN (averagePrice (snd a)) = false).
      { apply F64Facts.ltb_cmp in Hlt. apply (F64Facts.cmp_Some_notNaN _ _ _ Hlt). }
      destruct (IH _ Ha) as (Hn & Hstart & Hall & Hfrom).
      set (c := fold_left lower l (averagePrice (snd a))) in *.
      split; [exact Hn|]. split; [|split].
      * destruct (F64.ltb c0 c) eqn:E; [|reflexivity].
        rewrite (F64Facts.ltb_trans _ _ _ Hlt E) in Hstart. discriminate.
      * intros kv [<-|Hin]; [exact Hstart|apply Hall, Hin].
      * right. destruct Hfrom as [->|(kv & Hin & ->)].
        -- exists a. split; [left; reflexivity|reflexivity].
        -- exists kv. split; [right; exact Hin|reflexivity].
    + destruct (IH _ Hc0) as (Hn & Hstart & Hall & Hfrom).
      set (c := fold_left lower l c0) in *.
      split; [exact Hn|]. split; [exact Hstart|]. split.
      * intros kv [<-|Hin]; [|apply Hall, Hin].
        destruct (F64.ltb (averagePrice (snd a)) c) eqn:E; [|reflexivity].
        rewrite (ltb_leb_trans _ _ _ E (F64Facts.not_ltb_leb _ _ Hc0 Hn Hstart)) in Hlt.
        discriminate.
      * destruct Hfrom as [->|(kv & Hin & ->)]; [left; reflexivity|].
        right. exists kv. split; [right; exact Hin|reflexivity].
Qed.

(** [cheapestAverage], the cost a provider candidate is listed with, is
    never NaN and at most 999999; no model of the table has a mean of input
    and output price strictly below it, so it is at most the mean of every
    model whose mean is a number; and it is 999999 (in particular for an
    empty table) or the mean of one of the models. The default model plays
    no part in it. *)
Theorem cheapestAverage_spec (pricing : gmap string providers.ModelPricing) :
  F64.isNaN (cheapestAverage pricing) = false /\
  F64.leb (cheapestAverage pricing) (F64.ofInt 999999) = true /\
  (forall model p, pricing !! model = Some p ->
     F64.ltb (averagePrice p) (cheapestAverage pricing) = false /\
     (F64.isNaN (averagePrice p) = false ->
      F64.leb (cheapestAverage pricing) (averagePrice p) = true)) /\
  (cheapestAverage pricing = F64.ofInt 999999 \/
   exists model p, pricing !! model = Some p /\ cheapestAverage pricing = averagePrice p) /\
  cheapestAverage ∅ = F64.ofInt 999999.
Proof.
  assert (H0 : F64.isNaN (F64.ofInt 999999) = false) by (vm_compute; reflexivity).
  change (cheapestAverage pricing) with (fold_left lower (map_to_list pricing) (F64.ofInt 999999)).
  destruct (lower_fold (map_to_list pricing) _ H0) as (Hn & Hstart & Hall & Hfrom).
  set (c := fold_left lower (map_to_list pricing) (F64.ofInt 999999)) in *.
  split; [exact Hn|]. split; [apply F64Facts.not_ltb_leb; assumption|].
  split; [|split].
  - intros model p Hp.
    assert (Hlt : F64.ltb (averagePrice p) c = false).
    { apply (Hall (model, p)). apply list_elem_of_In, elem_of_map_to_list, Hp. }
    split; [exact Hlt|]. intros Hnum. apply F64Facts.not_ltb_leb; assumption.
  - destruct Hfrom as [Heq|([model p] & Hin & Heq)]; [left; exact Heq|].
    right. exists model, p. split; [|exact Heq].
    apply list_elem_of_In, elem_of_map_to_list in Hin. exact Hin.
  - unfold cheapestAverage. rewrite map_to_list_empty. reflexivity.
Qed.

(** *** [NewRouter] *)

(** The body of the first loop of [NewRouter]. *)
Definition registerCluster (clock : nat -> Time) (loadCert : string -> string -> bool)
    (acc : nat * health.Checker * cost.Engine * forward.Forwarder)
    (cluster : Cluster.ClusterConfig)
    : nat * health.Checker * cost.Engine * forward.Forwarder :=
  let '(i, hc, ce, fw) := acc in
  let hc :=
    health.AddCluster hc (Cluster.Name cluster) (Cluster.Endpoint cluster) (clock i) in
  let ce := cost.AddCluster ce (Cluster.Name cluster) (Cluster.CostPerHour cluster) in
  let fw :=
    if String.eqb (Cluster.AuthType cluster) "hmac" then
      forward.SetHMACAuth fw (Cluster.Name cluster) (Cluster.SharedSecret cluster)
    else if String.eqb (Cluster.AuthType cluster) "mtls" then
      if negb (String.eqb (Cluster.CertFile cluster) "")
         && negb (String.eqb (Cluster.KeyFile cluster) "") then
        fst (forward.SetMTLSAuth fw (Cluster.Name cluster)
               (Cluster.CertFile cluster) (Cluster.KeyFile cluster)
               (loadCert (Cluster.CertFile cluster) (Cluster.KeyFile cluster)))
      else fw
    else fw in
  (S i, hc, ce, fw).

Definition registered (cfg : Config) (clock : nat -> Time)
    (loadCert : string -> string -> bool) :=
  fold_left (registerCluster clock loadCert) (Clusters cfg)
    (0%nat,
     health.NewChecker (HealthCheckInterval (RouterCfg cfg)),
     cost.NewEngine (OverheadFactor (RouterCfg cfg)),
     forward.NewForwarder).

Lemma NewRouter_registered cfg clock loadCert expandEnv :
  healthChecker (NewRouter cfg clock loadCert expandEnv)
    = snd (fst (fst (registered cfg clock loadCert))) /\
  costEngine (NewRouter cfg clock loadCert expandEnv)
    = snd (fst (registered cfg clock loadCert)) /\
  forwarder (NewRouter cfg clock loadCert expandEnv) = snd (registered cfg clock loadCert).
Proof.
  unfold NewRouter. fold (registerCluster clock loadCert).
  fold (registered cfg clock loadCert).
  destruct (registered cfg clock loadCert) as [[[i hc] ce] fw]. repeat split.
Qed.

(** What registration leaves for a cluster. *)
Definition initialMetrics (now : Time) (endpoint : string) : health.ClusterMetrics :=
  health.mkClusterMetrics false now 0 0 0 0 0 0 endpoint.

Definition initialCost (costPerHour : float) : cost.ClusterCost :=
  cost.mkClusterCost costPerHour 0 zeroTime [].

Definition secretOf (c : Cluster.ClusterConfig) : option string :=
  if String.eqb (Cluster.AuthType c) "hmac" then Some (Cluster.SharedSecret c) else None.

Definition tlsOf (loadCert : string -> string -> bool) (c : Cluster.ClusterConfig)
    : option forward.tlsConfig :=
  if String.eqb (Cluster.AuthType c) "mtls"
     && negb (String.eqb (Cluster.CertFile c) "")
     && negb (String.eqb (Cluster.KeyFile c) "")
     && loadCert (Cluster.CertFile c) (Cluster.KeyFile c)
  then Some (forward.mkTlsConfig (Cluster.CertFile c) (Cluster.KeyFile c) (Cluster.Name c))
  else None.

Definition named (name : string) (c : Cluster.ClusterConfig) : bool :=
  String.eqb (Cluster.Name c) name.

Lemma find_snoc {A} (f : A -> bool) l a :
  List.find f (l ++ [a])
  = match List.find f l with Some x => Some x | None => if f a then Some a else None end.
Proof.
  induction l as [|x l IH]; simpl; [reflexivity|]. destruct (f x); [reflexivity|exact IH].
Qed.

Lemma find_absent (l : list Cluster.ClusterConfig) name :
  ~ In name (map Cluster.Name l) -> List.find (named name) l = None.
Proof.
  intros Hno. apply find_none. intros c Hc. unfold named.
  apply String.eqb_neq. intros <-. apply Hno, in_map, Hc.
Qed.

Lemma NoDup_snoc_names (l : list Cluster.ClusterConfig) c :
  List.NoDup (map Cluster.Name (l ++ [c])) ->
  List.NoDup (map Cluster.Name l) /\ ~ In (Cluster.Name c) (map Cluster.Name l).
Proof.
  rewrite map_app. cbn [map]. intros H.
  apply List.NoDup_remove in H. rewrite app_nil_r in H. exact H.
Qed.

(** The health checker's entry for the configuration found under a name:
    registered at the clock of its position. *)
Definition enteredAt (clock : nat -> Time) (l : list Cluster.ClusterConfig)
    (found : option Cluster.ClusterConfig) (entry : option health.ClusterMetrics) : Prop :=
  match found with
  | Some c =>
      exists i, nth_error l i = Some c /\
                entry = Some (initialMetrics (clock i) (Cluster.Endpoint c))
  | None => entry = None
  end.

Lemma registerLoop clock loadCert ci oh (l : list Cluster.ClusterConfig) :
  List.NoDup (map Cluster.Name l) ->
  let st := fold_left (registerCluster clock loadCert) l
              (0%nat, health.NewChecker ci, cost.NewEngine oh, forward.NewForwarder) in
  fst (fst (fst st)) = length l /\
  forall name,
    let c := List.find (named name) l in
    enteredAt clock l c (health.clusters (snd (fst (fst st))) !! name) /\
    cost.clusters (snd (fst st)) !! name
      = (fun c => initialCost (Cluster.CostPerHour c)) <$> c /\
    forward.hmacSecrets (snd st) !! name = c ≫= secretOf /\
    forward.tlsConfigs (snd st) !! name = c ≫= tlsOf loadCert.
Proof.
  induction l as [|b l IH] using rev_ind; intros Hnd; cbn zeta.
  - split; [reflexivity|]. intros name. cbn. rewrite !lookup_empty. repeat split.
  - apply NoDup_snoc_names in Hnd as [Hnd Hfresh].
    specialize (IH Hnd). cbn zeta in IH. rewrite fold_left_snoc.
    destruct (fold_left (registerCluster clock loadCert) l _) as [[[i hc] ce] fw] eqn:Hst.
    cbn [fst snd] in IH. destruct IH as [Hi IH]. subst i.
    unfold registerCluster. cbn [fst snd].
    split; [rewrite length_app; cbn; lia|].
    intros name. rewrite find_snoc.
    destruct (String.eqb_spec (Cluster.Name b) name) as [Heq|Hne].
    + subst name. pose proof (IH (Cluster.Name b)) as (_ & _ & Hs & Ht).
      rewrite (find_absent _ _ Hfresh) in Hs, Ht |- *. cbn in Hs, Ht.
      unfold named. rewrite String.eqb_refl.
      cbn [fmap option_fmap option_map mbind option_bind enteredAt].
      unfold health.AddCluster, health.withClusters, cost.AddCluster.
      cbn [health.clusters cost.clusters].
      rewrite !lookup_insert_eq.
      split.
      { exists (length l). split; [|reflexivity].
        rewrite nth_error_app2 by lia. rewrite Nat.sub_diag. reflexivity. }
      split; [reflexivity|].
      unfold secretOf, tlsOf.
      destruct (String.eqb (Cluster.AuthType b) "hmac") eqn:Hh.
      * apply String.eqb_eq in Hh. rewrite Hh.
        cbn [forward.SetHMACAuth forward.hmacSecrets forward.tlsConfigs].
        rewrite lookup_insert_eq. split; [reflexivity|]. exact Ht.
      * destruct (String.eqb (Cluster.AuthType b) "mtls"); cbn [andb]; [|split; assumption].
        destruct (negb (String.eqb (Cluster.CertFile b) "")); cbn [andb]; [|split; assumption].
        destruct (negb (String.eqb (Cluster.KeyFile b) "")); cbn [andb]; [|split; assumption].
        unfold forward.SetMTLSAuth.
        destruct (loadCert (Cluster.CertFile b) (Cluster.KeyFile b)); cbn [fst];
          [|split; assumption].
        cbn [forward.hmacSecrets forward.tlsConfigs]. rewrite lookup_insert_eq.
        split; [exact Hs|reflexivity].
    + destruct (IH name) as (Hm & Hc & Hs & Ht).
      replace (match List.find (named name) l with
               | Some x => Some x
               | None => if named name b then Some b else None
               end) with (List.find (named name) l)
        by (unfold named at 3; rewrite (proj2 (String.eqb_neq _ _) Hne);
            destruct (List.find (named name) l); reflexivity).
      unfold health.AddCluster, health.withClusters, cost.AddCluster.
      cbn [health.clusters cost.clusters].
      rewrite !lookup_insert_ne by exact Hne.
      split.
      { unfold enteredAt in *. destruct (List.find (named name) l) as [c|]; [|exact Hm].
        destruct Hm as (i & Hnth & Hentry). exists i. split; [|exact Hentry].
        rewrite nth_error_app1; [exact Hnth|]. apply nth_error_Some. congruence. }
      split; [exact Hc|].
      destruct (String.eqb (Cluster.AuthType b) "hmac").
      * cbn [forward.SetHMACAuth forward.hmacSecrets forward.tlsConfigs].
        rewrite lookup_insert_ne by exact Hne. split; assumption.
      * destruct (String.eqb (Cluster.AuthType b) "mtls"); [|split; assumption].
        destruct (negb (String.eqb (Cluster.CertFile b) "") && _); [|split; assumption].
        unfold forward.SetMTLSAuth.
        destruct (loadCert (Cluster.CertFile b) (Cluster.KeyFile b)); cbn [fst];
          [|split; assumption].
        cbn [forward.hmacSecrets forward.tlsConfigs].
        rewrite lookup_insert_ne by exact Hne. split; assumption.
Qed.

Lemma find_named (l : list Cluster.ClusterConfig) c :
  List.NoDup (map Cluster.Name l) -> In c l -> List.find (named (Cluster.Name c)) l = Some c.
Proof.
  induction l as [|x l IH]; intros Hnd Hin; [destruct Hin|].
  cbn [map] in Hnd. apply List.NoDup_cons_iff in Hnd as [Hx Hnd]. cbn [List.find].
  destruct Hin as [->|Hin].
  - unfold named. rewrite String.eqb_refl. reflexivity.
  - unfold named at 1. destruct (String.eqb_spec (Cluster.Name x) (Cluster.Name c)) as [He|_].
    + exfalso. apply Hx. rewrite He. apply in_map, Hin.
    + apply IH; assumption.
Qed.

Lemma position_unique (l : list Cluster.ClusterConfig) i j c :
  List.NoDup (map Cluster.Name l) ->
  nth_error l i = Some c -> nth_error l j = Some c -> i = j.
Proof.
  intros Hnd Hi Hj.
  apply (proj1 (List.NoDup_nth_error (map Cluster.Name l)) Hnd).
  - rewrite length_map. apply nth_error_Some. congruence.
  - rewrite !nth_error_map, Hi, Hj. reflexivity.
Qed.

(** [NewRouter], when the configured cluster names are distinct: every
    configured cluster is registered with the health checker as not
    healthy, with its endpoint, no measurements and the time of its own
    registration as last check, and with the cost engine at its hourly
    cost and no history; a name that is not configured is registered
    nowhere; and no cluster is healthy yet, so the candidate list of the
    new router holds providers only. *)
Theorem NewRouter_clusters (cfg : Config) (clock : nat -> Time)
    (loadCert : string -> string -> bool) (expandEnv : string -> string) :
  List.NoDup (map Cluster.Name (Clusters cfg)) ->
  (forall i c, nth_error (Clusters cfg) i = Some c ->
     health.GetClusterMetrics (healthChecker (NewRouter cfg clock loadCert expandEnv))
       (Cluster.Name c)
       = Some (initialMetrics (clock i) (Cluster.Endpoint c)) /\
     cost.clusters (costEngine (NewRouter cfg clock loadCert expandEnv)) !! Cluster.Name c
       = Some (initialCost (Cluster.CostPerHour c))) /\
  (forall name, ~ In name (map Cluster.Name (Clusters cfg)) ->
     health.GetClusterMetrics (healthChecker (NewRouter cfg clock loadCert expandEnv)) name
       = None /\
     cost.clusters (costEngine (NewRouter cfg clock loadCert expandEnv)) !! name = None) /\
  health.GetHealthyMetrics (healthChecker (NewRouter cfg clock loadCert expandEnv)) = ∅ /\
  (forall w t, In t (snd (getAllTargets (NewRouter cfg clock loadCert expandEnv) w)) ->
     Type_ t = "provider").
Proof.
  intros Hnd.
  destruct (NewRouter_registered cfg clock loadCert expandEnv) as (Hhc & Hce & _).
  rewrite Hhc, Hce. unfold registered, health.GetClusterMetrics.
  pose proof (registerLoop clock loadCert (HealthCheckInterval (RouterCfg cfg))
                (OverheadFactor (RouterCfg cfg)) _ Hnd) as Hloop. cbn zeta in Hloop.
  destruct Hloop as [_ Hloop].
  assert (Hempty : health.GetHealthyMetrics
                     (snd (fst (fst (fold_left (registerCluster clock loadCert) (Clusters cfg)
                        (0%nat,
                         health.NewChecker (HealthCheckInterval (RouterCfg cfg)),
                         cost.NewEngine (OverheadFactor (RouterCfg cfg)),
                         forward.NewForwarder))))) = ∅).
  { apply map_empty. intros name. unfold health.GetHealthyMetrics.
    apply map_lookup_filter_None. right. intros m Hm.
    destruct (Hloop name) as (Hl & _). unfold enteredAt in Hl.
    destruct (List.find (named name) (Clusters cfg)).
    - destruct Hl as (i & _ & Hl). rewrite Hl in Hm. injection Hm as <-. cbn. discriminate.
    - congruence. }
  split; [|split; [|split; [exact Hempty|]]].
  - intros i c Hc. destruct (Hloop (Cluster.Name c)) as (Hm & Hcost & _).
    rewrite (find_named _ _ Hnd (nth_error_In _ _ Hc)) in Hm, Hcost.
    split; [|exact Hcost].
    destruct Hm as (j & Hj & Hm). rewrite Hm.
    rewrite (position_unique _ _ _ _ Hnd Hj Hc). reflexivity.
  - intros name Hno. destruct (Hloop name) as (Hm & Hcost & _).
    rewrite (find_absent _ _ Hno) in Hm, Hcost. split; assumption.
  - intros w t Hin. rewrite getAllTargets_eq in Hin. cbn [snd] in Hin.
    rewrite Hhc in Hin. unfold registered in Hin. rewrite Hempty in Hin.
    assert (Hnone : forall ks, ranged (V:=health.ClusterMetrics) ∅ ks = []).
    { unfold ranged. induction ks as [|k ks IHk]; [reflexivity|].
      cbn. rewrite lookup_empty. cbn. exact IHk. }
    rewrite Hnone in Hin.
    cbn [List.filter map app] in Hin.
    apply list_elem_of_In, list_elem_of_omap in Hin as ([key p] & _ & Hsome).
    unfold healthyTargetOf in Hsome. destruct (providers.Health _ _); [discriminate|].
    injection Hsome as <-. reflexivity.
Qed.

Lemma NewRouter_clusters_witness :
  health.GetHealthyMetrics (healthChecker (RouterSpec.startedRouter "hybrid")) = ∅.
Proof.
  apply (NewRouter_clusters (RouterSpec.demoConfig "hybrid") (fun _ => 0)
           (fun _ _ => false) (fun key => key)).
  vm_compute. repeat constructor; intros H; repeat (destruct H as [H|H]; [discriminate|]);
    destruct H.
Defined.

(** [NewRouter], when the configured cluster names are distinct: a cluster
    configured with [authType: hmac] has its requests signed with its own
    shared secret, so that a receiver holding that secret accepts them
    within the window; for any other [authType] (mtls, empty, or a
    misspelling of hmac) requests leave as they came, without
    authentication headers; and a cluster gets a client certificate only
    if its [authType] is mtls, both file names are given and the key pair
    loads, a failure to load being ignored. *)
Theorem NewRouter_authentication (cfg : Config) (clock : nat -> Time)
    (loadCert : string -> string -> bool) (expandEnv : string -> string)
    (c : Cluster.ClusterConfig) :
  List.NoDup (map Cluster.Name (Clusters cfg)) ->
  In c (Clusters cfg) ->
  (Cluster.AuthType c = "hmac" ->
   forall req body ts t, Int64.inRange ts -> Int64.inRange t -> Z.abs (t - ts) <= 300 ->
     forward.ValidateHMACSignature
       (forward.addAuthentication (forwarder (NewRouter cfg clock loadCert expandEnv)) req
          (Cluster.Name c) body ts)
       (Cluster.SharedSecret c) body t = true) /\
  (Cluster.AuthType c <> "hmac" ->
   forall req body ts,
     forward.addAuthentication (forwarder (NewRouter cfg clock loadCert expandEnv)) req
       (Cluster.Name c) body ts = req) /\
  forward.getClientForCluster (forwarder (NewRouter cfg clock loadCert expandEnv))
    (Cluster.Name c)
  = tlsOf loadCert c.
Proof.
  intros Hnd Hin.
  destruct (NewRouter_registered cfg clock loadCert expandEnv) as (_ & _ & Hfw).
  rewrite Hfw. unfold registered.
  destruct (registerLoop clock loadCert (HealthCheckInterval (RouterCfg cfg))
              (OverheadFactor (RouterCfg cfg)) _ Hnd) as [_ Hloop].
  destruct (Hloop (Cluster.Name c)) as (_ & _ & Hs & Ht).
  rewrite (find_named _ _ Hnd Hin) in Hs, Ht. cbn in Hs, Ht.
  split; [|split; [|exact Ht]].
  - intros Hh req body ts t Hts Htr Hw.
    unfold forward.addAuthentication. rewrite Hs. unfold secretOf. rewrite Hh. cbn.
    change (forward.addHMACAuth req (Cluster.SharedSecret c) body ts)
      with {| http.Method := http.Method req; http.Path := http.Path req;
              http.Header :=
                http.Header (forward.addHMACAuth req (Cluster.SharedSecret c) body ts) |}.
    rewrite ForwardSpec.validate_signed by (try assumption; lia).
    destruct (Z.ltb_spec 300 (Z.abs (t - ts))); [lia|]. apply String.eqb_refl.
  - intros Hh req body ts. unfold forward.addAuthentication. rewrite Hs.
    unfold secretOf. rewrite (proj2 (String.eqb_neq _ _) Hh). reflexivity.
Qed.

Definition gpuA : Cluster.ClusterConfig :=
  Cluster.mkClusterConfig "gpu-a" "http://gpu-a:8080" "us-east-1" "aws" 1.5
    "hmac" "s3cr3t" "" "".

Lemma NewRouter_authentication_witness :
  forward.ValidateHMACSignature
    (forward.addAuthentication (forwarder (RouterSpec.startedRouter "hybrid"))
       ForwardMore.plainRequest "gpu-a" "{}" 1700000000)
    "s3cr3t" "{}" 1700000100 = true.
Proof.
  assert (Hnd : List.NoDup (map Cluster.Name (Clusters (RouterSpec.demoConfig "hybrid")))).
  { vm_compute. repeat constructor; intros H;
      repeat (destruct H as [H|H]; [discriminate|]); destruct H. }
  assert (Hin : In gpuA (Clusters (RouterSpec.demoConfig "hybrid")))
    by (left; reflexivity).
  apply (proj1 (NewRouter_authentication (RouterSpec.demoConfig "hybrid") (fun _ => 0)
                  (fun _ _ => false) (fun key => key) gpuA Hnd Hin) eq_refl
           ForwardMore.plainRequest "{}" 1700000000 1700000100);
    unfold Int64.inRange, Int64.minInt, Int64.maxInt; lia.
Defined.

(** The adapter the second loop of [NewRouter] builds for a
    configuration, if any: the one of the configured type, made from the
    configuration with the environment variables of its API key
    expanded. *)
Definition adapterFor (expandEnv : string -> string) (pc : providers.ProviderConfig)
    : option providers.adapter :=
  if negb (providers.Enabled pc) then None
  else
    let expanded := providers.withAPIKey pc (expandEnv (providers.APIKey pc)) in
    if String.eqb (providers.Type_ pc) "openai" then
      Some (providers.OpenAIAdapter (providers.OpenAI.NewOpenAIProvider expanded))
    else if String.eqb (providers.Type_ pc) "claude" then
      Some (providers.ClaudeAdapter (providers.Claude.NewClaudeProvider expanded))
    else if String.eqb (providers.Type_ pc) "gemini" then
      Some (providers.GeminiAdapter (providers.Gemini.NewGeminiProvider expanded))
    else None.

(** The configuration an adapter holds. *)
Definition configOf (a : providers.adapter) : providers.ProviderConfig :=
  match a with
  | providers.OpenAIAdapter p => providers.OpenAI.config p
  | providers.ClaudeAdapter p => providers.Claude.config p
  | providers.GeminiAdapter p => providers.Gemini.config p
  end.

(** The body of the second loop of [NewRouter]. *)
Definition registerProvider (expandEnv : string -> string)
    (pm : providers.ProviderManager) (providerConfig : providers.ProviderConfig)
    : providers.ProviderManager :=
  if negb (providers.Enabled providerConfig) then pm
  else
    let apiKey := expandEnv (providers.APIKey providerConfig) in
    let providerConfig := providers.withAPIKey providerConfig apiKey in
    if String.eqb (providers.Type_ providerConfig) "openai" then
      providers.RegisterProvider pm
        (providers.OpenAIAdapter (providers.OpenAI.NewOpenAIProvider providerConfig))
    else if String.eqb (providers.Type_ providerConfig) "claude" then
      providers.RegisterProvider pm
        (providers.ClaudeAdapter (providers.Claude.NewClaudeProvider providerConfig))
    else if String.eqb (providers.Type_ providerConfig) "gemini" then
      providers.RegisterProvider pm
        (providers.GeminiAdapter (providers.Gemini.NewGeminiProvider providerConfig))
    else pm.

Lemma NewRouter_providerManager cfg clock loadCert expandEnv :
  providerManager (NewRouter cfg clock loadCert expandEnv)
  = fold_left (registerProvider expandEnv) (ExternalProviders cfg)
      providers.NewProviderManager.
Proof.
  unfold NewRouter. fold (registerProvider expandEnv).
  destruct (fold_left _ (Clusters cfg) _) as [[[i hc] ce] fw]. reflexivity.
Qed.

Lemma adapterFor_config expandEnv pc a :
  adapterFor expandEnv pc = Some a ->
  providers.GetName a = providers.Name pc /\
  providers.APIKey (configOf a) = expandEnv (providers.APIKey pc) /\
  providers.DefaultModel (configOf a) = providers.DefaultModel pc.
Proof.
  unfold adapterFor. destruct (negb _); [discriminate|].
  destruct (String.eqb _ "openai"); [intros [= <-]; repeat split|].
  destruct (String.eqb _ "claude"); [intros [= <-]; repeat split|].
  destruct (String.eqb _ "gemini"); [intros [= <-]; repeat split|discriminate].
Qed.

Lemma registerProvider_eq expandEnv pm pc :
  registerProvider expandEnv pm pc
  = match adapterFor expandEnv pc with
    | Some a => providers.RegisterProvider pm a
    | None => pm
    end.
Proof.
  unfold registerProvider, adapterFor. destruct (negb _); [reflexivity|].
  cbn [providers.withAPIKey providers.Type_].
  destruct (String.eqb _ "openai"); [reflexivity|].
  destruct (String.eqb _ "claude"); [reflexivity|].
  destruct (String.eqb _ "gemini"); reflexivity.
Qed.

Lemma providerLoop_registered expandEnv (l : list providers.ProviderConfig) : forall name,
  providers.GetProvider
    (fold_left (registerProvider expandEnv) l providers.NewProviderManager) name
  = last (omap (fun pc => if String.eqb (providers.Name pc) name
                          then adapterFor expandEnv pc else None) l).
Proof.
  induction l as [|pc l IH] using rev_ind; intros name.
  - reflexivity.
  - rewrite fold_left_snoc, omap_app, registerProvider_eq. cbn [omap list_omap].
    specialize (IH name). unfold providers.GetProvider in *.
    destruct (adapterFor expandEnv pc) as [a|] eqn:Ha.
    + unfold providers.RegisterProvider. cbn [providers.providers].
      rewrite (proj1 (adapterFor_config _ _ _ Ha)).
      destruct (String.eqb_spec (providers.Name pc) name) as [->|Hne].
      * rewrite lookup_insert_eq, last_snoc. reflexivity.
      * rewrite lookup_insert_ne by exact Hne. rewrite app_nil_r. exact IH.
    + destruct (String.eqb (providers.Name pc) name); rewrite app_nil_r; exact IH.
Qed.

(** [NewRouter] registers a provider for a configuration only if it is
    enabled and of type openai, claude or gemini, under the configured
    name and with the adapter of that type; the adapter holds the API key
    of the configuration with its environment variables expanded, while
    the router's configuration keeps the key as written; configurations
    that are disabled or of another type are skipped; and where several
    registrable configurations share a name the last one replaces the
    others. *)
Theorem NewRouter_providers (cfg : Config) (clock : nat -> Time)
    (loadCert : string -> string -> bool) (expandEnv : string -> string) (name : string) :
  providers.GetProvider (providerManager (NewRouter cfg clock loadCert expandEnv)) name
  = last (omap (fun pc => if String.eqb (providers.Name pc) name
                          then adapterFor expandEnv pc else None)
            (ExternalProviders cfg)) /\
  (forall a,
     providers.GetProvider (providerManager (NewRouter cfg clock loadCert expandEnv)) name
     = Some a ->
     providers.GetName a = name /\
     exists pc, In pc (ExternalProviders cfg) /\ providers.Name pc = name /\
       providers.Enabled pc = true /\
       (providers.Type_ pc = "openai" \/ providers.Type_ pc = "claude" \/
        providers.Type_ pc = "gemini") /\
       adapterFor expandEnv pc = Some a /\
       providers.APIKey (configOf a) = expandEnv (providers.APIKey pc)) /\
  ((forall pc, In pc (ExternalProviders cfg) -> providers.Name pc = name ->
      providers.Enabled pc = false \/
      (providers.Type_ pc <> "openai" /\ providers.Type_ pc <> "claude" /\
       providers.Type_ pc <> "gemini")) ->
   providers.GetProvider (providerManager (NewRouter cfg clock loadCert expandEnv)) name
   = None) /\
  config (NewRouter cfg clock loadCert expandEnv) = cfg.
Proof.
  rewrite NewRouter_providerManager, providerLoop_registered.
  set (f := fun pc => if String.eqb (providers.Name pc) name
                      then adapterFor expandEnv pc else None).
  split; [reflexivity|]. split; [|split].
  - intros a Hlast. apply last_Some in Hlast as [l' Hl'].
    assert (Hin : a ∈ omap f (ExternalProviders cfg))
      by (rewrite Hl'; apply list_elem_of_In, in_or_app; right; left; reflexivity).
    apply list_elem_of_omap in Hin as (pc & Hpc & Hf). unfold f in Hf.
    destruct (String.eqb_spec (providers.Name pc) name) as [Hn|]; [|discriminate].
    destruct (adapterFor_config _ _ _ Hf) as (Hname & Hkey & _).
    split; [rewrite Hname; exact Hn|].
    exists pc. split; [apply list_elem_of_In, Hpc|]. split; [exact Hn|].
    split; [|split; [|split; [exact Hf|exact Hkey]]]; unfold adapterFor in Hf;
      destruct (providers.Enabled pc); try discriminate; [reflexivity|].
    cbn [negb] in Hf.
    destruct (String.eqb_spec (providers.Type_ pc) "openai"); [auto|].
    destruct (String.eqb_spec (providers.Type_ pc) "claude"); [auto|].
    destruct (String.eqb_spec (providers.Type_ pc) "gemini"); [auto|discriminate].
  - intros Hskip.
    replace (omap f (ExternalProviders cfg)) with (@nil providers.adapter); [reflexivity|].
    symmetry. induction (ExternalProviders cfg) as [|pc l IHl]; [reflexivity|].
    cbn [omap list_omap].
    replace (f pc) with (@None providers.adapter).
    + apply IHl. intros pc' Hin. apply Hskip. right. exact Hin.
    + unfold f. destruct (String.eqb_spec (providers.Name pc) name) as [Hn|]; [|reflexivity].
      unfold adapterFor.
      destruct (Hskip pc (or_introl eq_refl) Hn) as [->|(H1 & H2 & H3)]; [reflexivity|].
      destruct (negb _); [reflexivity|].
      rewrite (proj2 (String.eqb_neq _ _) H1), (proj2 (String.eqb_neq _ _) H2),
        (proj2 (String.eqb_neq _ _) H3). reflexivity.
  - unfold NewRouter. destruct (fold_left _ (Clusters cfg) _) as [[[i hc] ce] fw].
    reflexivity.
Qed.

(** A key given as [${OPENAI_API_KEY}]: the adapter holds its value. *)
Example NewRouter_expands_key :
  configOf <$>
    providers.GetProvider
      (providerManager
         (NewRouter
            {| Clusters := [];
               ExternalProviders :=
                 [providers.mkProviderConfig "openai" "openai" "${OPENAI_API_KEY}" ""
                    "gpt-4" true];
               RouterCfg := mkRouterConfig 30 5000 10 1.1 "hybrid" true 0.01 |}
            (fun _ => 0) (fun _ _ => false)
            (fun key => if String.eqb key "${OPENAI_API_KEY}" then "sk-live" else key)))
      "openai"
  = Some (providers.mkProviderConfig "openai" "openai" "sk-live" "https://api.openai.com"
            "gpt-4" true).
Proof. vm_compute. reflexivity. Qed.

(** *** [healthHandler] against the candidate list *)

Lemma ranged_length {V} (m : gmap string V) order :
  (length (ranged m order) <= length order)%nat.
Proof.
  unfold ranged. induction order as [|k order IH]; [simpl; lia|].
  cbn. destruct (m !! k); cbn; lia.
Qed.

Lemma omap_length {A B} (f : A -> option B) l : (length (omap f l) <= length l)%nat.
Proof.
  induction l as [|a l IH]; [simpl; lia|].
  change (omap f (a :: l))
    with (match f a with Some b => b :: omap f l | None => omap f l end).
  destruct (f a); simpl; lia.
Qed.

Lemma ranged_NoDup {V} (m : gmap string V) order :
  List.NoDup order -> NoDup (ranged m order).
Proof.
  unfold ranged. induction order as [|k order IH]; intros Hnd; [constructor|].
  apply List.NoDup_cons_iff in Hnd as [Hk Hnd]. cbn.
  destruct (m !! k) as [v|]; cbn; [|apply IH, Hnd].
  constructor; [|apply IH, Hnd].
  intros Hin. apply list_elem_of_omap in Hin as (k' & Hk' & Hsome).
  destruct (m !! k'); [|discriminate]. injection Hsome as -> _.
  apply Hk, list_elem_of_In, Hk'.
Qed.

Lemma ranged_size {V} (m : gmap string V) order :
  List.NoDup order -> (length (ranged m order) <= size m)%nat.
Proof.
  intros Hnd. rewrite <- (length_map_to_list m).
  apply submseteq_length, NoDup_submseteq; [apply ranged_NoDup, Hnd|].
  intros [k v] Hin. apply elem_of_map_to_list.
  apply list_elem_of_In, ranged_lookup in Hin. exact Hin.
Qed.

Lemma healthyProviders_count w entries : forall n,
  Int64.inRange n ->
  n + Z.of_nat (length entries) <= Int64.maxInt ->
  fold_left
    (fun healthyProviders (entry : string * providers.adapter) =>
       match providers.Health (snd entry) (providerCall w (fst entry)) with
       | None => Int64.incr healthyProviders
       | Some _ => healthyProviders
       end) entries n
  = n + Z.of_nat (length (omap (healthyTargetOf w) entries)).
Proof.
  induction entries as [|[key p] entries IH]; intros n Hn Hbound.
  - simpl. lia.
  - cbn [fold_left fst snd].
    change (omap (healthyTargetOf w) ((key, p) :: entries))
      with (match healthyTargetOf w (key, p) with
            | Some t => t :: omap (healthyTargetOf w) entries
            | None => omap (healthyTargetOf w) entries
            end).
    unfold healthyTargetOf at 1. cbn [fst snd].
    cbn [length] in Hbound. unfold Int64.inRange, Int64.minInt, Int64.maxInt in *.
    destruct (providers.Health p (providerCall w key)).
    + apply IH; [exact Hn|lia].
    + unfold Int64.incr, Int64.add.
      rewrite Int64Facts.wrap_small
        by (unfold Int64.inRange, Int64.minInt, Int64.maxInt; lia).
      rewrite IH by lia. cbn [length]. lia.
Qed.

(** [healthHandler] always reports the status [healthy]. Its two counts
    bound the candidate list of a request made at the same moment: the
    number of healthy providers is the number of provider candidates and,
    each healthy cluster being visited once, there are no more candidates
    than healthy clusters and providers together. So when it reports no
    healthy cluster and no healthy provider, still under the status
    [healthy], every request is answered 503. *)
Theorem healthHandler_spec (r : Router) (w : world) (endpoint : string) :
  Z.of_nat (length (providerOrder w)) <= Int64.maxInt ->
  List.NoDup (clusterOrder w) ->
  status (healthHandler r w) = "healthy" /\
  healthy_providers (healthHandler r w)
  = Z.of_nat (length (List.filter (fun t => String.eqb (Type_ t) "provider")
                        (snd (getAllTargets r w)))) /\
  Z.of_nat (length (snd (getAllTargets r w)))
  <= healthy_clusters (healthHandler r w) + healthy_providers (healthHandler r w) /\
  (healthy_clusters (healthHandler r w) = 0 ->
   healthy_providers (healthHandler r w) = 0 ->
   snd (handleLLMRequest r w endpoint)
   = [HttpError 503 "No available targets: no healthy targets available";
      CounterInc "llm_router_requests_total" ["none"; "503"]]).
Proof.
  intros Hbound Hnd.
  assert (Hcount : healthy_providers (healthHandler r w)
            = Z.of_nat (length (omap (healthyTargetOf w)
                 (ranged (providers.GetAllProviders (providerManager r))
                    (providerOrder w))))).
  { unfold healthHandler. cbn [healthy_providers].
    rewrite healthyProviders_count; [lia|unfold Int64.inRange, Int64.minInt, Int64.maxInt; lia|].
    pose proof (ranged_length (providers.GetAllProviders (providerManager r))
                  (providerOrder w)). lia. }
  assert (Hclusters : (length (List.filter (withinLimits (config r))
                         (ranged (health.GetHealthyMetrics (healthChecker r))
                            (clusterOrder w)))
                       <= size (health.GetHealthyMetrics (healthChecker r)))%nat).
  { etransitivity; [apply List.filter_length_le|]. apply ranged_size, Hnd. }
  assert (Hprov : forall l, List.filter (fun t => String.eqb (Type_ t) "provider")
                              (omap (healthyTargetOf w) l) = omap (healthyTargetOf w) l).
  { intros l. apply List.forallb_filter_id, List.forallb_forall. intros t Ht.
    apply list_elem_of_In, list_elem_of_omap in Ht as (e & _ & Hsome).
    unfold healthyTargetOf in Hsome. destruct (providers.Health _ _); [discriminate|].
    injection Hsome as <-. reflexivity. }
  assert (Hclus : forall l, List.filter (fun t => String.eqb (Type_ t) "provider")
                              (map (clusterTargetOf r) l) = []).
  { intros l. induction l as [|e l IHl]; [reflexivity|exact IHl]. }
  split; [reflexivity|]. split; [|split].
  - rewrite Hcount, getAllTargets_eq. cbn [snd].
    rewrite List.filter_app, Hclus, Hprov. reflexivity.
  - rewrite Hcount, getAllTargets_eq. cbn [snd]. rewrite length_app, length_map.
    unfold healthHandler at 1. cbn [healthy_clusters]. lia.
  - intros Hc Hp.
    assert (Hempty : snd (getAllTargets r w) = []).
    { rewrite getAllTargets_eq. cbn [snd].
      rewrite Hcount in Hp. unfold healthHandler in Hc. cbn [healthy_clusters] in Hc.
      destruct (omap (healthyTargetOf w) _); [|cbn [length] in Hp; lia].
      destruct (List.filter _ _); [reflexivity|]. cbn [length] in Hclusters. lia. }
    unfold handleLLMRequest. rewrite (selectTarget_empty r w Hempty). reflexivity.
Qed.

(** At start-up, the provider rate-limited: nothing is healthy, the status
    is [healthy], the request is refused. *)
Lemma healthHandler_spec_witness :
  status (healthHandler (RouterSpec.startedRouter "hybrid") RouterSpec.providerLimited)
    = "healthy" /\
  healthy_clusters (healthHandler (RouterSpec.startedRouter "hybrid")
                      RouterSpec.providerLimited) = 0 /\
  healthy_providers (healthHandler (RouterSpec.startedRouter "hybrid")
                       RouterSpec.providerLimited) = 0 /\
  snd (handleLLMRequest (RouterSpec.startedRouter "hybrid") RouterSpec.providerLimited
         "/v1/chat/completions")
  = [HttpError 503 "No available targets: no healthy targets available";
     CounterInc "llm_router_requests_total" ["none"; "503"]].
Proof.
  assert (Hb : Z.of_nat (length (providerOrder RouterSpec.providerLimited)) <= Int64.maxInt)
    by (vm_compute; discriminate).
  assert (Hnd : List.NoDup (clusterOrder RouterSpec.providerLimited)).
  { vm_compute. repeat constructor; intros H;
      repeat (destruct H as [H|H]; [discriminate|]); destruct H. }
  destruct (healthHandler_spec (RouterSpec.startedRouter "hybrid")
              RouterSpec.providerLimited "/v1/chat/completions" Hb Hnd)
    as (Hs & _ & _ & H503).
  split; [exact Hs|].
  split; [vm_compute; reflexivity|]. split; [vm_compute; reflexivity|].
  apply H503; vm_compute; reflexivity.
Defined.

(** *** [refreshMetrics] *)














End RouterMore.

(* ================================================================== *)
(** ** One tick of the health checker                                  *)
(* ================================================================== *)

Module HealthTick.
Import health.
















End HealthTick.

(* ================================================================== *)
(** ** The request and response conversions of the adapters            *)
(* ================================================================== *)

Module ConversionSpec.
Import providers json.

Lemma lookup_copyKey src from to dst k :
  copyKey src from to dst !! k
  = if String.eqb to k
    then match src !! from with Some v => Some v | None => dst !! k end
    else dst !! k.
Proof.
  unfold copyKey. destruct (String.eqb_spec to k) as [->|Hne].
  - destruct (src !! from); [apply lookup_insert_eq|reflexivity].
  - destruct (src !! from); [apply lookup_insert_ne, Hne|reflexivity].
Qed.

Lemma size_positive {V} (m : gmap string V) :
  (0 <? size m)%nat = false <-> m = ∅.
Proof.
  rewrite <- map_size_empty_iff.
  destruct (Nat.ltb_spec 0 (size m)); split; intros; lia || discriminate.
Qed.

(** *** Gemini: the request *)

(** One turn of a Gemini conversation. *)
Definition turn (role text : string) : value :=
  JObject (<["role" := JString role]>
          (<["parts" := JArray [JObject (<["text" := JString text]> ∅)]]> ∅)).

(** The turn a chat message becomes: none unless the message is an object
    with a string as content and a role other than [system]; the role
    [assistant] becomes [model], every other role, also a missing one or
    one that is not a string, becomes [user]. *)
Definition turnOf (msg : value) : option value :=
  match msg with
  | JObject m =>
      match m !! "content", asString (m !! "role") with
      | Some (JString content), Some r =>
          if String.eqb r "system" then None
          else Some (turn (if String.eqb r "assistant" then "model" else "user") content)
      | Some (JString content), None => Some (turn "user" content)
      | _, _ => None
      end
  | _ => None
  end.

Lemma convertMessage_turnOf parts msg :
  Gemini.convertMessage parts msg
  = match turnOf msg with Some t => parts ++ [t] | None => parts end.
Proof.
  unfold Gemini.convertMessage, turnOf.
  destruct msg as [| | | | |l|m]; try reflexivity. cbn [asMap].
  destruct (asString (m !! "role")) as [r|].
  - destruct (String.eqb r "assistant") eqn:Ha.
    + apply String.eqb_eq in Ha. subst r. cbn [String.eqb Ascii.eqb Bool.eqb].
      destruct (m !! "content") as [[]|]; reflexivity.
    + destruct (String.eqb r "system"); destruct (m !! "content") as [[]|]; reflexivity.
  - destruct (m !! "content") as [[]|]; reflexivity.
Qed.

Lemma convertMessages_turns messages : forall parts,
  fold_left Gemini.convertMessage messages parts = parts ++ omap turnOf messages.
Proof.
  induction messages as [|msg messages IH]; intros parts.
  - simpl. rewrite app_nil_r. reflexivity.
  - cbn [fold_left]. rewrite IH, convertMessage_turnOf.
    change (omap turnOf (msg :: messages))
      with (match turnOf msg with
            | Some t => t :: omap turnOf messages
            | None => omap turnOf messages
            end).
    destruct (turnOf msg); [rewrite <- app_assoc|]; reflexivity.
Qed.

Lemma turnOf_roles msg t :
  turnOf msg = Some t -> exists role text, t = turn role text /\ (role = "user" \/ role = "model").
Proof.
  unfold turnOf. destruct msg as [| | | | |l|m]; try discriminate.
  destruct (m !! "content") as [[| | | |content| |]|]; try discriminate;
    try (destruct (asString _); discriminate).
  destruct (asString (m !! "role")) as [r|].
  - destruct (String.eqb r "system"); [discriminate|].
    intros [= <-]. destruct (String.eqb r "assistant"); eauto.
  - intros [= <-]. eauto.
Qed.

Definition sent (p : Gemini.GeminiProvider) (requestData : gmap string value)
    : gmap string value :=
  fst (Gemini.convertToGeminiFormat p requestData).

Definition modelOf (p : Gemini.GeminiProvider) (requestData : gmap string value) : string :=
  snd (Gemini.convertToGeminiFormat p requestData).

(** [convertToGeminiFormat].
    - The model is never empty: a non-empty string under [model] in the
      request is used as it is; the configured default is used only when
      the request has no string there; an empty string in the request
      gives [gemini-pro], whatever the default.
    - Only [contents] and [generationConfig] are sent: every other field
      of the request is dropped.
    - Without an array under [messages], [contents] is the empty array.
      With one, [contents] holds, in order, one turn per message that is an
      object with a string as content and a role other than [system]; the
      turns carry the role [model] for [assistant] and [user] otherwise,
      so no other role is ever sent; and when no message gives a turn,
      [contents] is rendered as [null], not as an empty array.
    - [generationConfig] is sent only if the request has [temperature],
      [top_p] or [max_tokens], which it then carries unchanged as
      [temperature], [topP] and [maxOutputTokens]. *)
Theorem convertToGeminiFormat_spec (p : Gemini.GeminiProvider)
    (requestData : gmap string value) :
  (String.eqb (modelOf p requestData) "" = false /\
   (forall m, requestData !! "model" = Some (JString m) ->
      modelOf p requestData = if String.eqb m "" then "gemini-pro" else m) /\
   (asString (requestData !! "model") = None ->
      modelOf p requestData
      = if String.eqb (DefaultModel (Gemini.config p)) "" then "gemini-pro"
        else DefaultModel (Gemini.config p))) /\
  (forall key, key <> "contents" -> key <> "generationConfig" ->
     sent p requestData !! key = None) /\
  (asSlice (requestData !! "messages") = None ->
     sent p requestData !! "contents" = Some (JArray [])) /\
  (forall messages, requestData !! "messages" = Some (JArray messages) ->
     sent p requestData !! "contents" = Some (match omap turnOf messages with
                               | [] => JNull
                               | turns => JArray turns
                               end) /\
     (length (omap turnOf messages) <= length messages)%nat /\
     Forall (fun t => exists role text,
                        t = turn role text /\ (role = "user" \/ role = "model"))
            (omap turnOf messages)) /\
  ((requestData !! "temperature" = None /\ requestData !! "top_p" = None /\
    requestData !! "max_tokens" = None) ->
   sent p requestData !! "generationConfig" = None) /\
  (forall g, sent p requestData !! "generationConfig" = Some g ->
     exists cfg, g = JObject cfg /\
       cfg !! "temperature" = requestData !! "temperature" /\
       cfg !! "topP" = requestData !! "top_p" /\
       cfg !! "maxOutputTokens" = requestData !! "max_tokens" /\
       forall key, key <> "temperature" -> key <> "topP" -> key <> "maxOutputTokens" ->
                   cfg !! key = None).
Proof.
  unfold sent, modelOf, Gemini.convertToGeminiFormat. cbn [fst snd].
  set (cfg := copyKey requestData "max_tokens" "maxOutputTokens"
                (copyKey requestData "top_p" "topP"
                   (copyKey requestData "temperature" "temperature" ∅))).
  set (base := match asSlice (requestData !! "messages") with
               | Some messages =>
                   <["contents" := match fold_left Gemini.convertMessage messages [] with
                                   | [] => JNull
                                   | _ :: _ => JArray (fold_left Gemini.convertMessage messages [])
                                   end]> (<["contents" := JArray []]> ∅)
               | None => <["contents" := JArray []]> ∅
               end).
  assert (Hcfg : forall key, cfg !! key
            = if String.eqb "maxOutputTokens" key then requestData !! "max_tokens"
              else if String.eqb "topP" key then requestData !! "top_p"
              else if String.eqb "temperature" key then requestData !! "temperature"
              else None).
  { intros key. unfold cfg. rewrite !lookup_copyKey, lookup_empty.
    destruct (String.eqb "maxOutputTokens" key) eqn:E1.
    - apply String.eqb_eq in E1. subst key. cbn.
      destruct (requestData !! "max_tokens"); [reflexivity|].
      destruct (requestData !! "top_p"); reflexivity.
    - destruct (String.eqb "topP" key) eqn:E2.
      + apply String.eqb_eq in E2. subst key. cbn.
        destruct (requestData !! "top_p"); reflexivity.
      + destruct (String.eqb "temperature" key); [|reflexivity].
        destruct (requestData !! "temperature"); reflexivity. }
  assert (Hbase : forall key, key <> "contents" -> base !! key = None).
  { intros key Hk. unfold base. destruct (asSlice _).
    - rewrite !lookup_insert_ne by congruence. apply lookup_empty.
    - rewrite lookup_insert_ne by congruence. apply lookup_empty. }
  assert (Hout : forall key, key <> "generationConfig" ->
            (if (0 <? size cfg)%nat then <["generationConfig" := JObject cfg]> base else base)
              !! key = base !! key).
  { intros key Hk. destruct (0 <? size cfg)%nat; [|reflexivity].
    apply lookup_insert_ne. congruence. }
  split; [|split; [|split; [|split; [|split]]]].
  - split; [|split].
    + destruct (asString (requestData !! "model")) as [m|].
      * destruct (String.eqb m "") eqn:E; [reflexivity|exact E].
      * destruct (String.eqb (DefaultModel (Gemini.config p)) "") eqn:E; [reflexivity|exact E].
    + intros m ->. reflexivity.
    + intros ->. reflexivity.
  - intros key H1 H2. rewrite Hout by exact H2. apply Hbase, H1.
  - intros Hno. rewrite Hout by discriminate. unfold base. rewrite Hno.
    apply lookup_insert_eq.
  - intros messages Hm. rewrite Hout by discriminate. unfold base. rewrite Hm.
    cbn [asSlice]. rewrite lookup_insert_eq, convertMessages_turns. cbn [app].
    split; [destruct (omap turnOf messages); reflexivity|]. split.
    + clear. induction messages as [|msg messages IH]; [simpl; lia|].
      change (omap turnOf (msg :: messages))
        with (match turnOf msg with
              | Some t => t :: omap turnOf messages
              | None => omap turnOf messages
              end).
      destruct (turnOf msg); simpl; lia.
    + apply Forall_forall. intros t Ht. apply list_elem_of_omap in Ht as (msg & _ & Ht).
      apply (turnOf_roles _ _ Ht).
  - intros (Ht & Hp & Hm).
    assert (Hempty : cfg = ∅).
    { apply map_empty. intros key. rewrite Hcfg, Ht, Hp, Hm.
      destruct (String.eqb _ key); [reflexivity|].
      destruct (String.eqb _ key); [reflexivity|].
      destruct (String.eqb _ key); reflexivity. }
    rewrite (proj2 (size_positive cfg) Hempty). apply Hbase. discriminate.
  - intros g Hg. destruct (0 <? size cfg)%nat.
    + rewrite lookup_insert_eq in Hg. injection Hg as <-. exists cfg.
      split; [reflexivity|]. rewrite !Hcfg. cbn.
      split; [reflexivity|]. split; [reflexivity|]. split; [reflexivity|].
      intros key H1 H2 H3. rewrite Hcfg.
      rewrite (proj2 (String.eqb_neq _ _) (not_eq_sym H3)),
        (proj2 (String.eqb_neq _ _) (not_eq_sym H2)),
        (proj2 (String.eqb_neq _ _) (not_eq_sym H1)). reflexivity.
    + rewrite Hbase in Hg by discriminate. discriminate.
Qed.

(** *** The chat completion both response conversions build *)

Definition choices (content : string) : value :=
  JArray
    [JObject
       (<["index" := JInt 0]>
       (<["message" :=
            JObject (<["role" := JString "assistant"]>
                    (<["content" := JString content]> ∅))]>
       (<["finish_reason" := JString "stop"]> ∅)))].

Definition completion (model : value) (content : string) (idTime created : Z)
    : gmap string value :=
  <["id" := JString ("chatcmpl-" +:+ strconv.FormatInt idTime)]>
  (<["object" := JString "chat.completion"]>
  (<["created" := JInt created]>
  (<["model" := model]>
  (<["choices" := choices content]> ∅)))).

Lemma completion_lookup model content idTime created :
  completion model content idTime created !! "id"
    = Some (JString ("chatcmpl-" +:+ strconv.FormatInt idTime)) /\
  completion model content idTime created !! "object" = Some (JString "chat.completion") /\
  completion model content idTime created !! "created" = Some (JInt created) /\
  completion model content idTime created !! "model" = Some model /\
  completion model content idTime created !! "choices" = Some (choices content) /\
  forall key, key <> "id" -> key <> "object" -> key <> "created" -> key <> "model" ->
              key <> "choices" -> completion model content idTime created !! key = None.
Proof.
  unfold completion. repeat split.
  intros key H1 H2 H3 H4 H5. rewrite !lookup_insert_ne by congruence. apply lookup_empty.
Qed.

(** *** Gemini: the response *)

(** The text [extractGeminiContent] looks for: the [text], a string, of the
    first of the [parts], an array, of the [content], an object, of the
    first of the [candidates], an array; each of the two first elements
    being an object. *)
Definition geminiText (geminiData : gmap string value) (text : string) : Prop :=
  exists candidate rest content part parts,
    geminiData !! "candidates" = Some (JArray (JObject candidate :: rest)) /\
    candidate !! "content" = Some (JObject content) /\
    content !! "parts" = Some (JArray (JObject part :: parts)) /\
    part !! "text" = Some (JString text).

(** [convertFromGeminiFormat].
    - A response that does not parse gives the error object.
    - A response that parses always gives a chat completion, with the
      model of the request, the times of the conversion, one choice whose
      finish reason is [stop] and no [error] field: the content is the text
      of the first part of the first candidate, and the empty string in
      every other case, whether there are no candidates, an empty array of
      them, a first candidate without content, without parts or without a
      text, or an error body.
    - [usage] is present only if [usageMetadata] is an object with one of
      the three counts, which it then carries unchanged under the names
      [prompt_tokens], [completion_tokens] and [total_tokens]. *)
Theorem convertFromGeminiFormat_spec (p : Gemini.GeminiProvider) (model : string)
    (idTime created : Z) :
  Gemini.convertFromGeminiFormat p None model idTime created
  = <["error" := JObject (<["message" := JString "Failed to parse Gemini response"]>
                         (<["type" := JString "api_error"]> ∅))]> ∅ /\
  (forall geminiData key, key <> "usage" ->
     Gemini.convertFromGeminiFormat p (Some geminiData) model idTime created !! key
     = completion (JString model) (Gemini.extractGeminiContent geminiData) idTime created
         !! key) /\
  (forall geminiData text,
     geminiText geminiData text -> Gemini.extractGeminiContent geminiData = text) /\
  (forall geminiData,
     (forall text, ~ geminiText geminiData text) ->
     Gemini.extractGeminiContent geminiData = "") /\
  (forall geminiData, asMap (geminiData !! "usageMetadata") = None ->
     Gemini.convertFromGeminiFormat p (Some geminiData) model idTime created !! "usage"
     = None) /\
  (forall geminiData usageMetadata,
     geminiData !! "usageMetadata" = Some (JObject usageMetadata) ->
     (usageMetadata !! "promptTokenCount" = None ->
      usageMetadata !! "candidatesTokenCount" = None ->
      usageMetadata !! "totalTokenCount" = None ->
      Gemini.convertFromGeminiFormat p (Some geminiData) model idTime created !! "usage"
      = None) /\
     (forall u,
        Gemini.convertFromGeminiFormat p (Some geminiData) model idTime created !! "usage"
        = Some u ->
        exists usage, u = JObject usage /\
          usage !! "prompt_tokens" = usageMetadata !! "promptTokenCount" /\
          usage !! "completion_tokens" = usageMetadata !! "candidatesTokenCount" /\
          usage !! "total_tokens" = usageMetadata !! "totalTokenCount" /\
          forall key, key <> "prompt_tokens" -> key <> "completion_tokens" ->
                      key <> "total_tokens" -> usage !! key = None)).
Proof.
  split; [reflexivity|]. split; [|split; [|split; [|split]]].
  - intros geminiData key Hk. unfold Gemini.convertFromGeminiFormat.
    fold (choices (Gemini.extractGeminiContent geminiData)).
    fold (completion (JString model) (Gemini.extractGeminiContent geminiData)
            idTime created).
    destruct (asMap (geminiData !! "usageMetadata")); [|reflexivity].
    destruct (0 <? size _)%nat; [|reflexivity].
    apply lookup_insert_ne. congruence.
  - intros geminiData text (candidate & rest & content & part & parts &
                            Hc & Hcontent & Hparts & Htext).
    unfold Gemini.extractGeminiContent. rewrite Hc. cbn [asSlice asMap].
    rewrite Hcontent. cbn [asMap]. rewrite Hparts. cbn [asSlice asMap].
    rewrite Htext. reflexivity.
  - intros geminiData Hno. unfold Gemini.extractGeminiContent.
    destruct (geminiData !! "candidates") as [[| | | | |candidates|]|] eqn:Hc;
      try reflexivity.
    destruct candidates as [|[| | | | | |candidate] rest]; try reflexivity.
    cbn [asSlice asMap].
    destruct (candidate !! "content") as [[| | | | | |content]|] eqn:Hcontent;
      try reflexivity.
    cbn [asMap].
    destruct (content !! "parts") as [[| | | | |parts|]|] eqn:Hparts; try reflexivity.
    destruct parts as [|[| | | | | |part] parts]; try reflexivity.
    cbn [asSlice asMap].
    destruct (part !! "text") as [[| | | |text| |]|] eqn:Htext; try reflexivity.
    exfalso. apply (Hno text). exists candidate, rest, content, part, parts. auto.
  - intros geminiData Hno. unfold Gemini.convertFromGeminiFormat. rewrite Hno.
    reflexivity.
  - intros geminiData usageMetadata Hmeta. unfold Gemini.convertFromGeminiFormat.
    rewrite Hmeta. cbn [asMap].
    set (usage := copyKey usageMetadata "totalTokenCount" "total_tokens"
                    (copyKey usageMetadata "candidatesTokenCount" "completion_tokens"
                       (copyKey usageMetadata "promptTokenCount" "prompt_tokens" ∅))).
    assert (Husage : forall key, usage !! key
              = if String.eqb "total_tokens" key then usageMetadata !! "totalTokenCount"
                else if String.eqb "completion_tokens" key
                     then usageMetadata !! "candidatesTokenCount"
                else if String.eqb "prompt_tokens" key
                     then usageMetadata !! "promptTokenCount"
                else None).
    { intros key. unfold usage. rewrite !lookup_copyKey, lookup_empty.
      destruct (String.eqb "total_tokens" key) eqn:E1.
      - apply String.eqb_eq in E1. subst key. cbn.
        destruct (usageMetadata !! "totalTokenCount"); [reflexivity|].
        destruct (usageMetadata !! "candidatesTokenCount"); reflexivity.
      - destruct (String.eqb "completion_tokens" key) eqn:E2.
        + apply String.eqb_eq in E2. subst key. cbn.
          destruct (usageMetadata !! "candidatesTokenCount"); reflexivity.
        + destruct (String.eqb "prompt_tokens" key); [|reflexivity].
          destruct (usageMetadata !! "promptTokenCount"); reflexivity. }
    split.
    + intros H1 H2 H3.
      assert (Hempty : usage = ∅).
      { apply map_empty. intros key. rewrite Husage, H1, H2, H3.
        destruct (String.eqb _ key); [reflexivity|].
        destruct (String.eqb _ key); [reflexivity|].
        destruct (String.eqb _ key); reflexivity. }
      rewrite (proj2 (size_positive usage) Hempty). reflexivity.
    + intros u Hu. destruct (0 <? size usage)%nat.
      * rewrite lookup_insert_eq in Hu. injection Hu as <-. exists usage.
        split; [reflexivity|]. rewrite !Husage. cbn.
        split; [reflexivity|]. split; [reflexivity|]. split; [reflexivity|].
        intros key H1 H2 H3. rewrite Husage.
        rewrite (proj2 (String.eqb_neq _ _) (not_eq_sym H3)),
          (proj2 (String.eqb_neq _ _) (not_eq_sym H2)),
          (proj2 (String.eqb_neq _ _) (not_eq_sym H1)). reflexivity.
      * discriminate.
Qed.

(** *** Claude: the request *)

(** [convertToClaudeFormat].
    - Only [model], [max_tokens], [messages], [temperature], [top_p] and
      [stream] are sent: every other field of the request is dropped.
    - [model] is always sent: the string of the request, also an empty
      one; without a string there, the configured default, or
      [claude-3-haiku-20240307] when none is configured.
    - [max_tokens] is always sent, as an integer: 4096 when the request
      has no number there; for a number, the number without its fraction
      when that is an [int64], and otherwise (a number too large, an
      infinity, a NaN) what the platform's conversion gives, which is not
      specified.
    - [messages] is sent exactly when the request has an array there, and
      unchanged; [temperature], [top_p] and [stream] are sent exactly when
      the request has them, and unchanged. *)
Theorem convertToClaudeFormat_spec (p : Claude.ClaudeProvider)
    (unrepresentable : float -> Z) (requestData : gmap string value) :
  (forall key, key <> "model" -> key <> "max_tokens" -> key <> "messages" ->
     key <> "temperature" -> key <> "top_p" -> key <> "stream" ->
     Claude.convertToClaudeFormat p unrepresentable requestData !! key = None) /\
  Claude.convertToClaudeFormat p unrepresentable requestData !! "model"
  = Some (JString
            match asString (requestData !! "model") with
            | Some m => m
            | None => if String.eqb (DefaultModel (Claude.config p)) ""
                      then "claude-3-haiku-20240307"
                      else DefaultModel (Claude.config p)
            end) /\
  (asFloat64 (requestData !! "max_tokens") = None ->
     Claude.convertToClaudeFormat p unrepresentable requestData !! "max_tokens"
     = Some (JInt 4096)) /\
  (forall f i, requestData !! "max_tokens" = Some (JNumber f) ->
     Claude.truncate f = Some i -> Int64.inRange i ->
     Claude.convertToClaudeFormat p unrepresentable requestData !! "max_tokens"
     = Some (JInt i)) /\
  (forall f, requestData !! "max_tokens" = Some (JNumber f) ->
     (Claude.truncate f = None \/
      exists i, Claude.truncate f = Some i /\ ~ Int64.inRange i) ->
     Claude.convertToClaudeFormat p unrepresentable requestData !! "max_tokens"
     = Some (JInt (unrepresentable f))) /\
  Claude.convertToClaudeFormat p unrepresentable requestData !! "messages"
  = JArray <$> asSlice (requestData !! "messages") /\
  Claude.convertToClaudeFormat p unrepresentable requestData !! "temperature"
  = requestData !! "temperature" /\
  Claude.convertToClaudeFormat p unrepresentable requestData !! "top_p"
  = requestData !! "top_p" /\
  Claude.convertToClaudeFormat p unrepresentable requestData !! "stream"
  = requestData !! "stream".
Proof.
  unfold Claude.convertToClaudeFormat.
  set (m0 := match asString (requestData !! "model") with
             | Some model => <["model" := JString model]> (∅ : gmap string value)
             | None => _
             end).
  set (m1 := match asFloat64 (requestData !! "max_tokens") with
             | Some maxTokens => _
             | None => <["max_tokens" := JInt 4096]> m0
             end).
  set (m2 := match asSlice (requestData !! "messages") with
             | Some messages => <["messages" := JArray messages]> m1
             | None => m1
             end).
  assert (H0 : forall key, key <> "model" -> m0 !! key = None).
  { intros key Hk. unfold m0. destruct (asString _); [|destruct (negb _)];
      rewrite lookup_insert_ne by congruence; apply lookup_empty. }
  assert (H1 : forall key, key <> "max_tokens" -> m1 !! key = m0 !! key).
  { intros key Hk. unfold m1. destruct (asFloat64 _); apply lookup_insert_ne; congruence. }
  assert (H2 : forall key, key <> "messages" -> m2 !! key = m1 !! key).
  { intros key Hk. unfold m2. destruct (asSlice _); [|reflexivity].
    apply lookup_insert_ne. congruence. }
  split; [|split; [|split; [|split; [|split; [|split; [|split; [|split]]]]]]].
  - intros key K1 K2 K3 K4 K5 K6. rewrite !lookup_copyKey.
    rewrite (proj2 (String.eqb_neq _ _) (not_eq_sym K6)),
      (proj2 (String.eqb_neq _ _) (not_eq_sym K5)),
      (proj2 (String.eqb_neq _ _) (not_eq_sym K4)).
    rewrite H2, H1 by assumption. apply H0, K1.
  - rewrite !lookup_copyKey. cbn. rewrite H2, H1 by discriminate. unfold m0.
    destruct (asString _); [apply lookup_insert_eq|].
    destruct (String.eqb (DefaultModel (Claude.config p)) ""); apply lookup_insert_eq.
  - intros Hno. rewrite !lookup_copyKey. cbn. rewrite H2 by discriminate.
    unfold m1. rewrite Hno. apply lookup_insert_eq.
  - intros f i Hf Ht Hi. rewrite !lookup_copyKey. cbn. rewrite H2 by discriminate.
    unfold m1. rewrite Hf. cbn [asFloat64]. rewrite lookup_insert_eq.
    unfold Claude.intOf. rewrite Ht.
    destruct Hi as [Hlo Hhi].
    rewrite (proj2 (Z.leb_le _ _) Hlo), (proj2 (Z.leb_le _ _) Hhi). reflexivity.
  - intros f Hf Hbad. rewrite !lookup_copyKey. cbn. rewrite H2 by discriminate.
    unfold m1. rewrite Hf. cbn [asFloat64]. rewrite lookup_insert_eq.
    unfold Claude.intOf. destruct Hbad as [->|(i & -> & Hout)]; [reflexivity|].
    destruct (Z.leb_spec Int64.minInt i), (Z.leb_spec i Int64.maxInt); cbn [andb];
      try reflexivity.
    exfalso. apply Hout. split; assumption.
  - rewrite !lookup_copyKey. cbn. unfold m2.
    destruct (asSlice (requestData !! "messages")); cbn.
    + apply lookup_insert_eq.
    + rewrite H1 by discriminate. apply H0. discriminate.
  - rewrite !lookup_copyKey. cbn.
    destruct (requestData !! "temperature"); [reflexivity|].
    rewrite H2, H1 by discriminate. apply H0. discriminate.
  - rewrite !lookup_copyKey. cbn.
    destruct (requestData !! "top_p"); [reflexivity|].
    rewrite H2, H1 by discriminate. apply H0. discriminate.
  - rewrite !lookup_copyKey. cbn.
    destruct (requestData !! "stream"); [reflexivity|].
    rewrite H2, H1 by discriminate. apply H0. discriminate.
Qed.

(** *** Claude: the response *)

(** The text [extractClaudeContent] looks for: the [text], a string, of the
    first element, an object, of the [content], an array. *)
Definition claudeText (claudeData : gmap string value) (text : string) : Prop :=
  exists item rest,
    claudeData !! "content" = Some (JArray (JObject item :: rest)) /\
    item !! "text" = Some (JString text).

(** [convertFromClaudeFormat].
    - A response that does not parse is passed on as it is.
    - A response that parses gives a chat completion whose model is the
      [model] field of the response ([null] when missing), with one choice
      whose finish reason is [stop] and whose content is the text of the
      first content block, and the empty string in every other case,
      whether there is no content, an empty array, or a first block
      without a text (a tool use, for instance).
    - [usage] is present exactly when the response has an object there,
      and is that object unchanged: its fields keep the names Claude gave
      them. *)
Theorem convertFromClaudeFormat_spec (p : Claude.ClaudeProvider) (claudeResponse : string)
    (idTime created : Z) :
  Claude.convertFromClaudeFormat p claudeResponse None idTime created
  = Claude.Raw claudeResponse /\
  (forall claudeData, exists out,
     Claude.convertFromClaudeFormat p claudeResponse (Some claudeData) idTime created
       = Claude.Marshal out /\
     (forall key, key <> "usage" ->
        out !! key = completion (element claudeData "model")
                       (Claude.extractClaudeContent claudeData) idTime created !! key) /\
     out !! "usage" = JObject <$> asMap (claudeData !! "usage")) /\
  (forall claudeData text,
     claudeText claudeData text -> Claude.extractClaudeContent claudeData = text) /\
  (forall claudeData,
     (forall text, ~ claudeText claudeData text) ->
     Claude.extractClaudeContent claudeData = "").
Proof.
  split; [reflexivity|]. split; [|split].
  - intros claudeData. unfold Claude.convertFromClaudeFormat.
    fold (choices (Claude.extractClaudeContent claudeData)).
    fold (completion (element claudeData "model")
            (Claude.extractClaudeContent claudeData) idTime created).
    eexists. split; [reflexivity|].
    destruct (asMap (claudeData !! "usage")) as [usage|]; cbn.
    + split; [|apply lookup_insert_eq].
      intros key Hk. apply lookup_insert_ne. congruence.
    + split; [reflexivity|].
      apply (proj2 (proj2 (proj2 (proj2 (proj2 (completion_lookup _ _ _ _))))));
        discriminate.
  - intros claudeData text (item & rest & Hc & Ht). unfold Claude.extractClaudeContent.
    rewrite Hc. cbn [asSlice asMap]. rewrite Ht. reflexivity.
  - intros claudeData Hno. unfold Claude.extractClaudeContent.
    destruct (claudeData !! "content") as [[| | | | |blocks|]|] eqn:Hc; try reflexivity.
    destruct blocks as [|[| | | | | |item] rest]; try reflexivity.
    cbn [asSlice asMap].
    destruct (item !! "text") as [[| | | |text| |]|] eqn:Ht; try reflexivity.
    exfalso. apply (Hno text). exists item, rest. auto.
Qed.

(** A first block that is a tool use, and an empty array of candidates:
    the content is empty. The conversion of a number to [max_tokens]. *)
Example conversions_on_edge_inputs :
  Claude.extractClaudeContent
    (<["content" :=
         JArray [JObject (<["type" := JString "tool_use"]> ∅);
                 JObject (<["type" := JString "text"]>
                         (<["text" := JString "hello"]> ∅))]]> ∅) = "" /\
  Gemini.extractGeminiContent (<["candidates" := JArray []]> ∅) = "" /\
  Claude.truncate 1024.9 = Some 1024 /\
  Claude.truncate (-2.5) = Some (-2) /\
  Claude.intOf (fun _ => Int64.minInt) 1e30 = Int64.minInt /\
  Claude.intOf (fun _ => Int64.minInt) infinity = Int64.minInt.
Proof. repeat split; vm_compute; reflexivity. Qed.

End ConversionSpec.
